(** * The wallet-provisioning pipeline: a shallow embedding

    Two services are embedded: the verification service
    ([user_verification_service]) and the wallet service
    ([wallet_service]).  Coroutines are modelled as functions that pass
    the mutable state of the process explicitly; an [await] is a call.
    Exceptions are values of [Exn]; a call that may raise returns a
    [Res].  Readings of the process clock ([time.time()],
    [datetime.now()]) are arguments of the operation that reads them:
    a binary64 number is the rational it stands for, and an operation
    on floats rounds its exact result to the nearest binary64 number
    ([Float64.fl]); results beyond the range of a float are outside
    the model.  Logging calls are left out.

    Strings are byte strings: [len] is [String.length] and [str.lower]
    acts on the ASCII letters, which is what Python does on ASCII
    input; they hold no NUL character, which a text column refuses. *)

From Stdlib Require Import ZArith QArith Qround Qpower Lqa List String Ascii Bool Lia Sorted.
From stdpp Require Import base gmap strings list pretty.
Close Scope Q_scope.
Local Open Scope Z_scope.

(** ** Python prelude *)

Module Py.

(** The exception classes the two services raise or meet.  The
    [WalletServiceException] family is [wallet_service/core/exceptions.py];
    the others are raised by the standard library, pydantic and
    SQLAlchemy. *)
Inductive Exn : Type :=
| ValueError (msg : string)
| TypeError (msg : string)
| AttributeError (msg : string)
| BinasciiError (msg : string)
| ValidationError (msg : string)
| IntegrityError (msg : string)
| DBAPIError (msg : string)
| PendingRollbackError
| MultipleResultsFound
| WalletAlreadyExistsException
| WalletNotFoundException
| InvalidNetworkException (msg : string)
| WalletGenerationException (msg : string)
| MnemonicSecurityException (msg : string).

(** [str(e)] for an exception value. *)
Definition Exn_str (e : Exn) : string :=
  match e with
  | ValueError m | TypeError m | AttributeError m | BinasciiError m
  | ValidationError m | IntegrityError m | DBAPIError m
  | InvalidNetworkException m
  | WalletGenerationException m | MnemonicSecurityException m => m
  | PendingRollbackError =>
      "This Session's transaction has been rolled back due to a previous exception during flush"
  | MultipleResultsFound => "Multiple rows were found when one or none was required"
  | WalletAlreadyExistsException | WalletNotFoundException => ""
  end.

(** [isinstance(e, WalletAlreadyExistsException)]: the class has no
    subclass in the repository. *)
Definition is_WalletAlreadyExists (e : Exn) : bool :=
  match e with WalletAlreadyExistsException => true | _ => false end.

Inductive Res (A : Type) : Type :=
| Ok (a : A)
| Raise (e : Exn).
Arguments Ok {A} a.
Arguments Raise {A} e.

Definition is_Ok {A} (r : Res A) : bool :=
  match r with Ok _ => true | Raise _ => false end.

(** Rational comparisons as booleans. *)
Definition Qltb (a b : Q) : bool := negb (Qle_bool b a).
Definition Qnonzero (a : Q) : bool := negb (Qeq_bool a 0).

(** [str.lower] on ASCII. *)
Definition lower_ascii (c : ascii) : ascii :=
  let n := nat_of_ascii c in
  if (65 <=? n)%nat && (n <=? 90)%nat then ascii_of_nat (n + 32) else c.

Fixpoint lower (s : string) : string :=
  match s with
  | EmptyString => EmptyString
  | String c r => String (lower_ascii c) (lower r)
  end.

(** [all(c in chars for c in s)]. *)
Fixpoint mem_ascii (c : ascii) (chars : string) : bool :=
  match chars with
  | EmptyString => false
  | String d r => if Ascii.eqb c d then true else mem_ascii c r
  end.

Fixpoint all_in (chars : string) (s : string) : bool :=
  match s with
  | EmptyString => true
  | String c r => mem_ascii c chars && all_in chars r
  end.

(** [s[n:]]. *)
Fixpoint drop_str (n : nat) (s : string) : string :=
  match n, s with
  | O, _ => s
  | S n', String _ r => drop_str n' r
  | S _, EmptyString => EmptyString
  end.

(** [l[-n:]] for a positive [n]: the last [n] elements, the whole list
    when it is shorter. *)
Definition last_n {A} (n : Z) (l : list A) : list A :=
  drop (length l - Z.to_nat n)%nat l.

(** [len(l)]. *)
Definition len {A} (l : list A) : Z := Z.of_nat (length l).

End Py.
Import Py.

(** ** Floats

    [time.time()] returns a float and [time.time() + ttl] is a float
    addition.  The finite binary64 numbers are the rationals
    [m * 2 ^ e] with [|m| < 2 ^ 53] and [e >= -1074]; an operation
    returns the one nearest to its exact result, the one with the even
    [m] when two are equally near. *)

Module Float64.

(** [floor (log2 q)] for a positive [q]. *)
Definition ilog2 (q : Q) : Z :=
  let k := Z.log2 (Qnum q) - Z.log2 (Zpos (Qden q)) in
  if Qle_bool (2 ^ k)%Q q then k else k - 1.

(** The exponent of the spacing of the binary64 numbers around a
    positive [q]: 53 significant bits, and no spacing finer than
    [2 ^ -1074]. *)
Definition ulp_exponent (q : Q) : Z := Z.max (ilog2 q - 52) (-1074).

(** The nearest integer, the even one of two that are equally near. *)
Definition round_half_even (q : Q) : Z :=
  let f := Qfloor q in
  match (q - inject_Z f ?= 1 # 2)%Q with
  | Lt => f
  | Gt => f + 1
  | Eq => if Z.even f then f else f + 1
  end.

Definition round_positive (q : Q) : Q :=
  let e := ulp_exponent q in
  (inject_Z (round_half_even (q / 2 ^ e)) * 2 ^ e)%Q.

(** The binary64 number nearest to [q]. *)
Definition fl (q : Q) : Q :=
  match Qnum q with
  | Z0 => 0%Q
  | Zpos _ => round_positive q
  | Zneg _ => (- round_positive (- q))%Q
  end.

(** [float(z)] for an [int], and the sum of a float and an [int]. *)
Definition of_int (z : Z) : Q := fl (inject_Z z).

Definition add_int (x : Q) (z : Z) : Q := fl (x + of_int z).

End Float64.

(** ** wallet_service/domain/models/wallet.py *)

Module WalletModel.

Inductive NetworkType : Type := ETHEREUM | TRON | BITCOIN.

Definition NetworkType_value (n : NetworkType) : string :=
  match n with
  | ETHEREUM => "ethereum"
  | TRON => "tron"
  | BITCOIN => "bitcoin"
  end.

(** [NetworkType(s)]: lookup by value. *)
Definition NetworkType_of (s : string) : Res NetworkType :=
  if String.eqb s "ethereum" then Ok ETHEREUM
  else if String.eqb s "tron" then Ok TRON
  else if String.eqb s "bitcoin" then Ok BITCOIN
  else Raise (ValueError ("'" +:+ s +:+ "' is not a valid NetworkType")).

(** How an f-string renders a member of a [str]-mixin enum (the
    qualified name from Python 3.11 on; only exception texts use it). *)
Definition NetworkType_format (n : NetworkType) : string :=
  match n with
  | ETHEREUM => "NetworkType.ETHEREUM"
  | TRON => "NetworkType.TRON"
  | BITCOIN => "NetworkType.BITCOIN"
  end.

(** The dataclass.  [id] is the UUID the repository assigns, modelled
    as a counter value; [_address_checksum] (a SHA-256 digest nothing
    reads) and [_derivation_path] (never set) are left out. *)
Record Wallet : Type := {
  user_id : string;
  network : NetworkType;
  wallet_address : string;
  derivation_index : Z;
  id : option nat;
  created_at : Q;
  last_accessed_at : option Q
}.

Definition _validate_ethereum_address (addr : string) : bool :=
  String.prefix "0x" addr && (String.length addr =? 42)%nat.

Definition _validate_tron_address (addr : string) : bool :=
  String.prefix "T" addr && (String.length addr =? 34)%nat.

Definition _validate_bitcoin_address (addr : string) : bool :=
  (26 <=? String.length addr)%nat && (String.length addr <=? 35)%nat.

(** [validators.get(self.network)] finds a validator for each of the
    three members. *)
Definition _validate_address (n : NetworkType) (addr : string) : bool :=
  match n with
  | ETHEREUM => _validate_ethereum_address addr
  | TRON => _validate_tron_address addr
  | BITCOIN => _validate_bitcoin_address addr
  end.

(** [Wallet(user_id=..., network=..., wallet_address=...,
    derivation_index=...)] with [__post_init__]; [now] is the reading of
    [datetime.now] for [created_at]. *)
Definition Wallet_new (u : string) (n : NetworkType) (addr : string)
    (idx : Z) (now : Q) : Res Wallet :=
  if _validate_address n addr then
    Ok {| user_id := u; network := n; wallet_address := addr;
          derivation_index := idx; id := None; created_at := now;
          last_accessed_at := None |}
  else
    Raise (ValueError ("Invalid " +:+ NetworkType_format n +:+ " address format")).

(** What the constructor checks, as a proposition. *)
Definition constructor_rule (n : NetworkType) (addr : string) : Prop :=
  match n with
  | ETHEREUM => String.prefix "0x" addr = true /\ String.length addr = 42%nat
  | TRON => String.prefix "T" addr = true /\ String.length addr = 34%nat
  | BITCOIN => (26 <= String.length addr <= 35)%nat
  end.

(** The format rule as the data model of the specification words it:
    the checksum predicates of Keccak (EIP-55) and Base58Check are
    parameters. *)
Definition hex_chars : string := "0123456789abcdefABCDEF".
Definition base58_chars : string :=
  "123456789ABCDEFGHJKLMNPQRSTUVWXYZabcdefghijkmnopqrstuvwxyz".

Definition spec_address_rule (keccak_ok base58check_ok : string -> Prop)
    (n : NetworkType) (addr : string) : Prop :=
  match n with
  | ETHEREUM =>
      String.prefix "0x" addr = true /\ String.length addr = 42%nat /\
      all_in hex_chars (drop_str 2 addr) = true /\ keccak_ok addr
  | TRON =>
      String.prefix "T" addr = true /\ String.length addr = 34%nat /\
      all_in base58_chars addr = true /\ base58check_ok addr
  | BITCOIN =>
      (26 <= String.length addr <= 35)%nat /\ all_in base58_chars addr = true
  end.

End WalletModel.
Import WalletModel.

(** ** A state-and-exception monad for the coroutines *)

Module Co.

(** A coroutine over the state [S]: it ends with a value or an
    exception, and in both cases leaves a state behind. *)
Definition M (S A : Type) : Type := S -> Res A * S.

Definition ret {S A} (a : A) : M S A := fun s => (Ok a, s).
Definition raise {S A} (e : Exn) : M S A := fun s => (Raise e, s).
Definition bind {S A B} (c : M S A) (k : A -> M S B) : M S B :=
  fun s => match c s with
           | (Ok a, s') => k a s'
           | (Raise e, s') => (Raise e, s')
           end.
Definition read {S} : M S S := fun s => (Ok s, s).
Definition modify {S} (f : S -> S) : M S unit := fun s => (Ok tt, f s).
(** [lift]: the result of a pure call that may raise. *)
Definition lift {S A} (r : Res A) : M S A := fun s => (r, s).
(** [try: c except Exception as e: h e]. *)
Definition try_except {S A} (c : M S A) (h : Exn -> M S A) : M S A :=
  fun s => match c s with
           | (Ok a, s') => (Ok a, s')
           | (Raise e, s') => h e s'
           end.

End Co.
Import Co.

Notation "x <~ c ;; k" := (bind c (fun x => k))
  (at level 100, c at next level, right associativity).
Notation "c ;;; k" := (bind c (fun _ => k))
  (at level 100, right associativity).

(** ** wallet_service/core/config.py and the values a cache holds *)

Module WalletConfig.

Record Settings : Type := {
  mnemonic : string;
  mnemonic_encrypted : bool;
  encryption_key : option string;
  cache_ttl_seconds : Z;
  cache_key_prefix : string;
  max_concurrent_generations : Z
}.

(** The defaults of [Settings]. *)
Definition default_settings : Settings := {|
  mnemonic := "abandon abandon abandon abandon abandon abandon abandon abandon abandon abandon abandon about";
  mnemonic_encrypted := false;
  encryption_key := None;
  cache_ttl_seconds := 3600;
  cache_key_prefix := "wallet:";
  max_concurrent_generations := 50
|}.

End WalletConfig.
Import WalletConfig.

(** The objects the services put in the cache ([Any] in the source):
    wallets, derivation indices, and the dictionaries of the HTTP
    middleware. *)
Inductive PyVal : Type :=
| PyNone
| PyInt (z : Z)
| PyStr (s : string)
| PyWallet (w : Wallet)
| PyDict (items : list (string * string)).

(** Truth value of an object in an [if]. *)
Definition truthy (v : PyVal) : bool :=
  match v with
  | PyNone => false
  | PyInt z => negb (z =? 0)
  | PyStr s => negb (String.eqb s "")
  | PyWallet _ => true
  | PyDict items => match items with [] => false | _ => true end
  end.

(** ** wallet_service/infrastructure/cache/cache_service.py *)

Module CacheService.

(** [_store: dict[str, tuple[float, Any]]]. *)
Abbreviation Store := (gmap string (Q * PyVal)).

Definition _prefixed (settings : Settings) (key : string) : string :=
  cache_key_prefix settings +:+ key.

(** [get]: [now] is the reading of [time.time()]. *)
Definition get (settings : Settings) (now : Q) (key : string)
    (store : Store) : PyVal * Store :=
  let full_key := _prefixed settings key in
  match store !! full_key with
  | None => (PyNone, store)
  | Some (expiry, value) =>
      if Qnonzero expiry && Qltb expiry now
      then (PyNone, delete full_key store)
      else (value, store)
  end.

(** [set]: [ttl or settings.cache_ttl_seconds], then
    [time.time() + ttl if ttl else 0]; the sum is a float. *)
Definition set (settings : Settings) (now : Q) (key : string)
    (value : PyVal) (ttl : option Z) (store : Store) : Store :=
  let ttl :=
    match ttl with
    | Some t => if t =? 0 then cache_ttl_seconds settings else t
    | None => cache_ttl_seconds settings
    end in
  let expiry := if ttl =? 0 then 0%Q else Float64.add_int now ttl in
  let full_key := _prefixed settings key in
  <[full_key := (expiry, value)]> store.

Definition delete (settings : Settings) (key : string) (store : Store) : Store :=
  base.delete (_prefixed settings key) store.

Definition close (store : Store) : Store := ∅.

End CacheService.

(** ** wallet_service/infrastructure/repositories/wallet_repository.py
    over the table of [infrastructure/database/models.py] *)

Module WalletRepository.

(** A row of [wallets].  [wallet_address] is the only [unique] column
    besides the primary key. *)
Record WalletRow : Type := {
  row_id : nat;
  row_user_id : string;
  row_network : string;
  row_wallet_address : string;
  row_derivation_index : Z;
  row_created_at : Q;
  row_last_accessed_at : option Q;
  row_version : Z
}.

(** The one [AsyncSession] of the process ([main.py] makes it once and
    nothing commits it): [rows] is the table as its transaction sees
    it, [committed] the table as it was when the transaction began,
    [next_uuid] the source of fresh UUIDs.  A flush that fails rolls
    the transaction back, which leaves the table at [committed], and
    from then on ([rolled_back]) every call on the session raises
    [PendingRollbackError], since nothing calls [rollback()]. *)
Record Db : Type := {
  rows : list WalletRow;
  committed : list WalletRow;
  next_uuid : nat;
  rolled_back : bool
}.

Definition empty_db : Db :=
  {| rows := []; committed := []; next_uuid := 0; rolled_back := false |}.

(** The session after a flush has failed. *)
Definition fail_flush (db : Db) : Db :=
  {| rows := committed db; committed := committed db;
     next_uuid := next_uuid db; rolled_back := true |}.

(** The range of an [Integer] column. *)
Definition int32 (z : Z) : bool := (-2147483648 <=? z) && (z <=? 2147483647).

Definition _to_domain (r : WalletRow) : Res Wallet :=
  match NetworkType_of (row_network r) with
  | Raise e => Raise e
  | Ok n =>
      match Wallet_new (row_user_id r) n (row_wallet_address r)
              (row_derivation_index r) (row_created_at r) with
      | Raise e => Raise e
      | Ok w =>
          Ok {| user_id := user_id w; network := network w;
                wallet_address := wallet_address w;
                derivation_index := derivation_index w;
                id := Some (row_id r);
                created_at := row_created_at r;
                last_accessed_at := row_last_accessed_at r |}
      end
  end.

(** [create]: the flush raises when [derivation_index] does not fit
    the [Integer] column (the driver refuses the argument) and when
    the new address is already in the table. *)
Definition create (w : Wallet) (db : Db) : Res Wallet * Db :=
  if rolled_back db then (Raise PendingRollbackError, db)
  else if negb (int32 (derivation_index w))
  then (Raise (DBAPIError "value out of int32 range"), fail_flush db)
  else if existsb (fun r => String.eqb (row_wallet_address r) (wallet_address w)) (rows db)
  then (Raise (IntegrityError "duplicate key value violates unique constraint"),
        fail_flush db)
  else
    let new_id := next_uuid db in
    let r := {| row_id := new_id; row_user_id := user_id w;
                row_network := NetworkType_value (network w);
                row_wallet_address := wallet_address w;
                row_derivation_index := derivation_index w;
                row_created_at := created_at w;
                row_last_accessed_at := None;
                row_version := 1 |} in
    (Ok {| user_id := user_id w; network := network w;
           wallet_address := wallet_address w;
           derivation_index := derivation_index w;
           id := Some new_id;
           created_at := created_at w;
           last_accessed_at := last_accessed_at w |},
     {| rows := rows db ++ [r]; committed := committed db;
        next_uuid := S new_id; rolled_back := false |}).

Definition matches (u n : string) (r : WalletRow) : bool :=
  String.eqb (row_user_id r) u && String.eqb (row_network r) n.

(** [get_by_user_and_network] with [scalar_one_or_none]. *)
Definition get_by_user_and_network (u n : string) (db : Db) : Res (option Wallet) :=
  if rolled_back db then Raise PendingRollbackError
  else
    match List.filter (matches u n) (rows db) with
    | [] => Ok None
    | [r] => match _to_domain r with
             | Ok w => Ok (Some w)
             | Raise e => Raise e
             end
    | _ => Raise MultipleResultsFound
    end.

(** [select max(derivation_index) where network = n]. *)
Definition max_index (n : string) (db : Db) : option Z :=
  fold_left
    (fun acc r =>
       if String.eqb (row_network r) n then
         match acc with
         | None => Some (row_derivation_index r)
         | Some m => Some (Z.max m (row_derivation_index r))
         end
       else acc)
    (rows db) None.

Definition get_next_derivation_index (n : string) (db : Db) : Res Z :=
  if rolled_back db then Raise PendingRollbackError
  else
    match max_index n db with
    | None => Ok 0
    | Some m => Ok (m + 1)
    end.

End WalletRepository.

(** ** wallet_service/services/derivation_service.py *)

Module DerivationService.

(** [get_next_index]: [t_get] and [t_set] are the clock readings of the
    [cache.get] and of the [cache.set] of the call; the per-network lock
    makes the call atomic. *)
Definition get_next_index (settings : Settings) (db : WalletRepository.Db)
    (t_get t_set : Q) (network : string) (store : CacheService.Store)
    : Res Z * CacheService.Store :=
  let cache_key := "next_index:" +:+ network in
  let '(cached_index, store1) := CacheService.get settings t_get cache_key store in
  match cached_index with
  | PyNone =>
      match WalletRepository.get_next_derivation_index network db with
      | Ok next_index =>
          (Ok next_index,
           CacheService.set settings t_set cache_key (PyInt (next_index + 1)) None
             store1)
      | Raise e => (Raise e, store1)
      end
  | PyInt c =>
      let next_index := c + 1 in
      (Ok c, CacheService.set settings t_set cache_key (PyInt next_index) None store1)
  | _ => (Raise (TypeError "unsupported operand type(s) for +"), store1)
  end.

(** The indices a process obtains from successive calls; each call
    comes with the table as it is then and its two clock readings. *)
Fixpoint successive_calls (settings : Settings) (network : string)
    (calls : list (WalletRepository.Db * Q * Q)) (store : CacheService.Store)
    : list (Res Z) :=
  match calls with
  | [] => []
  | (db, t_get, t_set) :: rest =>
      let '(r, store') := get_next_index settings db t_get t_set network store in
      r :: successive_calls settings network rest store'
  end.

End DerivationService.

(** ** wallet_service/infrastructure/crypto: the generators *)

Module Generators.

(** [bytes] values are byte strings. *)
Abbreviation bytes := string.

(** The functions of eth_account, eth_utils, tronpy, bitcoinlib,
    hashlib and cryptography the generators call.  [valid_chars] is
    [CryptoConfigs.valid_chars] of [wallet_service/core/base.py], a
    constant whose file is not among the sources. *)
Class CryptoLib : Type := {
  Mnemonic_to_seed : string -> string -> bytes;
  sha256_digest : bytes -> bytes;
  Account_from_key_address : bytes -> Res string;
  to_checksum_address : string -> Res string;
  PrivateKey_base58check_address : bytes -> Res string;
  Tron_is_address : string -> bool;
  HDKey_derive_address : bytes -> string -> Res string;
  valid_chars : string;
  decrypt_mnemonic : string -> string -> Res string
}.

(** [IWalletGenerator], as [BaseWalletGenerator] leaves it to its
    subclasses. *)
Record WalletGenerator : Type := {
  base_derivation_path : string;
  generate_address : bytes -> string -> Res string;
  validate_address : string -> Res bool
}.

(** [_path_cache]. *)
Abbreviation PathCache := (gmap Z string).

Section WithLib.
Context {lib : CryptoLib}.

Definition EthereumWalletGenerator : WalletGenerator := {|
  base_derivation_path := "m/44'/60'/0'/0";
  generate_address := fun seed path =>
    let derived_key := sha256_digest (seed +:+ path) in
    match Account_from_key_address derived_key with
    | Ok a => to_checksum_address a
    | Raise e => Raise e
    end;
  validate_address := fun address =>
    match to_checksum_address address with
    | Ok c => Ok (String.eqb address c)
    | Raise e => Raise e
    end
|}.

Definition TronWalletGenerator : WalletGenerator := {|
  base_derivation_path := "m/44'/195'/0'/0";
  generate_address := fun seed path =>
    let derived_seed := sha256_digest (seed +:+ path) in
    PrivateKey_base58check_address derived_seed;
  validate_address := fun address =>
    Ok (String.prefix "T" address && (String.length address =? 34)%nat
        && Tron_is_address address)
|}.

Definition BitcoinWalletGenerator : WalletGenerator := {|
  base_derivation_path := "m/44'/0'/0'/0";
  generate_address := fun seed path => HDKey_derive_address seed path;
  validate_address := fun address =>
    if (String.length address <? 26)%nat || (35 <? String.length address)%nat
    then Ok false
    else Ok (all_in valid_chars address)
|}.

(** [WalletGeneratorFactory._generator_classes]. *)
Definition generator_of (n : NetworkType) : WalletGenerator :=
  match n with
  | ETHEREUM => EthereumWalletGenerator
  | TRON => TronWalletGenerator
  | BITCOIN => BitcoinWalletGenerator
  end.

Definition get_derivation_path (g : WalletGenerator) (index : Z)
    : M PathCache string :=
  fun cache =>
    match cache !! index with
    | Some p => (Ok p, cache)
    | None =>
        let p := base_derivation_path g +:+ "/" +:+ pretty index in
        (Ok p, <[index := p]> cache)
    end.

Definition _derive_seed (mnemonic user_id : string) : bytes :=
  let passphrase := "wallet-service:" +:+ user_id in
  Mnemonic_to_seed mnemonic passphrase.

(** [BaseWalletGenerator.generate], the template method. *)
Definition generate (g : WalletGenerator) (mnemonic user_id : string)
    (derivation_index : Z) : M PathCache string :=
  let seed := _derive_seed mnemonic user_id in
  path <~ get_derivation_path g derivation_index ;;
  address <~ lift (generate_address g seed path) ;;
  valid <~ lift (validate_address g address) ;;
  if negb valid
  then raise (WalletGenerationException ("Generated invalid address: " +:+ address))
  else ret address.

(** The generator after a sequence of [generate] calls, whatever they
    returned. *)
Definition after_calls (g : WalletGenerator) (calls : list (string * string * Z))
    (cache : PathCache) : PathCache :=
  fold_left (fun c '(m, u, i) => snd (generate g m u i c)) calls cache.

(** [Settings.decrypted_mnemonic]; the attribute that memoises it holds
    the value this function returns. *)
Definition decrypted_mnemonic (settings : Settings) : Res string :=
  match mnemonic_encrypted settings, encryption_key settings with
  | true, Some k =>
      if String.eqb k "" then Ok (mnemonic settings)
      else decrypt_mnemonic (mnemonic settings) k
  | _, _ => Ok (mnemonic settings)
  end.

End WithLib.

End Generators.

(** ** The built-in [set] of strings *)

Module PySet.

(** A set is kept as the list of its members, without repeats, in the
    order they were added.  That order is only a record of the history:
    the program sees the members through [in], [len] and iteration, and
    iteration follows the slots of the hash table, not the history. *)
Abbreviation t := (list string).

(** The order in which the runtime iterates over a set of strings, as
    a function of the set's history: it depends on the hash of each
    string (seeded per process) and on the table, and lists each member
    once. *)
Class Runtime : Type := {
  set_iter : t -> list string;
  set_iter_perm : forall s : t, NoDup s -> Permutation (set_iter s) s
}.

Definition empty : t := [].
Definition mem (k : string) (s : t) : bool := existsb (String.eqb k) s.
Definition add (k : string) (s : t) : t := if mem k s then s else s ++ [k].
Definition discard (k : string) (s : t) : t :=
  List.filter (fun x => negb (String.eqb k x)) s.
(** [set(l)]. *)
Definition of_list (l : list string) : t := fold_left (fun s k => add k s) l empty.
(** [list(s)]. *)
Definition to_list {rt : Runtime} (s : t) : list string := set_iter s.

End PySet.

(** ** wallet_service/domain/schemas/events.py *)

Module WalletEvents.

(** A [datetime], by what [str] prints for it. *)
Record datetime : Type := { datetime_str : string }.

(** A decoded JSON value ([json.loads]); an object lists its members in
    the order of the text. *)
#[warnings="-register-all"]
Inductive JSON : Type :=
| JNull
| JBool (b : bool)
| JNumber (q : Q)
| JString (s : string)
| JArray (items : list JSON)
| JObject (members : list (string * JSON)).

(** The value of a key in the [dict] made from an object: the last of
    repeated members wins. *)
Fixpoint dict_get (k : string) (members : list (string * JSON)) : option JSON :=
  match members with
  | [] => None
  | (k', v) :: rest =>
      match dict_get k rest with
      | Some v' => Some v'
      | None => if String.eqb k k' then Some v else None
      end
  end.

Record UserVerifiedEvent : Type := {
  event : string;
  ev_user_id : string;
  ev_network : string;
  timestamp : option datetime
}.

(** pydantic's validation of a required [str] field. *)
Definition str_field (name : string) (members : list (string * JSON)) : Res string :=
  match dict_get name members with
  | Some (JString s) => Ok s
  | Some _ => Raise (ValidationError (name +:+ ": Input should be a valid string"))
  | None => Raise (ValidationError (name +:+ ": Field required"))
  end.

(** The model built from the members of the message value, as the
    consumer does; [validate_datetime] is pydantic's reading of a value
    as a [datetime]. *)
Definition UserVerifiedEvent_new (validate_datetime : JSON -> Res datetime)
    (value : JSON) : Res UserVerifiedEvent :=
  match value with
  | JObject members =>
      match str_field "event" members with
      | Raise e => Raise e
      | Ok e =>
      match str_field "user_id" members with
      | Raise e => Raise e
      | Ok u =>
      match str_field "network" members with
      | Raise e => Raise e
      | Ok n =>
      match dict_get "timestamp" members with
      | None | Some JNull =>
          Ok {| event := e; ev_user_id := u; ev_network := n; timestamp := None |}
      | Some v =>
          match validate_datetime v with
          | Ok d => Ok {| event := e; ev_user_id := u; ev_network := n;
                          timestamp := Some d |}
          | Raise e => Raise e
          end
      end end end end
  | _ => Raise (TypeError "argument after ** must be a mapping")
  end.

(** [f"{timestamp}"] for [datetime | None]. *)
Definition timestamp_format (t : option datetime) : string :=
  match t with
  | None => "None"
  | Some d => datetime_str d
  end.

End WalletEvents.

(** ** wallet_service/services: the wallet service, the event handler
    and the consumer's dispatch *)

Module WalletService.
Import Generators WalletEvents.

(** The mutable state of the wallet-service process: the handler's
    [_processed_events], the cache's [_store], the table as the session
    sees it, the [_path_cache] of each generator of the factory, and
    the wallets whose [wallet.created] publication has been handed to
    [asyncio.create_task]. *)
Record World : Type := {
  processed_events : PySet.t;
  store : CacheService.Store;
  db : WalletRepository.Db;
  eth_paths : PathCache;
  tron_paths : PathCache;
  btc_paths : PathCache;
  tasks : list Wallet
}.

(** The process as [lifespan] starts it, over a given table. *)
Definition initial_world (d : WalletRepository.Db) : World := {|
  processed_events := PySet.empty; store := ∅; db := d;
  eth_paths := ∅; tron_paths := ∅; btc_paths := ∅; tasks := []
|}.

Definition with_processed (f : PySet.t -> PySet.t) (w : World) : World :=
  {| processed_events := f (processed_events w); store := store w; db := db w;
     eth_paths := eth_paths w; tron_paths := tron_paths w;
     btc_paths := btc_paths w; tasks := tasks w |}.

Definition with_store (st : CacheService.Store) (w : World) : World :=
  {| processed_events := processed_events w; store := st; db := db w;
     eth_paths := eth_paths w; tron_paths := tron_paths w;
     btc_paths := btc_paths w; tasks := tasks w |}.

Definition with_db (d : WalletRepository.Db) (w : World) : World :=
  {| processed_events := processed_events w; store := store w; db := d;
     eth_paths := eth_paths w; tron_paths := tron_paths w;
     btc_paths := btc_paths w; tasks := tasks w |}.

Definition paths_of (n : NetworkType) (w : World) : PathCache :=
  match n with
  | ETHEREUM => eth_paths w
  | TRON => tron_paths w
  | BITCOIN => btc_paths w
  end.

Definition with_paths (n : NetworkType) (c : PathCache) (w : World) : World :=
  {| processed_events := processed_events w; store := store w; db := db w;
     eth_paths := match n with ETHEREUM => c | _ => eth_paths w end;
     tron_paths := match n with TRON => c | _ => tron_paths w end;
     btc_paths := match n with BITCOIN => c | _ => btc_paths w end;
     tasks := tasks w |}.

Definition with_task (wl : Wallet) (w : World) : World :=
  {| processed_events := processed_events w; store := store w; db := db w;
     eth_paths := eth_paths w; tron_paths := tron_paths w;
     btc_paths := btc_paths w; tasks := tasks w ++ [wl] |}.

(** The clock readings of one [create_wallet]: in the cache lookup, in
    the two cache calls of the index allocation, in the [Wallet]
    constructor, and in the cache write that ends the call. *)
Record Clock : Type := {
  at_lookup : Q;
  at_index_get : Q;
  at_index_set : Q;
  at_created : Q;
  at_store : Q
}.

Section WithEnvironment.
Context (settings : Settings) {lib : CryptoLib} {rt : PySet.Runtime}.
Context (validate_datetime : JSON -> Res datetime).

Definition cache_get (now : Q) (key : string) : M World PyVal :=
  fun w =>
    let '(v, st) := CacheService.get settings now key (store w) in
    (Ok v, with_store st w).

Definition cache_set (now : Q) (key : string) (value : PyVal) : M World unit :=
  fun w => (Ok tt, with_store (CacheService.set settings now key value None (store w)) w).

Definition repository_get_by_user_and_network (u n : string)
    : M World (option Wallet) :=
  fun w => (WalletRepository.get_by_user_and_network u n (db w), w).

Definition repository_create (wl : Wallet) : M World Wallet :=
  fun w =>
    let '(r, d) := WalletRepository.create wl (db w) in
    (r, with_db d w).

Definition get_next_index (clk : Clock) (network : string) : M World Z :=
  fun w =>
    let '(r, st) :=
      DerivationService.get_next_index settings (db w)
        (at_index_get clk) (at_index_set clk) network (store w) in
    (r, with_store st w).

(** A call on the generator the factory keeps for [n]. *)
Definition on_generator {A} (n : NetworkType) (c : M PathCache A) : M World A :=
  fun w =>
    let '(r, cache) := c (paths_of n w) in
    (r, with_paths n cache w).

(** [asyncio.create_task(self._publish_wallet_created(wallet))]. *)
Definition create_task (wl : Wallet) : M World unit :=
  modify (with_task wl).

Definition _generate_wallet (clk : Clock) (user_id network : string)
    : M World Wallet :=
  network_type <~ lift (NetworkType_of (lower network)) ;;
  let generator := generator_of network_type in
  derivation_index <~ get_next_index clk network ;;
  mnemonic <~ lift (decrypted_mnemonic settings) ;;
  address <~ on_generator network_type
               (generate generator mnemonic user_id derivation_index) ;;
  lift (Wallet_new user_id network_type address derivation_index (at_created clk)).

(** [create_wallet] returns whatever the cache holds under the wallet's
    key when that is true in an [if]. *)
Definition create_wallet (clk : Clock) (user_id network : string)
    : M World PyVal :=
  let cache_key := "wallet:" +:+ user_id +:+ ":" +:+ network in
  cached_wallet <~ cache_get (at_lookup clk) cache_key ;;
  if truthy cached_wallet then ret cached_wallet
  else
    existing <~ repository_get_by_user_and_network user_id network ;;
    match existing with
    | Some found =>
        cache_set (at_store clk) cache_key (PyWallet found) ;;;
        ret (PyWallet found)
    | None =>
        try_except
          (wallet <~ _generate_wallet clk user_id network ;;
           wallet <~ repository_create wallet ;;
           cache_set (at_store clk) cache_key (PyWallet wallet) ;;;
           create_task wallet ;;;
           ret (PyWallet wallet))
          (fun e =>
             raise (WalletGenerationException
                      ("Failed to generate wallet: " +:+ Exn_str e)))
    end.

Definition event_key (ev : UserVerifiedEvent) : string :=
  ev_user_id ev +:+ ":" +:+ ev_network ev +:+ ":" +:+ timestamp_format (timestamp ev).

(** The insertion under the lock, with the trim that follows it. *)
Definition remember (key : string) (processed : PySet.t) : PySet.t :=
  let processed := PySet.add key processed in
  if 10000 <? len processed
  then PySet.of_list (last_n 5000 (PySet.to_list processed))
  else processed.

Definition handle_user_verified (clk : Clock) (ev : UserVerifiedEvent)
    : M World unit :=
  let key := event_key ev in
  w <~ read ;;
  if PySet.mem key (processed_events w) then ret tt
  else
    modify (with_processed (remember key)) ;;;
    try_except
      (wallet <~ create_wallet clk (ev_user_id ev) (ev_network ev) ;;
       match wallet with
       | PyWallet _ => ret tt
       | _ => raise (AttributeError "object has no attribute 'wallet_address'")
       end)
      (fun e =>
         if is_WalletAlreadyExists e then ret tt
         else
           modify (with_processed (PySet.discard key)) ;;;
           raise e).

(** [KafkaEventConsumer._process_message] on the decoded value of a
    record. *)
Definition _process_message (clk : Clock) (value : JSON) : M World unit :=
  ev <~ lift (UserVerifiedEvent_new validate_datetime value) ;;
  handle_user_verified clk ev.

End WithEnvironment.

End WalletService.

(** ** user_verification_service *)

Module Verification.
Import Generators.

(** [src/core/config.py], the options the service reads. *)
Record Settings : Type := {
  verification_delay_seconds : Q;
  max_concurrent_verifications : Z;
  max_document_size_mb : Z
}.

Definition default_settings : Settings := {|
  verification_delay_seconds := 3%Q;
  max_concurrent_verifications := 100;
  max_document_size_mb := 10
|}.

(** [src/domain/models/verification.py]. *)
Inductive VerificationStatus : Type := PENDING | VERIFIED | FAILED.

Definition VerificationStatus_value (s : VerificationStatus) : string :=
  match s with
  | PENDING => "pending"
  | VERIFIED => "verified"
  | FAILED => "failed"
  end.

Definition VerificationStatus_of (s : string) : Res VerificationStatus :=
  if String.eqb s "pending" then Ok PENDING
  else if String.eqb s "verified" then Ok VERIFIED
  else if String.eqb s "failed" then Ok FAILED
  else Raise (ValueError ("'" +:+ s +:+ "' is not a valid VerificationStatus")).

Definition is_VERIFIED (s : VerificationStatus) : bool :=
  match s with VERIFIED => true | _ => false end.

Inductive NetworkType : Type := ETHEREUM | TRON | BITCOIN.

Definition NetworkType_value (n : NetworkType) : string :=
  match n with
  | ETHEREUM => "ethereum"
  | TRON => "tron"
  | BITCOIN => "bitcoin"
  end.

Definition NetworkType_of (s : string) : Res NetworkType :=
  if String.eqb s "ethereum" then Ok ETHEREUM
  else if String.eqb s "tron" then Ok TRON
  else if String.eqb s "bitcoin" then Ok BITCOIN
  else Raise (ValueError ("'" +:+ s +:+ "' is not a valid NetworkType")).

Record UserVerification : Type := {
  user_id : string;
  network : NetworkType;
  document_hash : string;
  id : option nat;
  status : VerificationStatus;
  verified_at : option Q;
  created_at : Q
}.

(** [verify]: [now] is the reading of [datetime.now()]. *)
Definition verify (now : Q) (v : UserVerification) : UserVerification :=
  {| user_id := user_id v; network := network v;
     document_hash := document_hash v; id := id v;
     status := VERIFIED; verified_at := Some now; created_at := created_at v |}.

(** A row of [verifications]. *)
Record VerificationRow : Type := {
  row_id : nat;
  row_user_id : string;
  row_network : string;
  row_document_hash : string;
  row_status : string;
  row_verified_at : option Q;
  row_created_at : Q;
  row_version : Z
}.

(** The calls the service makes on its repository, in order. *)
Inductive RepositoryCall : Type :=
| CallGet (u n : string)
| CallSave (v : UserVerification)
| CallUpdateStatus (i : option nat) (s : VerificationStatus).

(** The state of the verification-service process: the table, the
    source of fresh UUIDs, the record of the repository calls made so
    far, and the verifications whose [user.verified] publication has
    been handed to [asyncio.create_task]. *)
Record World : Type := {
  rows : list VerificationRow;
  next_uuid : nat;
  calls : list RepositoryCall;
  tasks : list UserVerification
}.

Definition called (c : RepositoryCall) (w : World) : World :=
  {| rows := rows w; next_uuid := next_uuid w;
     calls := calls w ++ [c]; tasks := tasks w |}.

(** [src/infrastructure/repositories/verification_repository.py]. *)
Definition _to_domain (r : VerificationRow) : Res UserVerification :=
  match NetworkType_of (row_network r) with
  | Raise e => Raise e
  | Ok n =>
      match VerificationStatus_of (row_status r) with
      | Raise e => Raise e
      | Ok s =>
          Ok {| user_id := row_user_id r; network := n;
                document_hash := row_document_hash r; id := Some (row_id r);
                status := s; verified_at := row_verified_at r;
                created_at := row_created_at r |}
      end
  end.

Definition matches (u n : string) (r : VerificationRow) : bool :=
  String.eqb (row_user_id r) u && String.eqb (row_network r) n.

(** What [get_by_user_and_network] finds in a table
    ([scalar_one_or_none]). *)
Definition lookup (u n : string) (table : list VerificationRow)
    : Res (option UserVerification) :=
  match List.filter (matches u n) table with
  | [] => Ok None
  | [r] => match _to_domain r with
           | Ok v => Ok (Some v)
           | Raise e => Raise e
           end
  | _ => Raise MultipleResultsFound
  end.

Definition get_by_user_and_network (u n : string)
    : M World (option UserVerification) :=
  fun w => (lookup u n (rows w), called (CallGet u n) w).

Definition save (v : UserVerification) : M World UserVerification :=
  fun w =>
    let new_id := next_uuid w in
    let r := {| row_id := new_id; row_user_id := user_id v;
                row_network := NetworkType_value (network v);
                row_document_hash := document_hash v;
                row_status := VerificationStatus_value (status v);
                row_verified_at := verified_at v;
                row_created_at := created_at v; row_version := 1 |} in
    (Ok {| user_id := user_id v; network := network v;
           document_hash := document_hash v; id := Some new_id;
           status := status v; verified_at := verified_at v;
           created_at := created_at v |},
     {| rows := rows w ++ [r]; next_uuid := S new_id;
        calls := calls w ++ [CallSave v]; tasks := tasks w |}).

Definition set_status (i : option nat) (s : VerificationStatus)
    (r : VerificationRow) : VerificationRow :=
  if match i with Some k => (row_id r =? k)%nat | None => false end
  then {| row_id := row_id r; row_user_id := row_user_id r;
          row_network := row_network r;
          row_document_hash := row_document_hash r;
          row_status := VerificationStatus_value s;
          row_verified_at := row_verified_at r;
          row_created_at := row_created_at r; row_version := row_version r |}
  else r.

Definition update_status (i : option nat) (s : VerificationStatus) : M World unit :=
  fun w =>
    (Ok tt,
     {| rows := map (set_status i s) (rows w); next_uuid := next_uuid w;
        calls := calls w ++ [CallUpdateStatus i s]; tasks := tasks w |}).

(** [asyncio.create_task(self._publish_event(verification))]. *)
Definition create_task (v : UserVerification) : M World unit :=
  fun w =>
    (Ok tt,
     {| rows := rows w; next_uuid := next_uuid w;
        calls := calls w; tasks := tasks w ++ [v] |}).

(** [base64.b64decode] and [hashlib.sha256(...).hexdigest()]. *)
Class StdLib : Type := {
  b64decode : string -> Res bytes;
  sha256_hexdigest : bytes -> string
}.

Section WithEnvironment.
Context (settings : Settings) {std : StdLib}.

Definition size_limit : Z := max_document_size_mb settings * 1024 * 1024.

(** The part of [verify_user] that follows the lookup when no verified
    row was found; [t_created] and [t_verified] are the readings of
    [datetime.now]. *)
Definition process_new (t_created t_verified : Q) (user_id network : string)
    (document_data : bytes) : M World UserVerification :=
  network_type <~ lift (NetworkType_of network) ;;
  let verification :=
    {| user_id := user_id; network := network_type;
       document_hash := sha256_hexdigest document_data; id := None;
       status := PENDING; verified_at := None; created_at := t_created |} in
  verification <~ save verification ;;
  let verification := verify t_verified verification in
  update_status (id verification) (status verification) ;;;
  create_task verification ;;;
  ret verification.

(** [src/services/verification_service.py]. *)
Definition verify_user (t_created t_verified : Q)
    (user_id network document_base64 : string) : M World UserVerification :=
  document_data <~ lift (b64decode document_base64) ;;
  if size_limit <? Z.of_nat (String.length document_data)
  then raise (ValueError "Document too large")
  else
    existing <~ get_by_user_and_network user_id network ;;
    match existing with
    | Some found =>
        if is_VERIFIED (status found) then ret found
        else process_new t_created t_verified user_id network document_data
    | None => process_new t_created t_verified user_id network document_data
    end.

(** [src/domain/schemas/requests.py]: the validators of
    [VerificationRequest]. *)
Definition supported_networks : list string := ["ethereum"; "tron"; "bitcoin"].

Definition validate_network (v : string) : Res string :=
  if existsb (String.eqb (lower v)) supported_networks
  then Ok (lower v)
  else Raise (ValueError ("Unsupported network: " +:+ v)).

Definition validate_document_base64 (v : string) : Res string :=
  match b64decode v with
  | Ok _ => Ok v
  | Raise _ => Raise (ValueError "Invalid base64 encoding")
  end.

Record VerificationRequest : Type := {
  req_user_id : string;
  req_network : string;
  req_document : string
}.

(** Validation of the three fields of a request body; pydantic gathers
    the failures in one [ValidationError]. *)
Definition VerificationRequest_new (u n d : string) : Res VerificationRequest :=
  if negb ((1 <=? String.length u)%nat && (String.length u <=? 255)%nat)
  then Raise (ValidationError "user_id")
  else if negb (1 <=? String.length n)%nat
  then Raise (ValidationError "network")
  else
    match validate_network n with
    | Raise e => Raise (ValidationError (Exn_str e))
    | Ok n' =>
        match validate_document_base64 d with
        | Raise e => Raise (ValidationError (Exn_str e))
        | Ok d' => Ok {| req_user_id := u; req_network := n'; req_document := d' |}
        end
    end.

(** [POST /verify] up to the call of the service
    ([src/api/routes/verification.py]): the body is validated first. *)
Definition post_verify (t_created t_verified : Q) (u n d : string)
    : M World UserVerification :=
  request <~ lift (VerificationRequest_new u n d) ;;
  verify_user t_created t_verified
    (req_user_id request) (req_network request) (req_document request).

End WithEnvironment.

End Verification.

(** ** Notions the statements below use *)

Section CacheNotions.
Variable settings : Settings.

(** The expiry a [set] writes. *)
Definition entry_expiry (now : Q) (ttl : option Z) : Q :=
  let ttl :=
    match ttl with
    | Some t => if t =? 0 then cache_ttl_seconds settings else t
    | None => cache_ttl_seconds settings
    end in
  if ttl =? 0 then 0%Q else Float64.add_int now ttl.

End CacheNotions.

(** A rational that is a binary64 number, as every reading of
    [time.time()] is; and an [int] a float holds exactly (Python
    raises [OverflowError] when it is asked to add to a float an
    [int] beyond the range of floats). *)
Definition is_float (q : Q) : Prop :=
  (Float64.fl q == q)%Q /\
  (inject_Z (- 2 ^ 1024) < q)%Q /\ (q < inject_Z (2 ^ 1024))%Q.

Definition exact_int (z : Z) : Prop :=
  (Float64.of_int z == inject_Z z)%Q /\ - 2 ^ 1024 < z < 2 ^ 1024.

Section AllocatorNotions.
Variable settings : Settings.





End AllocatorNotions.


(** [z; z + 1; ...], [n] numbers. *)
Fixpoint count_from (z : Z) (n : nat) : list Z :=
  match n with
  | O => []
  | S n' => z :: count_from (z + 1) n'
  end.

Section GeneratorNotions.
Import Generators.
Context {lib : CryptoLib}.

(** The path of an index, and the outcome of [generate] as a function
    of its three arguments alone. *)
Definition path_of (g : WalletGenerator) (index : Z) : string :=
  base_derivation_path g +:+ "/" +:+ pretty index.

Definition generated (g : WalletGenerator) (mnemonic user_id : string)
    (index : Z) : Res string :=
  let seed := Mnemonic_to_seed mnemonic ("wallet-service:" +:+ user_id) in
  match generate_address g seed (path_of g index) with
  | Raise e => Raise e
  | Ok address =>
      match validate_address g address with
      | Raise e => Raise e
      | Ok true => Ok address
      | Ok false =>
          Raise (WalletGenerationException
                   ("Generated invalid address: " +:+ address))
      end
  end.

(** Every path the cache holds is the path of its index. *)
Definition paths_ok (g : WalletGenerator) (cache : PathCache) : Prop :=
  forall (i : Z) (p : string), cache !! i = Some p -> p = path_of g i.

End GeneratorNotions.

(** ** Runtimes and libraries to run the model on examples *)

(** A runtime that iterates over a set in insertion order, as a [dict]
    does over its keys. *)
Definition insertion_ordered : PySet.Runtime := {|
  PySet.set_iter := fun s => s;
  PySet.set_iter_perm := fun s _ => Permutation_refl s
|}.

(** A runtime whose hash order happens to list the members newest
    first. *)
Definition newest_first : PySet.Runtime := {|
  PySet.set_iter := fun s => reverse s;
  PySet.set_iter_perm := fun s _ => reverse_Permutation s
|}.

(** The key of a [user.verified] event of user number [i] on ethereum
    that carries no timestamp. *)
Definition sample_key (i : nat) : string := pretty i +:+ ":ethereum:None".

Section HandlerNotions.
Import WalletService.

(** A coroutine that leaves [_processed_events] alone, whatever it
    returns. *)
Definition keeps_processed {A} (c : M World A) : Prop :=
  forall w : World, processed_events (snd (c w)) = processed_events w.

End HandlerNotions.

(** Stand-ins for the functions of the libraries, to run the model on
    examples: they are deterministic and produce strings of the right
    shape, but they are not the primitives (no hashing, no curve). *)
Section SampleLibrary.
Import Generators.

Definition digit_of (alphabet : string) (c : ascii) : ascii :=
  match String.get (nat_of_ascii c mod 16) alphabet with
  | Some d => d
  | None => "1"%char
  end.

(** The last [n] bytes of [s], left-padded, each mapped to one of the
    first sixteen characters of [alphabet]. *)
Definition squeeze (alphabet : string) (n : nat) (s : string) : string :=
  string_of_list_ascii
    (map (digit_of alphabet)
       (drop (String.length s) (repeat "0"%char n ++ list_ascii_of_string s))).

Definition sample_lib : CryptoLib := {|
  Mnemonic_to_seed := fun m p => m +:+ p;
  sha256_digest := fun b => b;
  Account_from_key_address := fun k => Ok ("0x" +:+ squeeze hex_chars 40 k);
  to_checksum_address := fun a => Ok a;
  PrivateKey_base58check_address := fun k => Ok ("T" +:+ squeeze base58_chars 33 k);
  Tron_is_address := fun _ => true;
  HDKey_derive_address := fun seed path =>
    Ok ("1" +:+ squeeze base58_chars 33 (seed +:+ path));
  valid_chars := base58_chars;
  decrypt_mnemonic := fun m _ => Ok m
|}.

End SampleLibrary.

Section SampleDeliveries.
Import WalletService WalletEvents.

(** A clock that reads [t] throughout a call. *)
Definition clock_at (t : Q) : Clock :=
  {| at_lookup := t; at_index_get := t; at_index_set := t;
     at_created := t; at_store := t |}.

(** Two deliveries for the same user that differ in the spelling of
    the network and in the timestamp. *)
Definition first_delivery : UserVerifiedEvent :=
  {| event := "user.verified"; ev_user_id := "u1"; ev_network := "ethereum";
     timestamp := Some {| datetime_str := "2025-01-01 10:00:00" |} |}.

Definition second_delivery : UserVerifiedEvent :=
  {| event := "user.verified"; ev_user_id := "u1"; ev_network := "ETHEREUM";
     timestamp := Some {| datetime_str := "2025-01-01 10:05:00" |} |}.

(** The process after it has handled the first delivery, started over
    an empty table. *)
Definition after_first_delivery : World :=
  snd (handle_user_verified (lib := sample_lib) (rt := insertion_ordered)
         default_settings (clock_at 1000%Q) first_delivery
         (initial_world WalletRepository.empty_db)).

End SampleDeliveries.

Section SampleMessages.
Import WalletEvents.

(** A stand-in for pydantic's reading of a timestamp: a string is
    taken as it is. *)
Definition sample_validate_datetime (v : JSON) : Res datetime :=
  match v with
  | JString s => Ok {| datetime_str := s |}
  | _ => Raise (ValidationError "timestamp: Input should be a valid datetime")
  end.


End SampleMessages.

(** A stand-in for the standard library of the verification service.
    [sample_b64decode] decodes text over the standard alphabet, four
    characters at a time, with "=" padding in the last group; it
    refuses any other text. *)
Section SampleStdLib.
Import Generators.

Definition b64_alphabet : string :=
  "ABCDEFGHIJKLMNOPQRSTUVWXYZabcdefghijklmnopqrstuvwxyz0123456789+/".

Fixpoint index_of (c : ascii) (alphabet : string) (i : nat) : option nat :=
  match alphabet with
  | EmptyString => None
  | String d r => if Ascii.eqb c d then Some i else index_of c r (S i)
  end.

Definition sextet (c : ascii) : option nat := index_of c b64_alphabet 0.

Definition byte_of (n : nat) : ascii := ascii_of_nat (n mod 256).

Definition bad_padding : Res bytes := Raise (BinasciiError "Incorrect padding").

Fixpoint sample_b64decode (s : string) : Res bytes :=
  match s with
  | EmptyString => Ok EmptyString
  | String a (String b (String c (String d rest))) =>
      match sextet a, sextet b with
      | Some x, Some y =>
          let b0 := byte_of (x * 4 + y / 16) in
          if Ascii.eqb c "=" then
            if Ascii.eqb d "=" then
              match rest with
              | EmptyString => Ok (String b0 EmptyString)
              | _ => bad_padding
              end
            else bad_padding
          else
            match sextet c with
            | None => bad_padding
            | Some z =>
                let b1 := byte_of (y mod 16 * 16 + z / 4) in
                if Ascii.eqb d "=" then
                  match rest with
                  | EmptyString => Ok (String b0 (String b1 EmptyString))
                  | _ => bad_padding
                  end
                else
                  match sextet d with
                  | None => bad_padding
                  | Some t =>
                      let b2 := byte_of (z mod 4 * 64 + t) in
                      match sample_b64decode rest with
                      | Ok tail => Ok (String b0 (String b1 (String b2 tail)))
                      | Raise e => Raise e
                      end
                  end
            end
      | _, _ => bad_padding
      end
  | _ => bad_padding
  end.

Definition sample_std : Verification.StdLib := {|
  Verification.b64decode := sample_b64decode;
  Verification.sha256_hexdigest := fun data => "sha256:" +:+ data
|}.

(** [n] groups "AAAA", the encoding of [3 * n] zero bytes. *)
Fixpoint zero_groups (n : nat) : string :=
  match n with
  | O => EmptyString
  | S n' => String "A" (String "A" (String "A" (String "A" (zero_groups n'))))
  end.

Fixpoint zero_bytes (n : nat) : bytes :=
  match n with
  | O => EmptyString
  | S n' => String "000" (zero_bytes n')
  end.

(** The encodings of 1048576 and of 1048577 zero bytes. *)
Definition one_mebibyte_document : string :=
  zero_groups (Z.to_nat 349525) +:+ "AA==".

Definition one_byte_more_document : string :=
  zero_groups (Z.to_nat 349525) +:+ "AAA=".

Definition one_mebibyte_settings : Verification.Settings := {|
  Verification.verification_delay_seconds := 3%Q;
  Verification.max_concurrent_verifications := 100;
  Verification.max_document_size_mb := 1
|}.

(** The verification-service process at its start, over a table. *)
Definition verification_world (table : list Verification.VerificationRow)
    : Verification.World :=
  {| Verification.rows := table; Verification.next_uuid := length table;
     Verification.calls := []; Verification.tasks := [] |}.

(** A table that holds one verified row for user "u1" on ethereum. *)
Definition verified_row : Verification.VerificationRow := {|
  Verification.row_id := 0; Verification.row_user_id := "u1";
  Verification.row_network := "ethereum";
  Verification.row_document_hash := "sha256:hello";
  Verification.row_status := "verified";
  Verification.row_verified_at := Some 903%Q;
  Verification.row_created_at := 900%Q;
  Verification.row_version := 1
|}.

End SampleStdLib.

(** ** The rest of the wallet repository, [get_wallet] and its route *)

Module WalletApi.
Import WalletRepository WalletService.

(** [WalletRepository.exists]. *)
Definition exists_ (u n : string) (d : Db) : Res bool :=
  if rolled_back d then Raise PendingRollbackError
  else
    match List.filter (matches u n) (rows d) with
    | [] => Ok false
    | [_] => Ok true
    | _ => Raise MultipleResultsFound
    end.

Definition touch (wallet_id : option nat) (now : Q) (r : WalletRow) : WalletRow :=
  if match wallet_id with Some k => (row_id r =? k)%nat | None => false end
  then {| row_id := row_id r; row_user_id := row_user_id r;
          row_network := row_network r;
          row_wallet_address := row_wallet_address r;
          row_derivation_index := row_derivation_index r;
          row_created_at := row_created_at r;
          row_last_accessed_at := Some now;
          row_version := row_version r |}
  else r.

(** [WalletRepository.update_last_accessed]; [now] is the reading of
    [datetime.now()]. *)
Definition update_last_accessed (wallet_id : option nat) (now : Q) (d : Db)
    : Res unit * Db :=
  if rolled_back d then (Raise PendingRollbackError, d)
  else
    (Ok tt,
     {| rows := map (touch wallet_id now) (rows d); committed := committed d;
        next_uuid := next_uuid d; rolled_back := false |}).

(** The process as the API sees it: the state of the services, and the
    ids whose [update_last_accessed] has been handed to
    [asyncio.create_task] and has not run yet. *)
Record Process : Type := {
  world : World;
  access_tasks : list (option nat)
}.

Definition same_tasks (w : World) (p : Process) : Process :=
  {| world := w; access_tasks := access_tasks p |}.

Section WithSettings.
Context (settings : Settings).

(** [WalletService.get_wallet]; the three clock readings are those of
    [cache.get], of [cache.set] and of [update_last_accessed]. *)
Definition get_wallet (t_lookup t_store t_access : Q) (u n : string)
    : M Process PyVal :=
  fun p =>
    let cache_key := "wallet:" +:+ u +:+ ":" +:+ n in
    let '(cached_wallet, st) :=
      CacheService.get settings t_lookup cache_key (store (world p)) in
    let w1 := with_store st (world p) in
    if truthy cached_wallet then
      match cached_wallet with
      | PyWallet wl =>
          (Ok cached_wallet,
           {| world := w1; access_tasks := access_tasks p ++ [id wl] |})
      | _ => (Raise (AttributeError "object has no attribute 'id'"), same_tasks w1 p)
      end
    else
      match get_by_user_and_network u n (db w1) with
      | Raise e => (Raise e, same_tasks w1 p)
      | Ok None => (Ok PyNone, same_tasks w1 p)
      | Ok (Some wl) =>
          let w2 :=
            with_store
              (CacheService.set settings t_store cache_key (PyWallet wl) None
                 (store w1)) w1 in
          match update_last_accessed (id wl) t_access (db w2) with
          | (Ok _, d) => (Ok (PyWallet wl), same_tasks (with_db d w2) p)
          | (Raise e, d) => (Raise e, same_tasks (with_db d w2) p)
          end
      end.

(** What [GET /wallet/{user_id}] answers: the [WalletResponse], or the
    [HTTPException] raised. *)
Inductive HttpResponse : Type :=
| WalletResponse (user_id network wallet_address : string) (created_at : Q)
| HTTPException (status_code : Z) (detail : string).

(** [api/routes/wallet.py], [get_wallet]. *)
Definition get_wallet_route (t_lookup t_store t_access : Q) (u n : string)
    (p : Process) : HttpResponse * Process :=
  if negb (existsb (String.eqb (lower n)) ["ethereum"; "tron"; "bitcoin"])
  then (HTTPException 400 ("Invalid network: " +:+ n), p)
  else
    match get_wallet t_lookup t_store t_access u (lower n) p with
    | (Ok v, p') =>
        if negb (truthy v) then (HTTPException 404 "Wallet not found", p')
        else
          match v with
          | PyWallet wl =>
              (WalletResponse (user_id wl) (NetworkType_value (network wl))
                 (wallet_address wl) (created_at wl), p')
          | _ => (HTTPException 500 "Internal server error", p')
          end
    | (Raise _, p') => (HTTPException 500 "Internal server error", p')
    end.

End WithSettings.

End WalletApi.

(** Every row, of the table as the transaction sees it and as it was
    when the transaction began, holds one of the three values of
    [NetworkType] in its [network] column. *)
Definition stores_values (d : WalletRepository.Db) : Prop :=
  Forall (fun r => exists nt, WalletRepository.row_network r = NetworkType_value nt)
    (WalletRepository.rows d) /\
  Forall (fun r => exists nt, WalletRepository.row_network r = NetworkType_value nt)
    (WalletRepository.committed d).

(** A table with one wallet of user "u1" on ethereum. *)
Definition sample_wallet : Wallet :=
  {| user_id := "u1"; network := ETHEREUM;
     wallet_address := "0xe012f5471cc54d3526935a51df447f607f07f0f0";
     derivation_index := 0; id := None; created_at := 1000%Q;
     last_accessed_at := None |}.

Definition sample_wallet_db : WalletRepository.Db :=
  snd (WalletRepository.create sample_wallet WalletRepository.empty_db).


(** A second wallet of the same user and network, at another index. *)
Definition sample_wallet_again : Wallet :=
  {| user_id := "u1"; network := ETHEREUM;
     wallet_address := "0xe012f5471cc54d3526935a51df447f607f07f0f1";
     derivation_index := 1; id := None; created_at := 1300%Q;
     last_accessed_at := None |}.

Section ServiceNotions.
Import WalletService.

(** A coroutine that leaves the table and the scheduled publications
    alone, whatever it returns. *)
Definition keeps_table {A} (c : M World A) : Prop :=
  forall w : World, db (snd (c w)) = db w /\ tasks (snd (c w)) = tasks w.

End ServiceNotions.


(** A row without its [last_accessed_at]: what a read of a wallet may
    not change. *)
Definition without_access (r : WalletRepository.WalletRow) : WalletRepository.WalletRow :=
  {| WalletRepository.row_id := WalletRepository.row_id r;
     WalletRepository.row_user_id := WalletRepository.row_user_id r;
     WalletRepository.row_network := WalletRepository.row_network r;
     WalletRepository.row_wallet_address := WalletRepository.row_wallet_address r;
     WalletRepository.row_derivation_index := WalletRepository.row_derivation_index r;
     WalletRepository.row_created_at := WalletRepository.row_created_at r;
     WalletRepository.row_last_accessed_at := None;
     WalletRepository.row_version := WalletRepository.row_version r |}.

(** ** Retries around Kafka

    [WalletService._publish_wallet_created],
    [VerificationService._publish_event] and
    [KafkaEventConsumer._commit_offsets], with the iteration of
    [KafkaEventConsumer._consume_loop] that calls the last.  The broker
    is outside the program: the outcome of the call made in attempt
    [k] is a parameter.  What a coroutine did is the list of its
    [Step]s; the error it logs when it gives up is kept among them,
    being the only mark a lost event leaves. *)

Module Kafka.

Inductive Step : Type :=
| Call (attempt : Z)
| Sleep (seconds : Z)
| LogError (message : string).

Definition is_Call (s : Step) : bool :=
  match s with Call _ => true | _ => false end.

Definition slept (s : Step) : Z :=
  match s with Sleep n => n | _ => 0 end.

Definition is_LogError (s : Step) : bool :=
  match s with LogError _ => true | _ => false end.

(** The number of calls made, the seconds slept and the errors logged. *)
Definition calls (trace : list Step) : Z :=
  Z.of_nat (length (List.filter is_Call trace)).

Definition seconds_slept (trace : list Step) : Z :=
  fold_right Z.add 0 (map slept trace).

Definition errors_logged (trace : list Step) : Z :=
  Z.of_nat (length (List.filter is_LogError trace)).

(** [range(3)]. *)
Definition range3 : list Z := [0; 1; 2].

(** [for attempt in ...: try: await publish(event); return
    except Exception as e: ...]: the body of both publishing
    coroutines. *)
Fixpoint publish_attempts (publish : Z -> Res unit) (attempts : list Z)
    : list Step * Res unit :=
  match attempts with
  | [] => ([], Ok tt)
  | attempt :: rest =>
      match publish attempt with
      | Ok _ => ([Call attempt], Ok tt)
      | Raise e =>
          let '(trace, r) := publish_attempts publish rest in
          if attempt <? 2
          then (Call attempt :: Sleep (2 ^ attempt) :: trace, r)
          else (Call attempt
                  :: LogError ("Failed to publish event after 3 attempts: " +:+ Exn_str e)
                  :: trace, r)
      end
  end.

(** [wallet_service/services/wallet_service.py]. *)
Definition _publish_wallet_created (publish : Z -> Res unit) : list Step * Res unit :=
  publish_attempts publish range3.

(** [user_verification_service/src/services/verification_service.py]. *)
Definition _publish_event (publish : Z -> Res unit) : list Step * Res unit :=
  publish_attempts publish range3.

(** What the consumer's [commit] may raise: aiokafka's
    [CommitFailedError], or anything else. *)
Inductive CommitExn : Type :=
| CommitFailedError (message : string)
| OtherError (e : Exn).

Fixpoint commit_attempts (commit : Z -> option CommitExn) (attempts : list Z)
    : list Step * option CommitExn :=
  match attempts with
  | [] => ([], None)
  | attempt :: rest =>
      match commit attempt with
      | None => ([Call attempt], None)
      | Some (CommitFailedError m) =>
          if attempt <? 2
          then let '(trace, r) := commit_attempts commit rest in
               (Call attempt :: Sleep (2 ^ attempt) :: trace, r)
          else ([Call attempt; LogError ("Failed to commit offsets: " +:+ m)],
                Some (CommitFailedError m))
      | Some (OtherError e) => ([Call attempt], Some (OtherError e))
      end
  end.

(** [wallet_service/infrastructure/kafka/consumer.py]: [None] is a
    normal return. *)
Definition _commit_offsets (commit : Z -> option CommitExn)
    : list Step * option CommitExn :=
  commit_attempts commit range3.

Inductive LoopState : Type := Running | Stopped.

Definition is_Raise {A} (r : Res A) : bool := negb (is_Ok r).

(** One turn of [while self._running] in [_consume_loop]: [records]
    are the results [asyncio.gather(..., return_exceptions=True)]
    gives for the messages of each partition fetched.  An exception of
    the commit leaves the loop through [except Exception] and
    [finally: await self.stop()]. *)
Definition _consume_iteration (commit : Z -> option CommitExn)
    (records : list (list (Res unit))) : list Step * LoopState :=
  match records with
  | [] => ([], Running)
  | _ =>
      let results := concat records in
      let failures := List.filter is_Raise results in
      match failures with
      | _ :: _ =>
          ([LogError ("Batch processing had " +:+ pretty (length failures) +:+ " failures")],
           Running)
      | [] =>
          match _commit_offsets commit with
          | (trace, None) => (trace, Running)
          | (trace, Some e) =>
              (trace ++ [LogError "Consumer loop error"], Stopped)
          end
      end
  end.

End Kafka.

(** ** user_verification_service: [POST /verify] and the event it leads to *)

Module VerificationApi.
Import Verification WalletEvents.

(** [isinstance(e, BaseServiceException)], with the [status_code] and
    [detail] of the class ([src/core/exceptions.py]).  The four
    subclasses of [BaseServiceException] are raised nowhere in the
    service, and none of the classes the service meets derives from
    it. *)
Definition BaseServiceException_of (e : Exn) : option (Z * string) :=
  match e with
  | ValueError _ | TypeError _ | AttributeError _ | BinasciiError _
  | ValidationError _ | IntegrityError _ | DBAPIError _ | PendingRollbackError
  | MultipleResultsFound
  | WalletAlreadyExistsException | WalletNotFoundException
  | InvalidNetworkException _ | WalletGenerationException _
  | MnemonicSecurityException _ => None
  end.

(** What the route answers: the [VerificationResponse] (sent with
    status 202; [verification_id] is the id before [str]), or the
    [HTTPException] raised. *)
Inductive HttpResponse : Type :=
| VerificationResponse (message : string) (verification_id : option nat)
    (status : string)
| HTTPException (status_code : Z) (detail : string).

Section WithEnvironment.
Context (settings : Settings) {std : StdLib}.

(** [src/api/routes/verification.py], [verify_user], on a request
    that has passed validation. *)
Definition verify_user_route (t_created t_verified : Q)
    (request : VerificationRequest) (w : World) : HttpResponse * World :=
  match verify_user settings t_created t_verified
          (req_user_id request) (req_network request) (req_document request) w with
  | (Ok verification, w') =>
      (VerificationResponse "Verification in progress" (id verification)
         (VerificationStatus_value (status verification)), w')
  | (Raise e, w') =>
      match BaseServiceException_of e with
      | Some (status_code, detail) => (HTTPException status_code detail, w')
      | None => (HTTPException 500 "Internal server error", w')
      end
  end.

End WithEnvironment.

(** The value of the record [_publish_event] sends for a verification,
    as the wallet service's consumer decodes it: [model_dump_json] of
    [UserVerifiedEvent(user_id=..., network=verification.network.value)],
    read back by [json.loads].  [now] is the reading of [datetime.now]
    for [timestamp], and [isoformat] the text pydantic writes for it. *)
Definition UserVerifiedEvent_value (isoformat : Q -> string)
    (verification : UserVerification) (now : Q) : JSON :=
  JObject [("event", JString "user.verified");
           ("user_id", JString (user_id verification));
           ("network", JString (NetworkType_value (network verification)));
           ("timestamp", JString (isoformat now))].

End VerificationApi.

(** A row left pending for user "u1" on ethereum. *)
Definition pending_row : Verification.VerificationRow :=
  {| Verification.row_id := 0; Verification.row_user_id := "u1";
     Verification.row_network := "ethereum";
     Verification.row_document_hash := "sha256:old";
     Verification.row_status := "pending";
     Verification.row_verified_at := None;
     Verification.row_created_at := 900%Q; Verification.row_version := 1 |}.

(** The table a request that found [pending_row] leaves: the pending
    row and, beside it, the row the request stored and verified. *)
Definition verified_beside_pending : list Verification.VerificationRow :=
  [pending_row;
   {| Verification.row_id := 1; Verification.row_user_id := "u1";
      Verification.row_network := "ethereum";
      Verification.row_document_hash := "sha256:hello";
      Verification.row_status := "verified";
      Verification.row_verified_at := None;
      Verification.row_created_at := 1000%Q; Verification.row_version := 1 |}].
(** * Properties *)

(** ** Comparisons of clock readings *)

Lemma Qltb_true a b : Qltb a b = true <-> (a < b)%Q.
Proof.
  unfold Qltb. rewrite negb_true_iff. split.
  - intros H. apply Qnot_le_lt. intros Hle.
    apply Qle_bool_iff in Hle. congruence.
  - intros H. destruct (Qle_bool b a) eqn:E; [|reflexivity].
    apply Qle_bool_iff in E. exfalso. apply (Qlt_not_le _ _ H E).
Qed.

Lemma Qltb_false a b : Qltb a b = false <-> (b <= a)%Q.
Proof.
  unfold Qltb. rewrite negb_false_iff. apply Qle_bool_iff.
Qed.

Lemma Qnonzero_true a : Qnonzero a = true <-> ~ (a == 0)%Q.
Proof.
  unfold Qnonzero. rewrite negb_true_iff. split.
  - intros H E. apply Qeq_bool_iff in E. congruence.
  - intros H. destruct (Qeq_bool a 0) eqn:E; [|reflexivity].
    apply Qeq_bool_iff in E. contradiction.
Qed.

(** ** Rounding to binary64 *)

Section Float64Facts.
Import Float64.
Local Open Scope Q_scope.

Lemma two_gt_1 : 1 < 2.
Proof. reflexivity. Qed.

Lemma pow2_pos (k : Z) : 0 < 2 ^ k.
Proof. apply Qpower_0_lt. reflexivity. Qed.

Lemma pow2_plus (a b : Z) : 2 ^ (a + b) == 2 ^ a * 2 ^ b.
Proof. apply Qpower_plus. discriminate. Qed.

Lemma pow2_Z (k : Z) : (0 <= k)%Z -> 2 ^ k == inject_Z (2 ^ k).
Proof. intros Hk. rewrite (Zpower_Qpower 2 k Hk). reflexivity. Qed.

(** A quotient of integers between two powers of two. *)
Lemma quotient_bounds (n : Z) (d : positive) :
  (0 < n)%Z ->
  2 ^ (Z.log2 n - Z.log2 (Zpos d) - 1) <= n # d /\
  n # d < 2 ^ (Z.log2 n - Z.log2 (Zpos d) + 1).
Proof.
  intros Hn.
  destruct (Z.log2_spec n Hn) as [Hn1 Hn2].
  destruct (Z.log2_spec (Zpos d) (Pos2Z.is_pos d)) as [Hd1 Hd2].
  pose proof (Z.log2_nonneg n) as Ha. pose proof (Z.log2_nonneg (Zpos d)) as Hb.
  set (a := Z.log2 n) in *. set (b := Z.log2 (Zpos d)) in *. clearbody a b.
  replace (Z.succ a) with (a + 1)%Z in * by lia.
  replace (Z.succ b) with (b + 1)%Z in * by lia.
  replace (a - b - 1)%Z with (a - (b + 1))%Z by ring.
  replace (a - b + 1)%Z with ((a + 1) - b)%Z by ring.
  rewrite !Qpower_minus by discriminate.
  rewrite (pow2_Z a Ha), (pow2_Z (b + 1)), (pow2_Z (a + 1)), (pow2_Z b Hb) by lia.
  assert (Hpa : (0 < 2 ^ a)%Z) by (apply Z.pow_pos_nonneg; lia).
  assert (Hpb : (0 < 2 ^ b)%Z) by (apply Z.pow_pos_nonneg; lia).
  assert (Ea : (2 ^ (a + 1) = 2 * 2 ^ a)%Z) by (rewrite Z.pow_add_r by lia; lia).
  assert (Eb : (2 ^ (b + 1) = 2 * 2 ^ b)%Z) by (rewrite Z.pow_add_r by lia; lia).
  rewrite Ea, Eb in *.
  set (A := (2 ^ a)%Z) in *. set (B := (2 ^ b)%Z) in *. clearbody A B.
  split.
  - apply Qle_shift_div_r; [unfold Qlt; cbn; lia|].
    unfold Qle, Qmult, inject_Z. cbn [Qnum Qden]. nia.
  - apply Qlt_shift_div_l; [unfold Qlt; cbn; lia|].
    unfold Qlt, Qmult, inject_Z. cbn [Qnum Qden]. nia.
Qed.

Lemma Qnum_pos (q : Q) : 0 < q -> (0 < Qnum q)%Z.
Proof. unfold Qlt. cbn. lia. Qed.

Lemma ilog2_spec (q : Q) : 0 < q -> 2 ^ ilog2 q <= q /\ q < 2 ^ (ilog2 q + 1).
Proof.
  intros Hq. unfold ilog2. cbv zeta.
  destruct q as [n d]. cbn [Qnum Qden].
  destruct (quotient_bounds n d (Qnum_pos _ Hq)) as [Hlo Hhi].
  set (k := (Z.log2 n - Z.log2 (Zpos d))%Z) in *.
  destruct (Qle_bool (2 ^ k) (n # d)) eqn:E.
  - apply Qle_bool_iff in E. split; [exact E|exact Hhi].
  - split; [exact Hlo|].
    replace (k - 1 + 1)%Z with k by ring.
    apply Qnot_le_lt. intros H. apply Qle_bool_iff in H. congruence.
Qed.

Lemma ilog2_mono (x y : Q) : 0 < x -> x <= y -> (ilog2 x <= ilog2 y)%Z.
Proof.
  intros Hx Hxy.
  assert (Hy : 0 < y) by (eapply Qlt_le_trans; eassumption).
  destruct (ilog2_spec x Hx) as [Hx1 _]. destruct (ilog2_spec y Hy) as [_ Hy2].
  assert (H : 2 ^ ilog2 x < 2 ^ (ilog2 y + 1)).
  { eapply Qle_lt_trans; [exact Hx1|]. eapply Qle_lt_trans; eassumption. }
  apply Qpower_lt_compat_l_inv in H; [lia|reflexivity].
Qed.

Lemma round_half_even_floor (q : Q) :
  (Qfloor q <= round_half_even q <= Qfloor q + 1)%Z.
Proof.
  unfold round_half_even. cbv zeta.
  destruct (q - inject_Z (Qfloor q) ?= 1 # 2); [destruct (Z.even (Qfloor q))| |]; lia.
Qed.

(** An integer below [q] is below its rounding, one above is above. *)
Lemma round_half_even_lower (k : Z) (q : Q) :
  inject_Z k <= q -> (k <= round_half_even q)%Z.
Proof.
  intros H. apply Qfloor_resp_le in H. rewrite Qfloor_Z in H.
  pose proof (round_half_even_floor q). lia.
Qed.

Lemma round_half_even_upper (k : Z) (q : Q) :
  q <= inject_Z k -> (round_half_even q <= k)%Z.
Proof.
  intros H. pose proof (Qfloor_resp_le _ _ H) as Hf. rewrite Qfloor_Z in Hf.
  pose proof (round_half_even_floor q) as Hr.
  destruct (Z.eq_dec (Qfloor q) k) as [E|E]; [|lia].
  unfold round_half_even. cbv zeta. rewrite E.
  destruct (Qcompare_spec (q - inject_Z k) (1 # 2)) as [H1|H1|H1]; [lra|lia|lra].
Qed.

Lemma round_half_even_mono (x y : Q) :
  x <= y -> (round_half_even x <= round_half_even y)%Z.
Proof.
  intros Hxy. pose proof (Qfloor_resp_le _ _ Hxy) as Hf.
  pose proof (round_half_even_floor x) as Hx.
  pose proof (round_half_even_floor y) as Hy.
  destruct (Z.eq_dec (Qfloor x) (Qfloor y)) as [E|E]; [|lia].
  unfold round_half_even in *. cbv zeta in *. rewrite E in *.
  destruct (Qcompare_spec (x - inject_Z (Qfloor y)) (1 # 2)) as [H1|H1|H1];
    destruct (Qcompare_spec (y - inject_Z (Qfloor y)) (1 # 2)) as [H2|H2|H2];
    try lia; try lra; destruct (Z.even (Qfloor y)); lia.
Qed.

Lemma ulp_exponent_mono (x y : Q) :
  0 < x -> x <= y -> (ulp_exponent x <= ulp_exponent y)%Z.
Proof.
  intros Hx Hxy. unfold ulp_exponent. pose proof (ilog2_mono x y Hx Hxy). lia.
Qed.

Lemma round_positive_nonneg (q : Q) : 0 < q -> 0 <= round_positive q.
Proof.
  intros Hq. unfold round_positive. cbv zeta.
  apply Qmult_le_0_compat; [|apply Qlt_le_weak, pow2_pos].
  change 0 with (inject_Z 0). rewrite <- Zle_Qle.
  apply round_half_even_lower. change (inject_Z 0) with 0.
  apply Qle_shift_div_l; [apply pow2_pos|]. lra.
Qed.

(** Rounding to binary64 is monotone on the positive numbers. *)
Lemma round_positive_mono (x y : Q) :
  0 < x -> x <= y -> round_positive x <= round_positive y.
Proof.
  intros Hx Hxy.
  assert (Hy : 0 < y) by (eapply Qlt_le_trans; eassumption).
  pose proof (ulp_exponent_mono x y Hx Hxy) as He.
  unfold round_positive. cbv zeta.
  destruct (Z.eq_dec (ulp_exponent x) (ulp_exponent y)) as [E|E].
  - rewrite E. apply Qmult_le_compat_r; [|apply Qlt_le_weak, pow2_pos].
    rewrite <- Zle_Qle. apply round_half_even_mono.
    apply Qmult_le_compat_r; [exact Hxy|]. apply Qlt_le_weak, Qinv_lt_0_compat, pow2_pos.
  - assert (Hlt : (ulp_exponent x < ulp_exponent y)%Z) by lia. clear E He.
    set (ex := ulp_exponent x) in *. set (ey := ulp_exponent y) in *.
    assert (Hey : ey = (ilog2 y - 52)%Z) by (unfold ey, ex, ulp_exponent in *; lia).
    assert (Hex : (ilog2 x - 52 <= ex)%Z /\ (-1074 <= ex)%Z)
      by (unfold ex, ulp_exponent; lia).
    destruct (ilog2_spec x Hx) as [_ Hx2]. destruct (ilog2_spec y Hy) as [Hy1 _].
    (* both roundings are compared with 2 ^ (ey + 52) *)
    apply Qle_trans with (2 ^ (ey + 52)).
    + assert (Hk : (0 <= ey + 52 - ex)%Z) by lia.
      assert (Hb : x / 2 ^ ex <= inject_Z (2 ^ (ey + 52 - ex))).
      { rewrite <- (pow2_Z _ Hk).
        apply Qle_shift_div_r; [apply pow2_pos|].
        rewrite <- pow2_plus. replace (ey + 52 - ex + ex)%Z with (ey + 52)%Z by ring.
        apply Qlt_le_weak. eapply Qlt_le_trans; [exact Hx2|].
        apply Qpower_le_compat_l; [lia|discriminate]. }
      apply round_half_even_upper in Hb. rewrite Zle_Qle in Hb.
      rewrite <- (pow2_Z _ Hk) in Hb.
      assert (Hp : 2 ^ (ey + 52) == 2 ^ (ey + 52 - ex) * 2 ^ ex).
      { rewrite <- pow2_plus. replace (ey + 52 - ex + ex)%Z with (ey + 52)%Z by ring.
        reflexivity. }
      rewrite Hp.
      apply Qmult_le_compat_r; [exact Hb|apply Qlt_le_weak, pow2_pos].
    + assert (Hb : inject_Z (2 ^ 52) <= y / 2 ^ ey).
      { rewrite <- (pow2_Z 52) by lia.
        apply Qle_shift_div_l; [apply pow2_pos|].
        rewrite <- pow2_plus. replace (52 + ey)%Z with (ilog2 y) by lia. exact Hy1. }
      apply round_half_even_lower in Hb. rewrite Zle_Qle in Hb.
      rewrite <- (pow2_Z 52) in Hb by lia.
      assert (Hp : 2 ^ (ey + 52) == 2 ^ 52 * 2 ^ ey).
      { rewrite <- pow2_plus. replace (52 + ey)%Z with (ey + 52)%Z by ring.
        reflexivity. }
      rewrite Hp.
      apply Qmult_le_compat_r; [exact Hb|apply Qlt_le_weak, pow2_pos].
Qed.

Lemma Qnum_sign (q : Q) :
  match Qnum q with
  | Z0 => q == 0
  | Zpos _ => 0 < q
  | Zneg _ => q < 0
  end.
Proof.
  destruct q as [[|p|p] d]; cbn [Qnum]; [reflexivity| |]; unfold Qlt; cbn; lia.
Qed.

Lemma fl_sign (q : Q) :
  (0 <= q -> 0 <= fl q) /\ (q <= 0 -> fl q <= 0).
Proof.
  unfold fl. pose proof (Qnum_sign q) as Hs.
  destruct (Qnum q) as [|p|p].
  - split; intros _; apply Qle_refl.
  - split; [intros _; apply round_positive_nonneg; exact Hs|intros H; lra].
  - assert (Hn : 0 < - q) by lra. pose proof (round_positive_nonneg _ Hn).
    split; [intros H'; lra|intros _; lra].
Qed.

(** Rounding to binary64 is monotone. *)
Lemma fl_mono (x y : Q) : x <= y -> fl x <= fl y.
Proof.
  intros Hxy.
  destruct (Qlt_le_dec 0 x) as [Hx|Hx].
  - assert (Hy : 0 < y) by lra.
    unfold fl. pose proof (Qnum_sign x) as Sx. pose proof (Qnum_sign y) as Sy.
    destruct (Qnum x) as [|p|p]; [lra| |lra].
    destruct (Qnum y) as [|p'|p']; [lra| |lra].
    apply round_positive_mono; assumption.
  - destruct (Qlt_le_dec y 0) as [Hy|Hy].
    + assert (Hx' : x < 0) by lra.
      unfold fl. pose proof (Qnum_sign x) as Sx. pose proof (Qnum_sign y) as Sy.
      destruct (Qnum x) as [|p|p]; [lra|lra|].
      destruct (Qnum y) as [|p'|p']; [lra|lra|].
      assert (H : round_positive (- y) <= round_positive (- x))
        by (apply round_positive_mono; lra).
      lra.
    + apply Qle_trans with 0; [apply (fl_sign x), Hx|apply (fl_sign y), Hy].
Qed.

(** A binary64 number below a sum is below the rounded sum, and one
    above it is above. *)
Lemma fl_above (d s : Q) : fl d == d -> d <= s -> d <= fl s.
Proof. intros Hd H. rewrite <- Hd. apply fl_mono. exact H. Qed.

Lemma fl_below (d s : Q) : fl d == d -> s <= d -> fl s <= d.
Proof. intros Hd H. rewrite <- Hd. apply fl_mono. exact H. Qed.


Lemma fl_proper (x y : Q) : x == y -> fl x == fl y.
Proof.
  intros H. apply Qle_antisym; apply fl_mono; rewrite H; apply Qle_refl.
Qed.

Lemma fl_one : fl 1 == 1.
Proof. reflexivity. Qed.

(** The sum of a float and an [int] that a float holds exactly is the
    rounded exact sum. *)
Lemma add_int_exact (x : Q) (z : Z) :
  exact_int z -> add_int x z == fl (x + inject_Z z).
Proof.
  intros [Hz _]. unfold add_int. apply fl_proper.
  rewrite Hz. reflexivity.
Qed.

End Float64Facts.

(** ** The cache *)

Section CacheFacts.
Variable settings : Settings.

Lemma set_lookup now k v ttl store :
  CacheService.set settings now k v ttl store
    !! CacheService._prefixed settings k = Some (entry_expiry settings now ttl, v).
Proof.
  unfold CacheService.set, entry_expiry. cbv zeta. apply lookup_insert_eq.
Qed.

(** A [get] on an entry that has no expiry or whose expiry is not yet
    behind the clock returns the value and leaves the store as it is. *)
Lemma get_alive now k store expiry v :
  store !! CacheService._prefixed settings k = Some (expiry, v) ->
  (expiry == 0)%Q \/ (now <= expiry)%Q ->
  CacheService.get settings now k store = (v, store).
Proof.
  intros Hl Hal. unfold CacheService.get. cbv zeta. rewrite Hl.
  destruct (Qnonzero expiry) eqn:Enz; [|reflexivity].
  destruct (Qltb expiry now) eqn:Elt; [|reflexivity].
  apply Qnonzero_true in Enz. apply Qltb_true in Elt.
  destruct Hal as [H0|Hle]; [contradiction|].
  exfalso. apply (Qlt_not_le _ _ Elt Hle).
Qed.

(** A [get] on an entry whose expiry is behind the clock evicts it. *)
Lemma get_expired now k store expiry v :
  store !! CacheService._prefixed settings k = Some (expiry, v) ->
  ~ (expiry == 0)%Q -> (expiry < now)%Q ->
  CacheService.get settings now k store
  = (PyNone, delete (CacheService._prefixed settings k) store).
Proof.
  intros Hl Hnz Hlt. unfold CacheService.get. cbv zeta. rewrite Hl.
  apply Qnonzero_true in Hnz. apply Qltb_true in Hlt.
  rewrite Hnz, Hlt. reflexivity.
Qed.

Lemma get_absent now k store :
  store !! CacheService._prefixed settings k = None ->
  CacheService.get settings now k store = (PyNone, store).
Proof.
  intros Hl. unfold CacheService.get. cbv zeta. rewrite Hl. reflexivity.
Qed.

(** C8, amended.  After [set(k, v, ttl)] with a positive [ttl], read
    at clock [t0] (an epoch time, so not negative), the entry expires
    at the float nearest to [t0 + ttl].  A [get(k)] whose clock reading
    [t1] is at most [ttl] seconds later returns [v] and keeps the
    entry.  A [get(k)] whose reading is more than [ttl] seconds later
    finds the expiry at or before its reading: it returns [None] and
    evicts the entry when the expiry is before the reading, and it
    still returns [v] when the sum has been rounded up to the reading
    itself. *)
Theorem cache_round_trip (k : string) (v : PyVal) (ttl : Z) (t0 t1 : Q)
    (store : CacheService.Store) :
  0 < ttl -> exact_int ttl -> (0 <= t0)%Q -> is_float t1 ->
  let store1 := CacheService.set settings t0 k v (Some ttl) store in
  let expiry := entry_expiry settings t0 (Some ttl) in
  (expiry == Float64.fl (t0 + inject_Z ttl))%Q /\
  ((t1 <= t0 + inject_Z ttl)%Q ->
     CacheService.get settings t1 k store1 = (v, store1)) /\
  ((t0 + inject_Z ttl < t1)%Q ->
     (expiry <= t1)%Q /\
     ((expiry < t1)%Q ->
        CacheService.get settings t1 k store1
        = (PyNone, delete (CacheService._prefixed settings k) store1)) /\
     ((expiry == t1)%Q ->
        CacheService.get settings t1 k store1 = (v, store1))).
Proof.
  intros Httl Hint Ht0 [Hfloat _] store1 expiry.
  assert (Hexp : (expiry == Float64.fl (t0 + inject_Z ttl))%Q).
  { unfold expiry, entry_expiry. cbv zeta.
    destruct (ttl =? 0) eqn:E; [apply Z.eqb_eq in E; lia|].
    rewrite E. apply add_int_exact. exact Hint. }
  assert (Hone : (1 <= t0 + inject_Z ttl)%Q).
  { assert (Hq : (inject_Z 1 <= inject_Z ttl)%Q) by (rewrite <- Zle_Qle; lia).
    change (inject_Z 1) with 1%Q in Hq. lra. }
  assert (Hpos : (1 <= expiry)%Q).
  { rewrite Hexp. apply fl_above; [apply fl_one|exact Hone]. }
  pose proof (set_lookup t0 k v (Some ttl) store) as Hl.
  fold store1 expiry in Hl.
  split; [exact Hexp|]. split.
  - intros Ht1. apply (get_alive _ _ _ _ _ Hl). right.
    rewrite Hexp. apply fl_above; assumption.
  - intros Ht1.
    assert (Hle : (expiry <= t1)%Q).
    { rewrite Hexp. apply fl_below; [exact Hfloat|]. lra. }
    split; [exact Hle|]. split.
    + intros Hlt. apply (get_expired _ _ _ _ _ Hl); [|exact Hlt].
      intros Hz. rewrite Hz in Hpos. lra.
    + intros Heq. apply (get_alive _ _ _ _ _ Hl). right. rewrite Heq. apply Qle_refl.
Qed.

End CacheFacts.

Lemma cache_round_trip_witness :
  let store1 :=
    CacheService.set default_settings 1000%Q "k" (PyInt 7) (Some 300) ∅ in
  CacheService.get default_settings 1200%Q "k" store1 = (PyInt 7, store1) /\
  CacheService.get default_settings 1400%Q "k" store1
  = (PyNone, delete (CacheService._prefixed default_settings "k") store1).
Proof.
  intros store1.
  destruct (cache_round_trip default_settings "k" (PyInt 7) 300 1000%Q 1200%Q ∅)
    as (_ & Hin & _);
    [lia | split; [|split]; vm_compute; reflexivity | unfold Qle; simpl; lia
     | split; [|split]; vm_compute; reflexivity |].
  destruct (cache_round_trip default_settings "k" (PyInt 7) 300 1000%Q 1400%Q ∅)
    as (_ & _ & Hout);
    [lia | split; [|split]; vm_compute; reflexivity | unfold Qle; simpl; lia
     | split; [|split]; vm_compute; reflexivity |].
  split.
  - apply Hin. unfold Qle. simpl. lia.
  - destruct Hout as (_ & Hout & _); [unfold Qlt; simpl; lia|].
    apply Hout. vm_compute. reflexivity.
Defined.

(** C8 as stated fails.  The floats nearest to 0.1 and to 1.1 are more
    than one second apart, and the sum of the first and 1 rounds to
    the second: an entry set with [ttl = 1] at the one is still
    returned at the other. *)
Lemma cache_returns_the_value_after_ttl :
  let t0 := (3602879701896397 # 36028797018963968)%Q in
  let t1 := (2476979795053773 # 2251799813685248)%Q in
  let store1 := CacheService.set default_settings t0 "k" (PyInt 7) (Some 1) ∅ in
  is_float t0 /\ is_float t1 /\ (t0 + inject_Z 1 < t1)%Q /\
  CacheService.get default_settings t1 "k" store1 = (PyInt 7, store1).
Proof.
  cbv zeta. split; [|split; [|split]].
  - split; [|split]; vm_compute; reflexivity.
  - split; [|split]; vm_compute; reflexivity.
  - vm_compute. reflexivity.
  - vm_compute. reflexivity.
Qed.

(** ** The derivation-index allocator *)

Section MaxIndex.
Import WalletRepository.

Lemma max_index_bounds n (table : list WalletRow) :
  forall acc,
    let res :=
      fold_left
        (fun acc r =>
           if String.eqb (row_network r) n then
             match acc with
             | None => Some (row_derivation_index r)
             | Some m => Some (Z.max m (row_derivation_index r))
             end
           else acc) table acc in
    (forall a, acc = Some a -> exists m, res = Some m /\ a <= m) /\
    (forall r, In r table -> row_network r = n ->
       exists m, res = Some m /\ row_derivation_index r <= m) /\
    (acc = None -> Forall (fun r => row_network r <> n) table -> res = None).
Proof.
  induction table as [|r table IH]; intros acc; cbn [fold_left].
  - split; [|split].
    + intros a ->. exists a. split; [reflexivity|lia].
    + intros r [].
    + intros -> _. reflexivity.
  - match goal with |- context [fold_left ?f table ?a] =>
      specialize (IH a); set (acc' := a) in * end.
    cbv zeta in IH. destruct IH as (IHacc & IHin & IHnone).
    split; [|split].
    + intros a ->. subst acc'.
      destruct (String.eqb (row_network r) n).
      * destruct (IHacc _ eq_refl) as (m & Hm & Hle). exists m. split; [exact Hm|lia].
      * apply (IHacc _ eq_refl).
    + intros r' [<-|Hin] Hn.
      * subst acc'. apply String.eqb_eq in Hn. rewrite Hn in *.
        destruct acc as [a|].
        -- destruct (IHacc _ eq_refl) as (m & Hm & Hle). exists m. split; [exact Hm|lia].
        -- apply (IHacc _ eq_refl).
      * apply (IHin r' Hin Hn).
    + intros -> Hall. inversion Hall as [|? ? Hr Hrest]; subst.
      subst acc'. apply String.eqb_neq in Hr. rewrite Hr in *.
      apply (IHnone eq_refl Hrest).
Qed.

Lemma max_index_nonneg n (table : list WalletRow) :
  Forall (fun r => 0 <= row_derivation_index r) table ->
  forall acc,
    match acc with Some m => 0 <= m | None => True end ->
    match fold_left
            (fun acc r =>
               if String.eqb (row_network r) n then
                 match acc with
                 | None => Some (row_derivation_index r)
                 | Some m => Some (Z.max m (row_derivation_index r))
                 end
               else acc) table acc
    with Some m => 0 <= m | None => True end.
Proof.
  induction 1 as [|r table Hr _ IH]; intros acc Hacc; cbn [fold_left].
  - exact Hacc.
  - apply IH.
    destruct (String.eqb (row_network r) n); [|exact Hacc].
    destruct acc as [m|]; lia.
Qed.

(** On a session that can be used the repository proposes an index:
    one beyond every index stored for the network, 0 when the table
    has no row of the network, and no negative one when no stored
    index is negative. *)
Lemma get_next_derivation_index_Ok n (d : Db) :
  rolled_back d = false ->
  exists i,
    get_next_derivation_index n d = Ok i /\
    (forall r, In r (rows d) -> row_network r = n -> row_derivation_index r < i) /\
    (Forall (fun r => row_network r <> n) (rows d) -> i = 0) /\
    (Forall (fun r => 0 <= row_derivation_index r) (rows d) -> 0 <= i).
Proof.
  intros Hu. unfold get_next_derivation_index, max_index. rewrite Hu.
  destruct (max_index_bounds n (rows d) None) as (_ & Hin & Hnone).
  cbv zeta in *.
  pose proof (max_index_nonneg n (rows d)) as Hnn.
  destruct (fold_left _ (rows d) None) as [m|] eqn:E.
  - exists (m + 1). split; [reflexivity|]. split; [|split].
    + intros r Hr Hn. destruct (Hin r Hr Hn) as (m' & Hm' & Hle).
      injection Hm' as <-. lia.
    + intros Hall. specialize (Hnone eq_refl Hall). discriminate.
    + intros Hpos. specialize (Hnn Hpos None I). rewrite E in Hnn. lia.
  - exists 0. split; [reflexivity|]. split; [|split; [reflexivity|lia]].
    intros r Hr Hn. destruct (Hin r Hr Hn) as (m' & Hm' & _). discriminate.
Qed.

End MaxIndex.

Section AllocatorFacts.
Variable settings : Settings.
Variable network : string.

Local Abbreviation full_key :=
  (CacheService._prefixed settings ("next_index:" +:+ network)) (only parsing).





Lemma count_from_sorted n : forall z, StronglySorted Z.lt (count_from z n).
Proof.
  induction n as [|n IH]; intros z; cbn [count_from].
  - constructor.
  - constructor; [apply IH|].
    assert (Hge : forall m y, Forall (Z.lt (y - 1)) (count_from y m)).
    { clear. induction m as [|m IHm]; intros y; cbn [count_from].
      - constructor.
      - constructor; [lia|].
        eapply List.Forall_impl; [|apply (IHm (y + 1))].
        cbv beta. intros a Ha. lia. }
    eapply List.Forall_impl; [|apply (Hge n (z + 1))].
    cbv beta. intros a Ha. lia.
Qed.

Lemma count_from_lower n : forall z, Forall (Z.le z) (count_from z n).
Proof.
  induction n as [|n IH]; intros z; cbn [count_from].
  - constructor.
  - constructor; [lia|].
    eapply List.Forall_impl; [|apply (IH (z + 1))].
    cbv beta. intros a Ha. lia.
Qed.





End AllocatorFacts.



(** ** The [Wallet] constructor *)

Lemma _validate_address_rule n addr :
  _validate_address n addr = true <-> constructor_rule n addr.
Proof.
  destruct n; unfold _validate_address, _validate_ethereum_address,
    _validate_tron_address, _validate_bitcoin_address, constructor_rule;
    rewrite andb_true_iff.
  - rewrite Nat.eqb_eq. reflexivity.
  - rewrite Nat.eqb_eq. reflexivity.
  - rewrite !Nat.leb_le. reflexivity.
Qed.

(** C4, amended.  A [Wallet] is constructed exactly when its address
    passes the prefix-and-length rule of its network ("0x" and 42
    characters for ETHEREUM, "T" and 34 characters for TRON, 26 to 35
    characters for BITCOIN): every constructed wallet satisfies that
    rule and carries the address and network it was given, and an
    address that violates it is rejected with [ValueError]. *)
Theorem wallet_constructor_checks_prefix_and_length
    (u : string) (n : NetworkType) (addr : string) (idx : Z) (now : Q) :
  (forall w : Wallet,
     Wallet_new u n addr idx now = Ok w ->
     constructor_rule (network w) (wallet_address w) /\
     network w = n /\ wallet_address w = addr /\
     user_id w = u /\ derivation_index w = idx) /\
  (constructor_rule n addr -> is_Ok (Wallet_new u n addr idx now) = true) /\
  (~ constructor_rule n addr ->
     exists msg : string, Wallet_new u n addr idx now = Raise (ValueError msg)).
Proof.
  unfold Wallet_new.
  destruct (_validate_address n addr) eqn:E.
  - apply _validate_address_rule in E. split; [|split].
    + intros w Hw. injection Hw as <-. cbn. auto.
    + intros _. reflexivity.
    + intros Hv. contradiction.
  - assert (Hn : ~ constructor_rule n addr).
    { intros Hr. apply _validate_address_rule in Hr. congruence. }
    split; [|split].
    + intros w Hw. discriminate.
    + intros Hr. contradiction.
    + intros _. eexists. reflexivity.
Qed.

(** C4 as stated fails.  The constructor accepts an ETHEREUM address
    of 42 characters that starts with "0x" and continues with forty
    letters Z, which are no hexadecimal digits, so the address meets
    the full format rule under no checksum predicate. *)
Lemma wallet_accepts_non_hex_address :
  exists w : Wallet,
    Wallet_new "u1" ETHEREUM "0xZZZZZZZZZZZZZZZZZZZZZZZZZZZZZZZZZZZZZZZZ" 0 0%Q = Ok w /\
    forall keccak_ok base58check_ok : string -> Prop,
      ~ spec_address_rule keccak_ok base58check_ok (network w) (wallet_address w).
Proof.
  eexists. split; [reflexivity|].
  intros keccak_ok base58check_ok (_ & _ & Hhex & _).
  vm_compute in Hhex. discriminate.
Qed.

(** ** The wallet generators *)

Section GeneratorFacts.
Import Generators.
Context {lib : CryptoLib}.
Variable g : WalletGenerator.

Lemma paths_ok_empty : paths_ok g ∅.
Proof. intros i p H. rewrite lookup_empty in H. discriminate. Qed.

Lemma get_derivation_path_ok index (cache : PathCache) :
  paths_ok g cache ->
  fst (get_derivation_path g index cache) = Ok (path_of g index) /\
  paths_ok g (snd (get_derivation_path g index cache)).
Proof.
  intros Hok. unfold get_derivation_path.
  destruct (cache !! index) as [p|] eqn:E; cbn [fst snd].
  - split; [|exact Hok]. f_equal. apply (Hok _ _ E).
  - split; [reflexivity|].
    intros i p Hl. destruct (decide (index = i)) as [->|Hne].
    + rewrite lookup_insert_eq in Hl. injection Hl as <-. reflexivity.
    + rewrite lookup_insert_ne in Hl by exact Hne. apply (Hok _ _ Hl).
Qed.

(** [generate] is the path lookup followed by steps that leave the
    cache alone. *)
Lemma generate_unfold m u index (cache : PathCache) :
  generate g m u index cache
  = (match fst (get_derivation_path g index cache) with
     | Raise e => Raise e
     | Ok path =>
         match generate_address g (_derive_seed m u) path with
         | Raise e => Raise e
         | Ok address =>
             match validate_address g address with
             | Raise e => Raise e
             | Ok true => Ok address
             | Ok false =>
                 Raise (WalletGenerationException
                          ("Generated invalid address: " +:+ address))
             end
         end
     end,
     snd (get_derivation_path g index cache)).
Proof.
  unfold generate, bind, lift, raise, ret.
  destruct (get_derivation_path g index cache) as [[path|e] cache'];
    cbn [fst snd]; [|reflexivity].
  destruct (generate_address g (_derive_seed m u) path) as [address|e];
    [|reflexivity].
  destruct (validate_address g address) as [[|]|e]; reflexivity.
Qed.

Lemma generate_ok m u index (cache : PathCache) :
  paths_ok g cache ->
  fst (generate g m u index cache) = generated g m u index /\
  paths_ok g (snd (generate g m u index cache)).
Proof.
  intros Hok. rewrite generate_unfold. cbn [fst snd].
  destruct (get_derivation_path_ok index cache Hok) as [Hp Hc].
  split; [|exact Hc]. rewrite Hp. reflexivity.
Qed.

Lemma after_calls_ok calls :
  forall cache : PathCache, paths_ok g cache -> paths_ok g (after_calls g calls cache).
Proof.
  induction calls as [|[[m u] i] rest IH]; intros cache Hok.
  - exact Hok.
  - unfold after_calls. cbn [fold_left]. apply IH.
    apply (generate_ok m u i cache Hok).
Qed.

(** C9.  On one generator, created with an empty path cache, a call of
    [generate(m, u, i)] returns the same outcome (the same address, or
    the same exception) whatever calls were made before it and
    whatever calls separate it from an earlier [generate(m, u, i)]: the
    outcome is the function [generated] of the three arguments. *)
Theorem generate_deterministic (m u : string) (i : Z)
    (before between : list (string * string * Z)) :
  let cache0 := after_calls g before ∅ in
  let first := generate g m u i cache0 in
  let cache1 := after_calls g between (snd first) in
  let second := generate g m u i cache1 in
  fst first = generated g m u i /\ fst second = fst first.
Proof.
  intros cache0 first cache1 second.
  assert (H0 : paths_ok g cache0) by apply after_calls_ok, paths_ok_empty.
  destruct (generate_ok m u i cache0 H0) as [Hf Hc].
  assert (H1 : paths_ok g cache1) by (apply after_calls_ok; exact Hc).
  destruct (generate_ok m u i cache1 H1) as [Hs _].
  split; [exact Hf|]. unfold second, first. rewrite Hs, Hf. reflexivity.
Qed.

End GeneratorFacts.

(** ** The built-in set *)

Section PySetFacts.

Lemma mem_true k (s : PySet.t) : PySet.mem k s = true <-> k ∈ s.
Proof.
  unfold PySet.mem. rewrite existsb_exists. split.
  - intros (x & Hin & Heq). apply String.eqb_eq in Heq. subst x.
    apply list_elem_of_In. exact Hin.
  - intros Hin. exists k. split; [apply list_elem_of_In; exact Hin|].
    apply String.eqb_refl.
Qed.

Lemma mem_false k (s : PySet.t) : PySet.mem k s = false <-> k ∉ s.
Proof.
  rewrite <- mem_true. destruct (PySet.mem k s); split; congruence.
Qed.

Lemma add_fresh k (s : PySet.t) : k ∉ s -> PySet.add k s = s ++ [k].
Proof.
  intros H. unfold PySet.add. apply mem_false in H. rewrite H. reflexivity.
Qed.

Lemma of_list_from (l : list string) :
  forall s : PySet.t,
    NoDup (s ++ l) ->
    fold_left (fun s k => PySet.add k s) l s = s ++ l.
Proof.
  induction l as [|k l IH]; intros s Hnd; cbn [fold_left].
  - rewrite app_nil_r. reflexivity.
  - assert (Hk : k ∉ s).
    { apply NoDup_app in Hnd as (_ & Hdis & _).
      intros Hin. apply (Hdis k Hin). left. }
    rewrite (add_fresh k s Hk).
    rewrite IH; rewrite <- app_assoc; [reflexivity | exact Hnd].
Qed.

(** [set(l)] of a list without repeats has the members of the list, in
    its order. *)
Lemma of_list_NoDup (l : list string) : NoDup l -> PySet.of_list l = l.
Proof.
  intros Hnd. unfold PySet.of_list, PySet.empty.
  rewrite of_list_from; [reflexivity | exact Hnd].
Qed.

Lemma discard_not_mem k (s : PySet.t) : PySet.mem k (PySet.discard k s) = false.
Proof.
  apply mem_false. unfold PySet.discard. intros Hin.
  apply list_elem_of_In, filter_In in Hin as [_ Hne].
  rewrite String.eqb_refl in Hne. discriminate.
Qed.

End PySetFacts.

(** ** The dedup set of the event handler *)

Section RememberFacts.
Import WalletService.
Context {rt : PySet.Runtime}.

Lemma remember_small key (processed : PySet.t) :
  key ∉ processed ->
  len (processed ++ [key]) <= 10000 ->
  remember key processed = processed ++ [key].
Proof.
  intros Hk Hlen. unfold remember. cbv zeta. rewrite (add_fresh _ _ Hk).
  destruct (10000 <? len (processed ++ [key])) eqn:E; [|reflexivity].
  apply Z.ltb_lt in E. lia.
Qed.

(** The trim keeps the tail of the iteration over the set. *)
Lemma remember_trim key (processed : PySet.t) :
  key ∉ processed ->
  10000 < len (processed ++ [key]) ->
  remember key processed
  = PySet.of_list (last_n 5000 (PySet.set_iter (processed ++ [key]))).
Proof.
  intros Hk Hlen. unfold remember, PySet.to_list. cbv zeta.
  rewrite (add_fresh _ _ Hk).
  apply Z.ltb_lt in Hlen. rewrite Hlen. reflexivity.
Qed.

(** The insertions of distinct keys, as long as they are at most
    10000, leave the keys in the set. *)
Lemma remember_all (keys : list string) :
  forall processed : PySet.t,
    NoDup (processed ++ keys) ->
    len (processed ++ keys) <= 10000 ->
    fold_left (fun s k => remember k s) keys processed = processed ++ keys.
Proof.
  induction keys as [|k keys IH]; intros processed Hnd Hlen; cbn [fold_left].
  - rewrite app_nil_r. reflexivity.
  - assert (Hk : k ∉ processed).
    { apply NoDup_app in Hnd as (_ & Hdis & _).
      intros Hin. apply (Hdis k Hin). left. }
    assert (Happ : (processed ++ [k]) ++ keys = processed ++ k :: keys)
      by (rewrite <- app_assoc; reflexivity).
    rewrite remember_small; [|exact Hk|].
    + rewrite IH; rewrite Happ; [reflexivity | exact Hnd | exact Hlen].
    + unfold len in *. rewrite !length_app in *. cbn [length] in *. lia.
Qed.

(** What the trim guarantees under every runtime: exactly 5000 keys
    are left, without repeats, each of them in the set before the
    trim; they are the last 5000 of the iteration. *)
Lemma remember_trim_size key (processed : PySet.t) :
  NoDup processed -> key ∉ processed ->
  10000 < len (processed ++ [key]) ->
  remember key processed = last_n 5000 (PySet.set_iter (processed ++ [key])) /\
  NoDup (remember key processed) /\
  length (remember key processed) = Z.to_nat 5000 /\
  (forall k, k ∈ remember key processed -> k ∈ processed ++ [key]).
Proof.
  intros Hnd Hk Hlen.
  assert (Hnd' : NoDup (processed ++ [key])).
  { apply NoDup_app. split; [exact Hnd|]. split.
    - intros x Hx Hin. apply list_elem_of_singleton in Hin. subst x. contradiction.
    - apply NoDup_singleton. }
  pose proof (PySet.set_iter_perm _ Hnd') as Hperm.
  assert (Hnd_it : NoDup (PySet.set_iter (processed ++ [key]))).
  { rewrite Hperm. exact Hnd'. }
  assert (Hnd_tail : NoDup (last_n 5000 (PySet.set_iter (processed ++ [key])))).
  { unfold last_n. eapply sublist_NoDup; [exact Hnd_it|apply sublist_drop]. }
  rewrite (remember_trim key processed Hk Hlen).
  rewrite (of_list_NoDup _ Hnd_tail).
  split; [reflexivity|]. split; [exact Hnd_tail|]. split.
  - unfold last_n. rewrite length_drop.
    pose proof (Permutation_length Hperm) as Hl.
    unfold len in Hlen. lia.
  - intros k Hin. unfold last_n in Hin.
    rewrite <- Hperm. eapply elem_of_sublist; [exact Hin|apply sublist_drop].
Qed.

End RememberFacts.

(** ** The wallet service and the event handler *)

Section HandlerFacts.
Import Generators WalletEvents WalletService.
Context (settings : Settings) {lib : CryptoLib} {rt : PySet.Runtime}.
Context (validate_datetime : JSON -> Res datetime).

(** *** What leaves [_processed_events] alone *)

Lemma keeps_ret {A} (a : A) : keeps_processed (ret a).
Proof. intros w. reflexivity. Qed.

Lemma keeps_raise {A} (e : Exn) : keeps_processed (@raise World A e).
Proof. intros w. reflexivity. Qed.

Lemma keeps_lift {A} (r : Res A) : keeps_processed (lift r).
Proof. intros w. reflexivity. Qed.

Lemma keeps_bind {A B} (c : M World A) (k : A -> M World B) :
  keeps_processed c -> (forall a, keeps_processed (k a)) ->
  keeps_processed (bind c k).
Proof.
  intros Hc Hk w. unfold bind. specialize (Hc w).
  destruct (c w) as [[a|e] w']; cbn [snd] in *.
  - rewrite (Hk a w'). exact Hc.
  - exact Hc.
Qed.

Lemma keeps_try_except {A} (c : M World A) (h : Exn -> M World A) :
  keeps_processed c -> (forall e, keeps_processed (h e)) ->
  keeps_processed (try_except c h).
Proof.
  intros Hc Hh w. unfold try_except. specialize (Hc w).
  destruct (c w) as [[a|e] w']; cbn [snd] in *.
  - exact Hc.
  - rewrite (Hh e w'). exact Hc.
Qed.

Lemma keeps_cache_get now key : keeps_processed (cache_get settings now key).
Proof.
  intros w. unfold cache_get.
  destruct (CacheService.get settings now key (store w)). reflexivity.
Qed.

Lemma keeps_cache_set now key v : keeps_processed (cache_set settings now key v).
Proof. intros w. reflexivity. Qed.

Lemma keeps_repository_get u n :
  keeps_processed (repository_get_by_user_and_network u n).
Proof. intros w. reflexivity. Qed.

Lemma keeps_repository_create wl : keeps_processed (repository_create wl).
Proof.
  intros w. unfold repository_create.
  destruct (WalletRepository.create wl (db w)). reflexivity.
Qed.

Lemma keeps_get_next_index clk n : keeps_processed (get_next_index settings clk n).
Proof.
  intros w. unfold get_next_index.
  destruct (DerivationService.get_next_index _ _ _ _ _ _). reflexivity.
Qed.

Lemma keeps_on_generator {A} n (c : M PathCache A) :
  keeps_processed (on_generator n c).
Proof.
  intros w. unfold on_generator. destruct (c (paths_of n w)). reflexivity.
Qed.

Lemma keeps_create_task wl : keeps_processed (create_task wl).
Proof. intros w. reflexivity. Qed.

Lemma keeps__generate_wallet clk u n :
  keeps_processed (_generate_wallet settings clk u n).
Proof.
  unfold _generate_wallet.
  apply keeps_bind; [apply keeps_lift|]. intros network_type.
  apply keeps_bind; [apply keeps_get_next_index|]. intros index.
  apply keeps_bind; [apply keeps_lift|]. intros mnemonic.
  apply keeps_bind; [apply keeps_on_generator|]. intros address.
  apply keeps_lift.
Qed.

Lemma keeps_create_wallet clk u n :
  keeps_processed (create_wallet settings clk u n).
Proof.
  unfold create_wallet. cbv zeta.
  apply keeps_bind; [apply keeps_cache_get|]. intros cached.
  destruct (truthy cached); [apply keeps_ret|].
  apply keeps_bind; [apply keeps_repository_get|]. intros [found|].
  - apply keeps_bind; [apply keeps_cache_set|]. intros _. apply keeps_ret.
  - apply keeps_try_except; [|intros e; apply keeps_raise].
    apply keeps_bind; [apply keeps__generate_wallet|]. intros wl.
    apply keeps_bind; [apply keeps_repository_create|]. intros wl'.
    apply keeps_bind; [apply keeps_cache_set|]. intros _.
    apply keeps_bind; [apply keeps_create_task|]. intros _.
    apply keeps_ret.
Qed.

(** *** The two paths of the handler *)

Lemma handle_duplicate clk ev (w : World) :
  PySet.mem (event_key ev) (processed_events w) = true ->
  handle_user_verified settings clk ev w = (Ok tt, w).
Proof.
  intros Hmem. unfold handle_user_verified, bind, read. cbv zeta.
  rewrite Hmem. reflexivity.
Qed.

Lemma handle_fresh clk ev (w : World) :
  PySet.mem (event_key ev) (processed_events w) = false ->
  handle_user_verified settings clk ev w
  = match create_wallet settings clk (ev_user_id ev) (ev_network ev)
            (with_processed (remember (event_key ev)) w) with
    | (Ok (PyWallet _), w') => (Ok tt, w')
    | (Ok _, w') =>
        (Raise (AttributeError "object has no attribute 'wallet_address'"),
         with_processed (PySet.discard (event_key ev)) w')
    | (Raise e, w') =>
        if is_WalletAlreadyExists e then (Ok tt, w')
        else (Raise e, with_processed (PySet.discard (event_key ev)) w')
    end.
Proof.
  intros Hmem.
  unfold handle_user_verified, bind, read, modify, try_except, raise, ret.
  cbv zeta. rewrite Hmem.
  destruct (create_wallet _ _ _ _ _) as [[v|e] w'].
  - destruct v; reflexivity.
  - destruct (is_WalletAlreadyExists e); reflexivity.
Qed.

(** [create_wallet], when the wallet is neither cached nor stored. *)
Lemma create_wallet_new clk u n (w w' : World) v :
  cache_get settings (at_lookup clk) ("wallet:" +:+ u +:+ ":" +:+ n) w = (Ok v, w') ->
  truthy v = false ->
  WalletRepository.get_by_user_and_network u n (db w') = Ok None ->
  create_wallet settings clk u n w
  = try_except
      (wallet <~ _generate_wallet settings clk u n ;;
       wallet <~ repository_create wallet ;;
       cache_set settings (at_store clk) ("wallet:" +:+ u +:+ ":" +:+ n)
         (PyWallet wallet) ;;;
       create_task wallet ;;;
       ret (PyWallet wallet))
      (fun e =>
         raise (WalletGenerationException
                  ("Failed to generate wallet: " +:+ Exn_str e))) w'.
Proof.
  intros Hget Hfalse Hrepo. unfold create_wallet. cbv zeta.
  unfold bind at 1. rewrite Hget. rewrite Hfalse.
  unfold bind at 1. unfold repository_get_by_user_and_network at 1.
  rewrite Hrepo. reflexivity.
Qed.

End HandlerFacts.

Section ServiceTable.
Import Generators WalletEvents WalletService.
Context (settings : Settings) {lib : CryptoLib} {rt : PySet.Runtime}.

Lemma with_store_same (w : World) : with_store (store w) w = w.
Proof. destruct w. reflexivity. Qed.

Lemma keeps_table_ret {A} (a : A) : keeps_table (ret a).
Proof. intros w. split; reflexivity. Qed.

Lemma keeps_table_raise {A} (e : Exn) : keeps_table (@raise World A e).
Proof. intros w. split; reflexivity. Qed.

Lemma keeps_table_lift {A} (r : Res A) : keeps_table (lift r).
Proof. intros w. split; reflexivity. Qed.

Lemma keeps_table_bind {A B} (c : M World A) (k : A -> M World B) :
  keeps_table c -> (forall a, keeps_table (k a)) -> keeps_table (bind c k).
Proof.
  intros Hc Hk w. unfold bind. specialize (Hc w).
  destruct (c w) as [[a|e] w']; cbn [snd] in *.
  - destruct (Hk a w') as [H1 H2]. destruct Hc as [H3 H4].
    split; congruence.
  - exact Hc.
Qed.


Lemma keeps_table_cache_set now key v : keeps_table (cache_set settings now key v).
Proof. intros w. split; reflexivity. Qed.

Lemma keeps_table_get_next_index clk n : keeps_table (get_next_index settings clk n).
Proof.
  intros w. unfold get_next_index.
  destruct (DerivationService.get_next_index _ _ _ _ _ _). split; reflexivity.
Qed.

Lemma keeps_table_on_generator {A} n (c : M PathCache A) :
  keeps_table (on_generator n c).
Proof.
  intros w. unfold on_generator. destruct (c (paths_of n w)). split; reflexivity.
Qed.

Lemma keeps_table__generate_wallet clk u n :
  keeps_table (_generate_wallet settings clk u n).
Proof.
  unfold _generate_wallet.
  apply keeps_table_bind; [apply keeps_table_lift|]. intros network_type.
  apply keeps_table_bind; [apply keeps_table_get_next_index|]. intros index.
  apply keeps_table_bind; [apply keeps_table_lift|]. intros mnemonic.
  apply keeps_table_bind; [apply keeps_table_on_generator|]. intros address.
  apply keeps_table_lift.
Qed.

End ServiceTable.

Section UniqueViolation.
Import Generators WalletEvents WalletService.
Context (settings : Settings) {lib : CryptoLib} {rt : PySet.Runtime}.

Lemma NetworkType_of_raises s e :
  NetworkType_of s = Raise e -> exists msg, e = ValueError msg.
Proof.
  unfold NetworkType_of. intros H.
  destruct (String.eqb s "ethereum"); [discriminate|].
  destruct (String.eqb s "tron"); [discriminate|].
  destruct (String.eqb s "bitcoin"); [discriminate|].
  injection H as <-. eexists. reflexivity.
Qed.

Lemma Wallet_new_raises u n addr idx now e :
  Wallet_new u n addr idx now = Raise e -> exists msg, e = ValueError msg.
Proof.
  unfold Wallet_new. intros H.
  destruct (_validate_address n addr); [discriminate|].
  injection H as <-. eexists. reflexivity.
Qed.


(** A lookup that returns has found the session in use. *)
Lemma lookup_Ok_usable u n d r :
  WalletRepository.get_by_user_and_network u n d = Ok r ->
  WalletRepository.rolled_back d = false.
Proof.
  unfold WalletRepository.get_by_user_and_network.
  destruct (WalletRepository.rolled_back d); [discriminate|reflexivity].
Qed.


(** C1, on the code.  A delivery whose key is new, whose wallet is
    neither cached nor found by the lookup, and whose freshly generated
    address is already in the table, so that the insertion violates
    the unique constraint: the handler does not return, it raises
    [WalletGenerationException], and the key of the delivery is no
    longer in [_processed_events].  The failed flush has rolled the
    session back. *)
Theorem unique_violation_fails_the_handler
    (clk : Clock) (ev : UserVerifiedEvent) (w w2 w3 : World)
    (v : PyVal) (wl : Wallet) :
  PySet.mem (event_key ev) (processed_events w) = false ->
  cache_get settings (at_lookup clk)
    ("wallet:" +:+ ev_user_id ev +:+ ":" +:+ ev_network ev)
    (with_processed (remember (event_key ev)) w) = (Ok v, w2) ->
  truthy v = false ->
  WalletRepository.get_by_user_and_network (ev_user_id ev) (ev_network ev) (db w2)
  = Ok None ->
  _generate_wallet settings clk (ev_user_id ev) (ev_network ev) w2 = (Ok wl, w3) ->
  WalletRepository.int32 (derivation_index wl) = true ->
  existsb (fun r => String.eqb (WalletRepository.row_wallet_address r)
                      (wallet_address wl))
    (WalletRepository.rows (db w3)) = true ->
  handle_user_verified settings clk ev w
  = (Raise (WalletGenerationException
              "Failed to generate wallet: duplicate key value violates unique constraint"),
     with_processed (PySet.discard (event_key ev))
       (with_db (WalletRepository.fail_flush (db w3)) w3)) /\
  PySet.mem (event_key ev)
    (processed_events
       (with_processed (PySet.discard (event_key ev))
          (with_db (WalletRepository.fail_flush (db w3)) w3))) = false.
Proof.
  intros Hnew Hcache Hfalse Hrepo Hgen Hint Hdup.
  split; [|apply discard_not_mem].
  rewrite (handle_fresh settings clk ev w Hnew).
  rewrite (create_wallet_new settings clk _ _ _ w2 v Hcache Hfalse Hrepo).
  unfold try_except, bind at 1. rewrite Hgen.
  assert (Husable : WalletRepository.rolled_back (db w3) = false).
  { pose proof (keeps_table__generate_wallet settings clk (ev_user_id ev)
                  (ev_network ev) w2) as [Hdb _].
    rewrite Hgen in Hdb. cbn [snd] in Hdb. rewrite Hdb.
    apply (lookup_Ok_usable _ _ _ _ Hrepo). }
  unfold bind at 1, repository_create at 1, WalletRepository.create.
  rewrite Husable, Hint, Hdup. reflexivity.
Qed.

End UniqueViolation.

Lemma unique_violation_fails_the_handler_witness :
  fst (WalletService.handle_user_verified (lib := sample_lib)
         (rt := insertion_ordered) default_settings (clock_at 1000%Q)
         first_delivery (WalletService.initial_world WalletRepository.empty_db))
  = Ok tt /\
  fst (WalletService.handle_user_verified (lib := sample_lib)
         (rt := insertion_ordered) default_settings (clock_at 1300%Q)
         second_delivery after_first_delivery)
  = Raise (WalletGenerationException
             "Failed to generate wallet: duplicate key value violates unique constraint") /\
  PySet.mem (WalletService.event_key second_delivery)
    (WalletService.processed_events
       (snd (WalletService.handle_user_verified (lib := sample_lib)
               (rt := insertion_ordered) default_settings (clock_at 1300%Q)
               second_delivery after_first_delivery))) = false.
Proof.
  split; [vm_compute; reflexivity|].
  pose (w1 := WalletService.with_processed
                (WalletService.remember (rt := insertion_ordered)
                   (WalletService.event_key second_delivery))
                after_first_delivery).
  pose (looked := WalletService.cache_get default_settings 1300%Q
                    "wallet:u1:ETHEREUM" w1).
  pose (made := WalletService._generate_wallet (lib := sample_lib)
                  default_settings (clock_at 1300%Q) "u1" "ETHEREUM" (snd looked)).
  pose (wl := match fst made with
              | Ok x => x
              | Raise _ =>
                  {| user_id := "u1"; network := ETHEREUM; wallet_address := "";
                     derivation_index := 0; id := None; created_at := 0%Q;
                     last_accessed_at := None |}
              end).
  destruct (unique_violation_fails_the_handler (lib := sample_lib)
              (rt := insertion_ordered) default_settings (clock_at 1300%Q)
              second_delivery after_first_delivery (snd looked) (snd made)
              PyNone wl) as [Hrun Hkey].
  - vm_compute. reflexivity.
  - vm_compute. reflexivity.
  - reflexivity.
  - vm_compute. reflexivity.
  - vm_compute. reflexivity.
  - vm_compute. reflexivity.
  - vm_compute. reflexivity.
  - rewrite Hrun. split; [reflexivity | exact Hkey].
Defined.

(** ** The trim of the dedup set *)

Lemma append_cons (c : ascii) (s t : string) :
  String c s +:+ t = String c (s +:+ t).
Proof. reflexivity. Qed.

Lemma append_length (s t : string) :
  String.length (s +:+ t) = (String.length s + String.length t)%nat.
Proof.
  induction s as [|c s IH]; [reflexivity|].
  rewrite append_cons. cbn [String.length]. rewrite IH. reflexivity.
Qed.

Lemma append_inv_tail (t : string) :
  forall s1 s2 : string, s1 +:+ t = s2 +:+ t -> s1 = s2.
Proof.
  induction s1 as [|c s1 IH]; intros [|d s2] H.
  - reflexivity.
  - apply (f_equal String.length) in H.
    rewrite append_cons in H. cbn [String.length] in H.
    rewrite !append_length in H. cbn [String.length] in H. lia.
  - apply (f_equal String.length) in H.
    rewrite append_cons in H. cbn [String.length] in H.
    rewrite !append_length in H. cbn [String.length] in H. lia.
  - rewrite !append_cons in H. injection H as -> H. f_equal. apply IH. exact H.
Qed.

Lemma sample_key_inj : Inj eq eq sample_key.
Proof.
  intros i j H. unfold sample_key in H.
  apply append_inv_tail in H. apply (inj pretty) in H. exact H.
Qed.

Lemma discard_absent k (s : PySet.t) : k ∉ s -> PySet.discard k s = s.
Proof.
  intros Hk. unfold PySet.discard.
  induction s as [|x s IH]; [reflexivity|]. cbn [List.filter].
  destruct (String.eqb k x) eqn:E.
  - apply String.eqb_eq in E. subst x. exfalso. apply Hk. left.
  - cbn [negb]. f_equal. apply IH. intros Hin. apply Hk. right. exact Hin.
Qed.

Section TrimFacts.
Import Generators WalletEvents WalletService.

(** In a runtime that iterates in insertion order the trim keeps the
    5000 keys inserted last. *)
Lemma trim_in_insertion_order key (processed : PySet.t) :
  NoDup processed -> key ∉ processed ->
  10000 < len (processed ++ [key]) ->
  remember (rt := insertion_ordered) key processed
  = last_n 5000 (processed ++ [key]).
Proof.
  intros Hnd Hk Hlen.
  apply (remember_trim_size (rt := insertion_ordered) key processed Hnd Hk Hlen).
Qed.

(** In a runtime that iterates newest first the trim keeps the 5000
    keys inserted first. *)
Lemma trim_newest_first key (processed : PySet.t) :
  NoDup processed -> key ∉ processed ->
  10000 < len (processed ++ [key]) ->
  remember (rt := newest_first) key processed
  = reverse (take (Z.to_nat 5000) processed).
Proof.
  intros Hnd Hk Hlen.
  destruct (remember_trim_size (rt := newest_first) key processed Hnd Hk Hlen)
    as [-> _].
  unfold last_n. cbn [PySet.set_iter newest_first].
  rewrite length_reverse, drop_reverse.
  unfold len in Hlen. rewrite length_app in *. cbn [length] in *.
  replace (length processed + 1 - (length processed + 1 - Z.to_nat 5000))%nat
    with (Z.to_nat 5000) by lia.
  rewrite take_app_le by lia. reflexivity.
Qed.

Context (settings : Settings) {lib : CryptoLib}.

(** The dedup set after a delivery whose key is new. *)
Lemma handle_processed_events {rt : PySet.Runtime} clk ev (w : World) :
  PySet.mem (event_key ev) (processed_events w) = false ->
  processed_events (snd (handle_user_verified settings clk ev w))
  = match fst (handle_user_verified settings clk ev w) with
    | Ok _ => remember (event_key ev) (processed_events w)
    | Raise _ =>
        PySet.discard (event_key ev) (remember (event_key ev) (processed_events w))
    end.
Proof.
  intros Hnew. rewrite (handle_fresh settings clk ev w Hnew).
  pose proof (keeps_create_wallet settings clk (ev_user_id ev) (ev_network ev)
                (with_processed (remember (event_key ev)) w)) as Hk.
  destruct (create_wallet _ _ _ _ _) as [[v|e] w']; cbn [snd] in Hk.
  - destruct v; cbn; rewrite Hk; reflexivity.
  - destruct (is_WalletAlreadyExists e); cbn; rewrite Hk; reflexivity.
Qed.

(** C2, on the code.  Ten thousand deliveries with distinct keys
    leave their keys in the set.  The delivery of one more key makes
    the set exceed 10000 entries and triggers the trim; in a runtime
    that iterates over the set newest first, what the handler leaves in
    [_processed_events], whether the wallet creation succeeds or not,
    is the 5000 keys inserted FIRST: the key of the delivery itself
    and the 5000 keys before it are forgotten. *)
Theorem trim_forgets_the_newest_keys (clk : Clock) (w0 : World) :
  let inserted := sample_key <$> seq 0 (Z.to_nat 10000) in
  let ev := {| event := "user.verified"; ev_user_id := "10000";
               ev_network := "ethereum"; timestamp := None |} in
  let w := with_processed (fun _ => inserted) w0 in
  let w' := snd (handle_user_verified (rt := newest_first) settings clk ev w) in
  fold_left (fun s k => remember (rt := newest_first) k s) inserted PySet.empty
  = inserted /\
  event_key ev = sample_key (Z.to_nat 10000) /\
  processed_events w' = reverse (sample_key <$> seq 0 (Z.to_nat 5000)) /\
  PySet.mem (event_key ev) (processed_events w') = false /\
  PySet.mem (sample_key 0) (processed_events w') = true.
Proof.
  intros inserted ev w w'.
  pose proof sample_key_inj as Hinj.
  assert (Hkey : event_key ev = sample_key (Z.to_nat 10000))
    by (vm_compute; reflexivity).
  revert Hkey. unfold w', w, inserted. clear w' w inserted.
  assert (HN : Z.of_nat (Z.to_nat 10000) = 10000) by lia.
  assert (HK : (0 < Z.to_nat 5000 < Z.to_nat 10000)%nat) by lia.
  revert HN HK.
  generalize (Z.to_nat 10000) as N. intros N HN HK Hkey.
  assert (HKdef : exists K, K = Z.to_nat 5000) by (eexists; reflexivity).
  destruct HKdef as [K HKdef]. rewrite <- HKdef in *.
  set (inserted := sample_key <$> seq 0 N).
  assert (Hnd : NoDup inserted).
  { apply (NoDup_fmap_2 sample_key), NoDup_seq. }
  assert (Hlen : length inserted = N).
  { unfold inserted. rewrite length_fmap, length_seq. reflexivity. }
  assert (Hnew : sample_key N ∉ inserted).
  { unfold inserted. intros Hin.
    apply (proj1 (list_elem_of_fmap_inj sample_key (seq 0 N) N)) in Hin.
    apply elem_of_seq in Hin. lia. }
  assert (Htrim : remember (rt := newest_first) (sample_key N) inserted
                  = reverse (sample_key <$> seq 0 K)).
  { rewrite (trim_newest_first (sample_key N) inserted Hnd Hnew).
    - rewrite <- HKdef. unfold inserted. rewrite <- fmap_take, take_seq.
      replace (K `min` N)%nat with K by lia. reflexivity.
    - unfold len. rewrite length_app, Hlen. cbn [length]. lia. }
  assert (Hgone : sample_key N ∉ reverse (sample_key <$> seq 0 K)).
  { intros Hin. apply (proj1 (elem_of_reverse _ _)) in Hin.
    apply (proj1 (list_elem_of_fmap_inj sample_key (seq 0 K) N)) in Hin.
    apply elem_of_seq in Hin. lia. }
  set (w := with_processed (fun _ => inserted) w0).
  assert (Hafter :
            processed_events
              (snd (handle_user_verified (rt := newest_first) settings clk ev w))
            = reverse (sample_key <$> seq 0 K)).
  { pose proof (handle_processed_events (rt := newest_first) clk ev w) as Hp.
    rewrite Hkey in Hp. cbn [processed_events with_processed w] in Hp.
    rewrite Hp by (apply mem_false; exact Hnew).
    rewrite Htrim.
    destruct (fst _); [reflexivity|]. apply discard_absent. exact Hgone. }
  split; [|split; [exact Hkey|split; [exact Hafter|split]]].
  - apply (remember_all (rt := newest_first) inserted []).
    + exact Hnd.
    + unfold len. cbn [app]. rewrite Hlen. lia.
  - rewrite Hafter, Hkey. apply mem_false. exact Hgone.
  - rewrite Hafter. apply mem_true. apply (proj2 (elem_of_reverse _ _)).
    apply (list_elem_of_fmap_2 sample_key (seq 0 K) O). apply elem_of_seq. lia.
Qed.

End TrimFacts.

(** ** Deliveries without a timestamp *)

Section TimestamplessFacts.
Import Generators WalletEvents WalletService.
Context (settings : Settings) {lib : CryptoLib} {rt : PySet.Runtime}.
Context (validate_datetime : JSON -> Res datetime).



End TimestamplessFacts.


(** ** The verification service *)

Section VerificationFacts.
Import Verification.
Context (settings : Settings) {std : StdLib}.

Lemma NetworkType_of_message s e :
  NetworkType_of s = Raise e -> e <> ValueError "Document too large".
Proof.
  unfold NetworkType_of. intros H.
  destruct (String.eqb s "ethereum"); [discriminate|].
  destruct (String.eqb s "tron"); [discriminate|].
  destruct (String.eqb s "bitcoin"); [discriminate|].
  injection H as <-. rewrite append_cons. discriminate.
Qed.

Lemma VerificationStatus_of_message s e :
  VerificationStatus_of s = Raise e -> e <> ValueError "Document too large".
Proof.
  unfold VerificationStatus_of. intros H.
  destruct (String.eqb s "pending"); [discriminate|].
  destruct (String.eqb s "verified"); [discriminate|].
  destruct (String.eqb s "failed"); [discriminate|].
  injection H as <-. rewrite append_cons. discriminate.
Qed.

Lemma lookup_message u n table e :
  lookup u n table = Raise e -> e <> ValueError "Document too large".
Proof.
  unfold lookup. intros H.
  destruct (List.filter _ _) as [|r [|r' rest]]; [discriminate| |].
  - unfold _to_domain in H.
    destruct (NetworkType_of _) as [nt|e1] eqn:En.
    + destruct (VerificationStatus_of _) as [s|e2] eqn:Es; [discriminate|].
      injection H as <-. apply (VerificationStatus_of_message _ _ Es).
    + injection H as <-. apply (NetworkType_of_message _ _ En).
  - injection H as <-. discriminate.
Qed.

(** A row the lookup returns was stored under a network the enum
    knows. *)
Lemma lookup_network u n table found :
  lookup u n table = Ok (Some found) -> NetworkType_of n = Ok (network found).
Proof.
  unfold lookup. intros H.
  destruct (List.filter _ _) as [|r [|r' rest]] eqn:Ef; try discriminate.
  assert (Hin : In r (List.filter (matches u n) table)) by (rewrite Ef; left; reflexivity).
  apply filter_In in Hin as [_ Hm]. unfold matches in Hm.
  apply andb_true_iff in Hm as [_ Hn]. apply String.eqb_eq in Hn.
  unfold _to_domain in H. rewrite Hn in H.
  destruct (NetworkType_of n) as [nt|e1]; [|discriminate].
  destruct (VerificationStatus_of _) as [s|e2]; [|discriminate].
  injection H as <-. reflexivity.
Qed.

(** The steps that follow the lookup, when the network is one of the
    enum and when it is not. *)
Lemma process_new_supported t_created t_verified u n data nt (w : World) :
  NetworkType_of n = Ok nt ->
  process_new t_created t_verified u n data w
  = (Ok {| user_id := u; network := nt;
           document_hash := sha256_hexdigest data; id := Some (next_uuid w);
           status := VERIFIED; verified_at := Some t_verified;
           created_at := t_created |},
     {| rows := map (set_status (Some (next_uuid w)) VERIFIED)
                  (rows w ++
                   [{| row_id := next_uuid w; row_user_id := u;
                       row_network := NetworkType_value nt;
                       row_document_hash := sha256_hexdigest data;
                       row_status := "pending"; row_verified_at := None;
                       row_created_at := t_created; row_version := 1 |}]);
        next_uuid := S (next_uuid w);
        calls := (calls w ++
                  [CallSave {| user_id := u; network := nt;
                               document_hash := sha256_hexdigest data;
                               id := None; status := PENDING;
                               verified_at := None; created_at := t_created |}])
                 ++ [CallUpdateStatus (Some (next_uuid w)) VERIFIED];
        tasks := tasks w ++
                 [{| user_id := u; network := nt;
                     document_hash := sha256_hexdigest data;
                     id := Some (next_uuid w);
                     status := VERIFIED; verified_at := Some t_verified;
                     created_at := t_created |}] |}).
Proof.
  intros Hn. unfold process_new, bind, lift. rewrite Hn. reflexivity.
Qed.

Lemma process_new_unsupported t_created t_verified u n data e (w : World) :
  NetworkType_of n = Raise e ->
  process_new t_created t_verified u n data w = (Raise e, w).
Proof.
  intros Hn. unfold process_new, bind, lift. rewrite Hn. reflexivity.
Qed.

(** [verify_user] on a document over the limit, and on one within it. *)
Lemma verify_user_too_large t_created t_verified u n doc data (w : World) :
  b64decode doc = Ok data ->
  size_limit settings < Z.of_nat (String.length data) ->
  verify_user settings t_created t_verified u n doc w
  = (Raise (ValueError "Document too large"), w).
Proof.
  intros Hd Hlen. unfold verify_user, bind, lift, raise. rewrite Hd.
  apply Z.ltb_lt in Hlen. rewrite Hlen. reflexivity.
Qed.

Lemma verify_user_within t_created t_verified u n doc data (w : World) :
  b64decode doc = Ok data ->
  Z.of_nat (String.length data) <= size_limit settings ->
  verify_user settings t_created t_verified u n doc w
  = match lookup u n (rows w) with
    | Ok (Some found) =>
        if is_VERIFIED (status found) then (Ok found, called (CallGet u n) w)
        else process_new t_created t_verified u n data (called (CallGet u n) w)
    | Ok None => process_new t_created t_verified u n data (called (CallGet u n) w)
    | Raise e => (Raise e, called (CallGet u n) w)
    end.
Proof.
  intros Hd Hlen. unfold verify_user, bind, lift, get_by_user_and_network.
  rewrite Hd.
  destruct (size_limit settings <? Z.of_nat (String.length data)) eqn:E.
  { apply Z.ltb_lt in E. lia. }
  destruct (lookup u n (rows w)) as [[found|]|e]; try reflexivity.
  destruct (is_VERIFIED (status found)); reflexivity.
Qed.

Lemma process_new_outcome t_created t_verified u n data (w : World) :
  fst (process_new t_created t_verified u n data w)
    <> Raise (ValueError "Document too large") /\
  exists later,
    calls (snd (process_new t_created t_verified u n data w)) = calls w ++ later.
Proof.
  destruct (NetworkType_of n) as [nt|e] eqn:En.
  - rewrite (process_new_supported _ _ _ _ _ nt w En). cbn [fst snd calls].
    split; [discriminate|]. eexists. rewrite <- app_assoc. reflexivity.
  - rewrite (process_new_unsupported _ _ _ _ _ e w En). cbn [fst snd].
    split.
    + intros H. injection H as H. apply (NetworkType_of_message _ _ En H).
    + exists []. rewrite app_nil_r. reflexivity.
Qed.

End VerificationFacts.

Section VerificationClaims.
Import Verification.
Context (settings : Settings) {std : StdLib}.

(** C7, amended.  A document whose decoded size is exactly
    [max_document_size_mb * 1024 * 1024] bytes passes the size check:
    [verify_user] does not raise "Document too large", goes on to the
    repository lookup, and, for a network of the enum and no row yet,
    returns the new verification, VERIFIED.  A document one byte
    larger is rejected with [ValueError "Document too large"], the
    state untouched; that exception is no [BaseServiceException], so
    what the route answers for it is 500 "Internal server error", not
    400 or 413. *)
Theorem document_size_boundary (t_created t_verified : Q)
    (u n doc : string) (data : Generators.bytes) (w : World) :
  b64decode doc = Ok data ->
  (Z.of_nat (String.length data) = max_document_size_mb settings * 1024 * 1024 ->
     fst (verify_user settings t_created t_verified u n doc w)
       <> Raise (ValueError "Document too large") /\
     (exists later,
        calls (snd (verify_user settings t_created t_verified u n doc w))
        = calls w ++ CallGet u n :: later) /\
     (forall nt,
        NetworkType_of n = Ok nt -> lookup u n (rows w) = Ok None ->
        fst (verify_user settings t_created t_verified u n doc w)
        = Ok {| user_id := u; network := nt;
                document_hash := sha256_hexdigest data;
                id := Some (next_uuid w); status := VERIFIED;
                verified_at := Some t_verified; created_at := t_created |})) /\
  (Z.of_nat (String.length data) = max_document_size_mb settings * 1024 * 1024 + 1 ->
     verify_user settings t_created t_verified u n doc w
     = (Raise (ValueError "Document too large"), w) /\
     VerificationApi.BaseServiceException_of (ValueError "Document too large") = None /\
     VerificationApi.verify_user_route settings t_created t_verified
       {| req_user_id := u; req_network := n; req_document := doc |} w
     = (VerificationApi.HTTPException 500 "Internal server error", w)).
Proof.
  intros Hd. split.
  - intros Hlen.
    assert (Hle : Z.of_nat (String.length data) <= size_limit settings)
      by (unfold size_limit; lia).
    rewrite (verify_user_within settings _ _ _ _ _ _ w Hd Hle).
    pose proof (process_new_outcome t_created t_verified u n data
                  (called (CallGet u n) w)) as [Hne [later Hcalls]].
    cbn [calls called] in Hcalls.
    split; [|split].
    + destruct (lookup u n (rows w)) as [[found|]|e] eqn:El.
      * destruct (is_VERIFIED (status found)); [discriminate | exact Hne].
      * exact Hne.
      * cbn [fst]. intros H. injection H as H.
        apply (lookup_message _ _ _ _ El H).
    + destruct (lookup u n (rows w)) as [[found|]|e] eqn:El.
      * destruct (is_VERIFIED (status found)).
        -- exists []. reflexivity.
        -- exists later. rewrite Hcalls, <- app_assoc. reflexivity.
      * exists later. rewrite Hcalls, <- app_assoc. reflexivity.
      * exists []. reflexivity.
    + intros nt Hn Hnone. rewrite Hnone.
      rewrite (process_new_supported _ _ _ _ _ nt _ Hn). reflexivity.
  - intros Hlen.
    assert (Hlarge : size_limit settings < Z.of_nat (String.length data))
      by (unfold size_limit; lia).
    split; [apply (verify_user_too_large settings _ _ _ _ _ _ w Hd Hlarge)|].
    split; [reflexivity|].
    unfold VerificationApi.verify_user_route.
    cbn [req_user_id req_network req_document].
    rewrite (verify_user_too_large settings _ _ _ _ _ _ w Hd Hlarge). reflexivity.
Qed.

(** C5, amended.  A document over the limit is rejected with
    [ValueError "Document too large"] before any repository call, the
    state untouched.  A network that is not a value of the enum is
    rejected by [verify_user] after the lookup: the call raises, and
    the lookup is the one repository call it has made, no write.  It is
    the request schema that rejects an unsupported network before the
    service is called and so before storage is touched. *)
Theorem invalid_input_and_storage (t_created t_verified : Q)
    (u n doc : string) (data : Generators.bytes) (w : World) :
  b64decode doc = Ok data ->
  (size_limit settings < Z.of_nat (String.length data) ->
     verify_user settings t_created t_verified u n doc w
     = (Raise (ValueError "Document too large"), w)) /\
  (Z.of_nat (String.length data) <= size_limit settings ->
   forall e0, NetworkType_of n = Raise e0 ->
     (exists e, fst (verify_user settings t_created t_verified u n doc w) = Raise e) /\
     snd (verify_user settings t_created t_verified u n doc w)
     = called (CallGet u n) w) /\
  (existsb (String.eqb (lower n)) supported_networks = false ->
     exists msg,
       post_verify settings t_created t_verified u n doc w
       = (Raise (ValidationError msg), w)).
Proof.
  intros Hd. split; [|split].
  - apply (verify_user_too_large settings _ _ _ _ _ _ w Hd).
  - intros Hle e0 Hn.
    rewrite (verify_user_within settings _ _ _ _ _ _ w Hd Hle).
    destruct (lookup u n (rows w)) as [[found|]|e] eqn:El.
    + apply lookup_network in El. congruence.
    + rewrite (process_new_unsupported _ _ _ _ _ e0 _ Hn).
      split; [eexists|]; reflexivity.
    + split; [eexists|]; reflexivity.
  - intros Hun. unfold post_verify, bind, lift, VerificationRequest_new,
      validate_network.
    rewrite Hun.
    destruct (negb _); [eexists; reflexivity|].
    destruct (negb _); eexists; reflexivity.
Qed.

(** C6, amended.  On a request whose document passes the size check,
    for a network of the enum: if the table holds exactly one row for
    the user and network and its status is verified, [verify_user]
    returns that row as stored; the lookup is the only repository
    call it makes, the table is as before, and no publication is
    scheduled.  If the table holds two rows or more for the user and
    network, whatever their status, [verify_user] raises
    [MultipleResultsFound], again with the lookup as its only
    repository call and nothing written or scheduled. *)
Theorem verified_row_returned_unchanged (t_created t_verified : Q)
    (u n doc : string) (data : Generators.bytes) (w : World) :
  b64decode doc = Ok data ->
  Z.of_nat (String.length data) <= size_limit settings ->
  let after := snd (verify_user settings t_created t_verified u n doc w) in
  (forall (r : VerificationRow) (nt : NetworkType),
     List.filter (matches u n) (rows w) = [r] ->
     NetworkType_of n = Ok nt ->
     row_status r = "verified" ->
     fst (verify_user settings t_created t_verified u n doc w)
     = Ok {| user_id := row_user_id r; network := nt;
             document_hash := row_document_hash r; id := Some (row_id r);
             status := VERIFIED; verified_at := row_verified_at r;
             created_at := row_created_at r |} /\
     rows after = rows w /\
     next_uuid after = next_uuid w /\
     calls after = calls w ++ [CallGet u n] /\
     tasks after = tasks w) /\
  (forall (r r' : VerificationRow) (rest : list VerificationRow),
     List.filter (matches u n) (rows w) = r :: r' :: rest ->
     fst (verify_user settings t_created t_verified u n doc w)
     = Raise MultipleResultsFound /\
     rows after = rows w /\
     next_uuid after = next_uuid w /\
     calls after = calls w ++ [CallGet u n] /\
     tasks after = tasks w).
Proof.
  intros Hd Hle after. unfold after.
  rewrite (verify_user_within settings _ _ _ _ _ _ w Hd Hle).
  split.
  - intros r nt Hone Hn Hst.
    assert (Hrn : row_network r = n).
    { assert (Hin : In r (List.filter (matches u n) (rows w)))
        by (rewrite Hone; left; reflexivity).
      apply filter_In in Hin as [_ Hm]. unfold matches in Hm.
      apply andb_true_iff in Hm as [_ Hm]. apply String.eqb_eq in Hm. exact Hm. }
    unfold lookup. rewrite Hone. unfold _to_domain. rewrite Hrn, Hn, Hst.
    change (VerificationStatus_of "verified") with (Ok VERIFIED).
    cbn. repeat split; reflexivity.
  - intros r r' rest Hmany. unfold lookup. rewrite Hmany.
    cbn. repeat split; reflexivity.
Qed.

End VerificationClaims.

(** ** The model on sample requests *)

Lemma zero_bytes_length n : String.length (zero_bytes n) = n.
Proof. induction n as [|n IH]; cbn; [reflexivity | rewrite IH; reflexivity]. Qed.

Lemma decode_zero_group (rest : string) :
  sample_b64decode (String "A" (String "A" (String "A" (String "A" rest))))
  = match sample_b64decode rest with
    | Ok tail => Ok (String "000" (String "000" (String "000" tail)))
    | Raise e => Raise e
    end.
Proof. reflexivity. Qed.

Lemma decode_zero_groups n (last : string) :
  sample_b64decode (zero_groups n +:+ last)
  = match sample_b64decode last with
    | Ok tail => Ok (zero_bytes (3 * n) +:+ tail)
    | Raise e => Raise e
    end.
Proof.
  induction n as [|n IH].
  - cbn [zero_groups Nat.mul zero_bytes]. change ("" +:+ last) with last.
    destruct (sample_b64decode last); reflexivity.
  - cbn [zero_groups]. rewrite !append_cons, decode_zero_group, IH.
    replace (3 * S n)%nat with (S (S (S (3 * n)))) by lia.
    destruct (sample_b64decode last); reflexivity.
Qed.

Lemma one_mebibyte_decoded :
  sample_b64decode one_mebibyte_document
  = Ok (zero_bytes (3 * Z.to_nat 349525) +:+ String "000" "").
Proof. unfold one_mebibyte_document. rewrite decode_zero_groups. reflexivity. Qed.

Lemma one_byte_more_decoded :
  sample_b64decode one_byte_more_document
  = Ok (zero_bytes (3 * Z.to_nat 349525) +:+ String "000" (String "000" "")).
Proof. unfold one_byte_more_document. rewrite decode_zero_groups. reflexivity. Qed.

Lemma document_size_boundary_witness :
  fst (Verification.verify_user (std := sample_std) one_mebibyte_settings
         1000%Q 1003%Q "u1" "ethereum" one_mebibyte_document
         (verification_world []))
    <> Raise (ValueError "Document too large") /\
  Verification.verify_user (std := sample_std) one_mebibyte_settings
    1000%Q 1003%Q "u1" "ethereum" one_byte_more_document (verification_world [])
  = (Raise (ValueError "Document too large"), verification_world []).
Proof.
  split.
  - apply (document_size_boundary one_mebibyte_settings (std := sample_std)
             1000%Q 1003%Q "u1" "ethereum" one_mebibyte_document _
             (verification_world []) one_mebibyte_decoded).
    rewrite append_length, zero_bytes_length. cbn [String.length]. cbn. lia.
  - apply (document_size_boundary one_mebibyte_settings (std := sample_std)
             1000%Q 1003%Q "u1" "ethereum" one_byte_more_document _
             (verification_world []) one_byte_more_decoded).
    rewrite append_length, zero_bytes_length. cbn [String.length]. cbn. lia.
Defined.

(** C7 as stated fails.  With a limit of one mebibyte, the document of
    1048577 bytes is rejected by [verify_user] with a [ValueError],
    which is no [BaseServiceException]: the route answers it with
    status 500, neither 400 nor 413. *)
Lemma oversized_document_is_no_invalid_input :
  let request :=
    {| Verification.req_user_id := "u1"; Verification.req_network := "ethereum";
       Verification.req_document := one_byte_more_document |} in
  fst (Verification.verify_user (std := sample_std) one_mebibyte_settings
         1000%Q 1003%Q "u1" "ethereum" one_byte_more_document (verification_world []))
  = Raise (ValueError "Document too large") /\
  VerificationApi.BaseServiceException_of (ValueError "Document too large") = None /\
  fst (VerificationApi.verify_user_route (std := sample_std) one_mebibyte_settings
         1000%Q 1003%Q request (verification_world []))
  = VerificationApi.HTTPException 500 "Internal server error" /\
  (forall detail,
     fst (VerificationApi.verify_user_route (std := sample_std) one_mebibyte_settings
            1000%Q 1003%Q request (verification_world []))
     <> VerificationApi.HTTPException 400 detail /\
     fst (VerificationApi.verify_user_route (std := sample_std) one_mebibyte_settings
            1000%Q 1003%Q request (verification_world []))
     <> VerificationApi.HTTPException 413 detail).
Proof.
  intros request.
  assert (Hlarge : Verification.size_limit one_mebibyte_settings
                   < Z.of_nat (String.length
                                 (zero_bytes (3 * Z.to_nat 349525)
                                  +:+ String "000" (String "000" "")))).
  { rewrite append_length, zero_bytes_length. cbn [String.length].
    unfold Verification.size_limit. cbn. lia. }
  pose proof (verify_user_too_large one_mebibyte_settings (std := sample_std)
                1000%Q 1003%Q "u1" "ethereum" one_byte_more_document _
                (verification_world []) one_byte_more_decoded Hlarge) as Hv.
  assert (Hroute :
    fst (VerificationApi.verify_user_route (std := sample_std) one_mebibyte_settings
           1000%Q 1003%Q request (verification_world []))
    = VerificationApi.HTTPException 500 "Internal server error").
  { unfold VerificationApi.verify_user_route, request.
    cbn [Verification.req_user_id Verification.req_network Verification.req_document].
    rewrite Hv. reflexivity. }
  split; [rewrite Hv; reflexivity|]. split; [reflexivity|].
  split; [exact Hroute|].
  intros detail. rewrite Hroute. split; discriminate.
Qed.

Lemma sample_document_decoded : sample_b64decode "aGVsbG8=" = Ok "hello".
Proof. reflexivity. Qed.

Lemma verified_row_returned_unchanged_witness :
  let w := verification_world [verified_row] in
  let after :=
    snd (Verification.verify_user (std := sample_std)
           Verification.default_settings 1000%Q 1003%Q "u1" "ethereum"
           "aGVsbG8=" w) in
  fst (Verification.verify_user (std := sample_std)
         Verification.default_settings 1000%Q 1003%Q "u1" "ethereum"
         "aGVsbG8=" w)
  = Ok {| Verification.user_id := "u1";
          Verification.network := Verification.ETHEREUM;
          Verification.document_hash := "sha256:hello";
          Verification.id := Some 0%nat;
          Verification.status := Verification.VERIFIED;
          Verification.verified_at := Some 903%Q;
          Verification.created_at := 900%Q |} /\
  Verification.rows after = Verification.rows w /\
  Verification.next_uuid after = Verification.next_uuid w /\
  Verification.calls after
  = Verification.calls w ++ [Verification.CallGet "u1" "ethereum"] /\
  Verification.tasks after = Verification.tasks w.
Proof.
  assert (Hle : Z.of_nat (String.length "hello")
                <= Verification.size_limit Verification.default_settings)
    by (unfold Verification.size_limit; cbn; lia).
  apply (proj1 (verified_row_returned_unchanged Verification.default_settings
                  (std := sample_std) 1000%Q 1003%Q "u1" "ethereum" "aGVsbG8=" "hello"
                  (verification_world [verified_row]) sample_document_decoded Hle)
           verified_row Verification.ETHEREUM);
    reflexivity.
Defined.

(** C6 as stated fails.  A request that finds [pending_row] stores a
    second row for the user and network and verifies it.  The table
    then holds a row for ("u1", "ethereum") whose status is verified,
    yet the next [verify_user] for that user and network does not
    return it: it raises [MultipleResultsFound]. *)
Lemma verified_row_beside_another_raises :
  Verification.rows
    (snd (Verification.verify_user (std := sample_std) Verification.default_settings
            1000%Q 1003%Q "u1" "ethereum" "aGVsbG8="
            (verification_world [pending_row])))
  = verified_beside_pending /\
  (exists r, In r verified_beside_pending /\
             Verification.row_user_id r = "u1" /\
             Verification.row_network r = "ethereum" /\
             Verification.row_status r = "verified") /\
  fst (Verification.verify_user (std := sample_std) Verification.default_settings
         2000%Q 2003%Q "u1" "ethereum" "aGVsbG8="
         (verification_world verified_beside_pending))
  = Raise MultipleResultsFound.
Proof.
  split; [vm_compute; reflexivity|]. split.
  - eexists. split; [right; left; reflexivity|]. repeat split; reflexivity.
  - vm_compute. reflexivity.
Qed.

Lemma invalid_input_and_storage_witness :
  Verification.verify_user (std := sample_std) one_mebibyte_settings
    1000%Q 1003%Q "u1" "ethereum" one_byte_more_document
    (verification_world [verified_row])
  = (Raise (ValueError "Document too large"), verification_world [verified_row]) /\
  snd (Verification.verify_user (std := sample_std) Verification.default_settings
         1000%Q 1003%Q "u1" "solana" "aGVsbG8=" (verification_world [verified_row]))
  = Verification.called (Verification.CallGet "u1" "solana")
      (verification_world [verified_row]) /\
  exists msg,
    Verification.post_verify (std := sample_std) Verification.default_settings
      1000%Q 1003%Q "u1" "solana" "aGVsbG8=" (verification_world [verified_row])
    = (Raise (ValidationError msg), verification_world [verified_row]).
Proof.
  split; [|split].
  - apply (invalid_input_and_storage one_mebibyte_settings (std := sample_std)
             1000%Q 1003%Q "u1" "ethereum" one_byte_more_document _
             (verification_world [verified_row]) one_byte_more_decoded).
    rewrite append_length, zero_bytes_length. cbn [String.length].
    unfold Verification.size_limit. cbn. lia.
  - destruct (invalid_input_and_storage Verification.default_settings
                (std := sample_std) 1000%Q 1003%Q "u1" "solana" "aGVsbG8=" "hello"
                (verification_world [verified_row]) sample_document_decoded)
      as (_ & Hnet & _).
    apply (Hnet ltac:(unfold Verification.size_limit; cbn; lia)
             (ValueError "'solana' is not a valid NetworkType") eq_refl).
  - destruct (invalid_input_and_storage Verification.default_settings
                (std := sample_std) 1000%Q 1003%Q "u1" "solana" "aGVsbG8=" "hello"
                (verification_world [verified_row]) sample_document_decoded)
      as (_ & _ & Hreq).
    apply Hreq. reflexivity.
Defined.

(** C5 as stated fails.  Called with the network "solana", which is no
    value of the enum, [verify_user] raises, but only after it has
    called [get_by_user_and_network] on the repository. *)
Lemma unsupported_network_reads_the_repository :
  Verification.NetworkType_of "solana"
  = Raise (ValueError "'solana' is not a valid NetworkType") /\
  exists w',
    Verification.verify_user (std := sample_std) Verification.default_settings
      1000%Q 1003%Q "u1" "solana" "aGVsbG8=" (verification_world [])
    = (Raise (ValueError "'solana' is not a valid NetworkType"), w') /\
    Verification.calls w' = [Verification.CallGet "u1" "solana"] /\
    Verification.calls w' <> [].
Proof.
  split; [reflexivity|]. eexists. split; [vm_compute; reflexivity|].
  split; [reflexivity | discriminate].
Qed.

(** * Further properties of the code *)

(** ** The cache: misses, deletion, other keys, expiry *)

Section CacheMore.
Variable settings : Settings.

Lemma _prefixed_inj k k' :
  CacheService._prefixed settings k = CacheService._prefixed settings k' -> k = k'.
Proof. unfold CacheService._prefixed. apply String.app_inj. Qed.

(** A [get] of a key the store does not hold returns [None] and leaves
    the store as it is; so does a [get] after [delete], and after
    [close]; a [delete] of a key the store does not hold changes
    nothing. *)
Theorem cache_miss_and_delete (now : Q) (k : string) (store : CacheService.Store) :
  (store !! CacheService._prefixed settings k = None ->
     CacheService.get settings now k store = (PyNone, store) /\
     CacheService.delete settings k store = store) /\
  CacheService.get settings now k (CacheService.delete settings k store)
  = (PyNone, CacheService.delete settings k store) /\
  CacheService.get settings now k (CacheService.close store)
  = (PyNone, CacheService.close store).
Proof.
  split; [|split].
  - intros Hn. split; [apply get_absent; exact Hn|].
    unfold CacheService.delete. apply delete_id. exact Hn.
  - apply get_absent. unfold CacheService.delete. apply lookup_delete_eq.
  - apply get_absent. unfold CacheService.close. apply lookup_empty.
Qed.

(** What a [get] returns depends on the entry of its own key alone. *)
Lemma get_value_local now k (s1 s2 : CacheService.Store) :
  s1 !! CacheService._prefixed settings k = s2 !! CacheService._prefixed settings k ->
  fst (CacheService.get settings now k s1) = fst (CacheService.get settings now k s2).
Proof.
  intros H. unfold CacheService.get. cbv zeta. rewrite H.
  destruct (s2 !! _) as [[expiry v]|]; [|reflexivity].
  destruct (Qnonzero expiry && Qltb expiry now); reflexivity.
Qed.

(** Writing, deleting or reading (and so evicting) one key does not
    change what a [get] of another key returns. *)
Theorem cache_keys_independent (t now : Q) (k k' : string) (v : PyVal)
    (ttl : option Z) (store : CacheService.Store) :
  k <> k' ->
  fst (CacheService.get settings now k' (CacheService.set settings t k v ttl store))
  = fst (CacheService.get settings now k' store) /\
  fst (CacheService.get settings now k' (CacheService.delete settings k store))
  = fst (CacheService.get settings now k' store) /\
  fst (CacheService.get settings now k' (snd (CacheService.get settings t k store)))
  = fst (CacheService.get settings now k' store).
Proof.
  intros Hne.
  assert (Hk : CacheService._prefixed settings k <> CacheService._prefixed settings k').
  { intros H. apply Hne. apply _prefixed_inj. exact H. }
  split; [|split]; apply get_value_local.
  - unfold CacheService.set. cbv zeta. apply lookup_insert_ne. exact Hk.
  - unfold CacheService.delete. apply lookup_delete_ne. exact Hk.
  - unfold CacheService.get. cbv zeta.
    destruct (store !! CacheService._prefixed settings k) as [[expiry v0]|];
      [|reflexivity].
    destruct (Qnonzero expiry && Qltb expiry t); [|reflexivity].
    cbn [snd]. apply lookup_delete_ne. exact Hk.
Qed.

(** A [ttl] of 0 is no TTL at all: [set(k, v, ttl=0)] is
    [set(k, v)] with the configured TTL.  When that is 0 as well, the
    entry is written without expiry and every later [get] returns the
    value. *)
Theorem cache_zero_ttl (t0 t1 : Q) (k : string) (v : PyVal)
    (store : CacheService.Store) :
  CacheService.set settings t0 k v (Some 0) store
  = CacheService.set settings t0 k v None store /\
  (cache_ttl_seconds settings = 0 ->
   CacheService.get settings t1 k (CacheService.set settings t0 k v (Some 0) store)
   = (v, CacheService.set settings t0 k v (Some 0) store)).
Proof.
  split; [reflexivity|]. intros Hz.
  eapply get_alive; [apply set_lookup|]. left.
  unfold entry_expiry. cbv zeta. cbn [Z.eqb]. rewrite Hz. reflexivity.
Qed.

(** A second [set] of a key replaces value and expiry: until the new
    expiry, that instant included, a [get] returns the new value, also
    when the expiry of the first [set] has passed.  The reading of the
    [get] is a float, and [ttl] an [int] a float holds. *)
Theorem cache_overwrite_refreshes (t0 t1 now : Q) (k : string) (v1 v2 : PyVal)
    (ttl1 : option Z) (ttl2 : Z) (store : CacheService.Store) :
  0 < ttl2 -> exact_int ttl2 -> is_float now ->
  (now <= t1 + inject_Z ttl2)%Q ->
  let store2 :=
    CacheService.set settings t1 k v2 (Some ttl2)
      (CacheService.set settings t0 k v1 ttl1 store) in
  CacheService.get settings now k store2 = (v2, store2).
Proof.
  intros Httl Hint [Hfloat _] Hnow store2.
  eapply get_alive; [apply set_lookup|]. right.
  unfold entry_expiry. cbv zeta.
  destruct (ttl2 =? 0) eqn:E; [apply Z.eqb_eq in E; lia|].
  rewrite E, (add_int_exact t1 ttl2 Hint). apply fl_above; assumption.
Qed.

End CacheMore.

Lemma cache_keys_independent_witness :
  fst (CacheService.get default_settings 1200%Q "b"
         (CacheService.set default_settings 1000%Q "a" (PyInt 1) None
            (CacheService.set default_settings 900%Q "b" (PyInt 2) None ∅)))
  = PyInt 2.
Proof.
  destruct (cache_keys_independent default_settings 1000%Q 1200%Q "a" "b"
              (PyInt 1) None
              (CacheService.set default_settings 900%Q "b" (PyInt 2) None ∅))
    as [H _]; [discriminate|].
  rewrite H. vm_compute. reflexivity.
Defined.

Lemma cache_overwrite_refreshes_witness :
  fst (CacheService.get default_settings 1500%Q "k"
         (CacheService.set default_settings 1200%Q "k" (PyInt 2) (Some 300)
            (CacheService.set default_settings 1000%Q "k" (PyInt 1) (Some 100) ∅)))
  = PyInt 2.
Proof.
  rewrite (cache_overwrite_refreshes default_settings 1000%Q 1200%Q 1500%Q "k"
             (PyInt 1) (PyInt 2) (Some 100) 300 ∅).
  - reflexivity.
  - lia.
  - split; [|split]; vm_compute; reflexivity.
  - split; [|split]; vm_compute; reflexivity.
  - unfold Qle. simpl. lia.
Defined.

(** ** The wallet repository *)

Section RepositoryMore.
Import WalletRepository.

Lemma NetworkType_of_value nt : NetworkType_of (NetworkType_value nt) = Ok nt.
Proof. destruct nt; reflexivity. Qed.

Lemma NetworkType_of_Ok s nt : NetworkType_of s = Ok nt -> s = NetworkType_value nt.
Proof.
  unfold NetworkType_of. intros H.
  destruct (String.eqb s "ethereum") eqn:E1.
  { injection H as <-. apply String.eqb_eq in E1. exact E1. }
  destruct (String.eqb s "tron") eqn:E2.
  { injection H as <-. apply String.eqb_eq in E2. exact E2. }
  destruct (String.eqb s "bitcoin") eqn:E3; [|discriminate].
  injection H as <-. apply String.eqb_eq in E3. exact E3.
Qed.

Lemma filter_none {A} (f : A -> bool) (l : list A) :
  Forall (fun x => f x = false) l -> List.filter f l = [].
Proof.
  induction 1 as [|x l Hx _ IH]; [reflexivity|].
  cbn [List.filter]. rewrite Hx. exact IH.
Qed.

Lemma create_fresh (wl : Wallet) (d : Db) :
  rolled_back d = false ->
  int32 (derivation_index wl) = true ->
  Forall (fun r => row_wallet_address r <> wallet_address wl) (rows d) ->
  create wl d
  = (Ok {| user_id := user_id wl; network := network wl;
           wallet_address := wallet_address wl;
           derivation_index := derivation_index wl;
           id := Some (next_uuid d); created_at := created_at wl;
           last_accessed_at := last_accessed_at wl |},
     {| rows := rows d ++
                [{| row_id := next_uuid d; row_user_id := user_id wl;
                    row_network := NetworkType_value (network wl);
                    row_wallet_address := wallet_address wl;
                    row_derivation_index := derivation_index wl;
                    row_created_at := created_at wl;
                    row_last_accessed_at := None; row_version := 1 |}];
        committed := committed d;
        next_uuid := S (next_uuid d); rolled_back := false |}).
Proof.
  intros Hs Hi Hfresh. unfold create. rewrite Hs, Hi. cbn [negb].
  assert (E : existsb (fun r => String.eqb (row_wallet_address r) (wallet_address wl))
                (rows d) = false).
  { apply not_true_is_false. intros Hex. apply existsb_exists in Hex as (r & Hin & Heq).
    apply String.eqb_eq in Heq.
    apply (proj1 (List.Forall_forall _ _) Hfresh r Hin Heq). }
  rewrite E. reflexivity.
Qed.

(** Insert then look up.  On a session that can be used, take a wallet
    whose address passes the constructor's rule and is not in the
    table yet, for a user and network without a row.  When its
    derivation index fits the 32-bit [Integer] column, it is inserted
    under a fresh id, and the lookup by its user and network value
    then returns it, with that id, its [created_at], and no
    [last_accessed_at].  When the index does not fit, [create] raises
    [DBAPIError], and the lookup on the session then raises
    [PendingRollbackError]. *)
Theorem created_wallet_is_found (wl : Wallet) (d : Db) :
  rolled_back d = false ->
  constructor_rule (network wl) (wallet_address wl) ->
  Forall (fun r => row_wallet_address r <> wallet_address wl) (rows d) ->
  Forall (fun r => matches (user_id wl) (NetworkType_value (network wl)) r = false)
    (rows d) ->
  (int32 (derivation_index wl) = true ->
   fst (create wl d)
   = Ok {| user_id := user_id wl; network := network wl;
           wallet_address := wallet_address wl;
           derivation_index := derivation_index wl;
           id := Some (next_uuid d); created_at := created_at wl;
           last_accessed_at := last_accessed_at wl |} /\
   get_by_user_and_network (user_id wl) (NetworkType_value (network wl))
     (snd (create wl d))
   = Ok (Some {| user_id := user_id wl; network := network wl;
                 wallet_address := wallet_address wl;
                 derivation_index := derivation_index wl;
                 id := Some (next_uuid d); created_at := created_at wl;
                 last_accessed_at := None |})) /\
  (int32 (derivation_index wl) = false ->
   fst (create wl d) = Raise (DBAPIError "value out of int32 range") /\
   get_by_user_and_network (user_id wl) (NetworkType_value (network wl))
     (snd (create wl d))
   = Raise PendingRollbackError).
Proof.
  intros Hs Hrule Hfresh Hnone. split; intros Hi.
  - rewrite (create_fresh wl d Hs Hi Hfresh). cbn [fst snd].
    split; [reflexivity|].
    unfold get_by_user_and_network. cbn [rows rolled_back].
    rewrite List.filter_app, (filter_none _ _ Hnone). cbn [List.filter app].
    unfold matches at 1. cbn [row_user_id row_network].
    rewrite !String.eqb_refl. cbn [andb app].
    unfold _to_domain. cbn [row_network row_user_id row_wallet_address
      row_derivation_index row_created_at row_id row_last_accessed_at].
    rewrite NetworkType_of_value. unfold Wallet_new.
    apply _validate_address_rule in Hrule. rewrite Hrule. reflexivity.
  - unfold create. rewrite Hs, Hi. cbn [negb fst snd]. split; reflexivity.
Qed.

(** On a session that can be used, the table takes a second wallet for
    a user and network that have one, as long as the address differs
    and both derivation indices fit the 32-bit [Integer] column; from
    then on the lookup for that user and network raises
    [MultipleResultsFound]. *)
Theorem second_wallet_breaks_the_lookup (w1 w2 : Wallet) (d : Db) :
  rolled_back d = false ->
  int32 (derivation_index w1) = true ->
  int32 (derivation_index w2) = true ->
  user_id w2 = user_id w1 -> network w2 = network w1 ->
  wallet_address w2 <> wallet_address w1 ->
  Forall (fun r => row_wallet_address r <> wallet_address w1 /\
                   row_wallet_address r <> wallet_address w2) (rows d) ->
  Forall (fun r => matches (user_id w1) (NetworkType_value (network w1)) r = false)
    (rows d) ->
  let d1 := snd (create w1 d) in
  let d2 := snd (create w2 d1) in
  is_Ok (fst (create w1 d)) = true /\
  is_Ok (fst (create w2 d1)) = true /\
  length (rows d2) = S (S (length (rows d))) /\
  rolled_back d2 = false /\
  get_by_user_and_network (user_id w1) (NetworkType_value (network w1)) d2
  = Raise MultipleResultsFound.
Proof.
  intros Hs Hi1 Hi2 Hu Hn Ha Hfresh Hnone d1 d2.
  assert (H1 : Forall (fun r => row_wallet_address r <> wallet_address w1) (rows d)).
  { eapply List.Forall_impl; [|exact Hfresh]. cbv beta. intros r [H _]. exact H. }
  assert (Hd1 : d1 = snd (create w1 d)) by reflexivity.
  rewrite (create_fresh w1 d Hs Hi1 H1) in Hd1 |- *. cbn [snd fst] in Hd1 |- *.
  assert (H2 : Forall (fun r => row_wallet_address r <> wallet_address w2) (rows d1)).
  { rewrite Hd1. cbn [rows]. apply Forall_app. split.
    - eapply List.Forall_impl; [|exact Hfresh]. cbv beta. intros r [_ H]. exact H.
    - constructor; [|constructor]. cbn [row_wallet_address]. congruence. }
  assert (Hs1 : rolled_back d1 = false) by (rewrite Hd1; reflexivity).
  assert (Hd2 : d2 = snd (create w2 d1)) by reflexivity.
  rewrite (create_fresh w2 d1 Hs1 Hi2 H2) in Hd2 |- *. cbn [snd fst] in Hd2 |- *.
  split; [reflexivity|]. split; [reflexivity|]. split; [|split].
  - rewrite Hd2, Hd1. cbn [rows]. rewrite !length_app. cbn [length]. lia.
  - rewrite Hd2. reflexivity.
  - unfold get_by_user_and_network. rewrite Hd2, Hd1. cbn [rows next_uuid rolled_back].
    rewrite !List.filter_app, (filter_none _ _ Hnone). cbn [List.filter app].
    unfold matches. cbn [row_user_id row_network].
    rewrite Hu, Hn, !String.eqb_refl. reflexivity.
Qed.

(** On a session that can be used, the index the repository proposes
    is beyond every index stored for the network, and it is 0 when the
    table has no row of the network.  On a session whose flush has
    failed the call raises [PendingRollbackError]. *)
Theorem next_derivation_index_is_beyond (n : string) (d : Db) :
  (rolled_back d = false ->
   exists i,
     get_next_derivation_index n d = Ok i /\
     (forall r, In r (rows d) -> row_network r = n -> row_derivation_index r < i) /\
     (Forall (fun r => row_network r <> n) (rows d) -> i = 0)) /\
  (rolled_back d = true ->
   get_next_derivation_index n d = Raise PendingRollbackError).
Proof.
  split; intros Hs.
  - destruct (get_next_derivation_index_Ok n d Hs) as (i & Hi & Hbeyond & Hzero & _).
    exists i. split; [exact Hi|]. split; [exact Hbeyond|exact Hzero].
  - unfold get_next_derivation_index. rewrite Hs. reflexivity.
Qed.

Lemma NetworkType_value_not (n : string) e :
  NetworkType_of n = Raise e -> forall nt, NetworkType_value nt <> n.
Proof.
  intros H nt <-. rewrite NetworkType_of_value in H. discriminate.
Qed.

(** The rows [create] writes hold the value of the wallet's
    [NetworkType], so a table filled through [create] holds the three
    lowercase values only.  Against such a table, on a session that
    can be used, a lookup under a string that is no value of the enum
    (another spelling, such as "ETHEREUM") finds no wallet, and the
    next derivation index for that string is 0. *)
Theorem other_spellings_find_nothing (wl : Wallet) (u n : string) (d : Db) :
  stores_values d ->
  stores_values (snd (create wl d)) /\
  (forall e, NetworkType_of n = Raise e -> rolled_back d = false ->
     get_by_user_and_network u n d = Ok None /\
     get_next_derivation_index n d = Ok 0).
Proof.
  intros [Hinv Hcom]. split.
  - unfold create. destruct (rolled_back d); [split; assumption|].
    destruct (negb _); [split; exact Hcom|].
    destruct (existsb _ _); [split; exact Hcom|]. cbn [snd].
    split; [|exact Hcom]. cbn [rows]. apply Forall_app. split; [exact Hinv|].
    constructor; [|constructor]. exists (network wl). reflexivity.
  - intros e Hn Hs.
    assert (Hother : Forall (fun r => row_network r <> n) (rows d)).
    { eapply List.Forall_impl; [|exact Hinv]. cbv beta. intros r [nt Hr].
      rewrite Hr. apply (NetworkType_value_not n e Hn). }
    split.
    + unfold get_by_user_and_network. rewrite Hs, filter_none; [reflexivity|].
      eapply List.Forall_impl; [|exact Hother]. cbv beta. intros r Hr.
      unfold matches. apply andb_false_iff. right. apply String.eqb_neq. exact Hr.
    + destruct (get_next_derivation_index_Ok n d Hs) as (i & Hi & _ & Hzero & _).
      rewrite Hi, (Hzero Hother). reflexivity.
Qed.

End RepositoryMore.

Lemma created_wallet_is_found_witness :
  WalletRepository.get_by_user_and_network "u1" "ethereum" sample_wallet_db
  = Ok (Some {| user_id := "u1"; network := ETHEREUM;
                wallet_address := "0xe012f5471cc54d3526935a51df447f607f07f0f0";
                derivation_index := 0; id := Some 0%nat; created_at := 1000%Q;
                last_accessed_at := None |}).
Proof.
  apply (created_wallet_is_found sample_wallet WalletRepository.empty_db).
  - reflexivity.
  - split; reflexivity.
  - constructor.
  - constructor.
  - reflexivity.
Defined.

Lemma second_wallet_breaks_the_lookup_witness :
  WalletRepository.get_by_user_and_network "u1" "ethereum"
    (snd (WalletRepository.create sample_wallet_again sample_wallet_db))
  = Raise MultipleResultsFound.
Proof.
  apply (second_wallet_breaks_the_lookup sample_wallet sample_wallet_again
           WalletRepository.empty_db).
  - reflexivity.
  - reflexivity.
  - reflexivity.
  - reflexivity.
  - reflexivity.
  - discriminate.
  - constructor.
  - constructor.
Defined.

Lemma other_spellings_find_nothing_witness :
  WalletRepository.get_by_user_and_network "u1" "ETHEREUM" sample_wallet_db = Ok None /\
  WalletRepository.get_next_derivation_index "ETHEREUM" sample_wallet_db = Ok 0.
Proof.
  destruct (other_spellings_find_nothing sample_wallet "u1" "ETHEREUM"
              sample_wallet_db) as [_ H].
  - split; [constructor; [|constructor]; exists ETHEREUM; reflexivity|constructor].
  - apply (H (ValueError "'ETHEREUM' is not a valid NetworkType")); reflexivity.
Defined.

(** ** The allocator and other networks *)

Section AllocatorMore.
Variable settings : Settings.

Lemma get_next_index_local db t_get t_set n (s1 s2 : CacheService.Store) :
  s1 !! CacheService._prefixed settings ("next_index:" +:+ n)
  = s2 !! CacheService._prefixed settings ("next_index:" +:+ n) ->
  fst (DerivationService.get_next_index settings db t_get t_set n s1)
  = fst (DerivationService.get_next_index settings db t_get t_set n s2).
Proof.
  intros H. unfold DerivationService.get_next_index. cbv zeta.
  pose proof (get_value_local settings t_get _ s1 s2 H) as Hv.
  destruct (CacheService.get settings t_get _ s1) as [v1 st1].
  destruct (CacheService.get settings t_get _ s2) as [v2 st2].
  cbn [fst] in Hv. subst v2. destruct v1; try reflexivity.
  destruct (WalletRepository.get_next_derivation_index n db); reflexivity.
Qed.

Lemma get_next_index_frame db t_get t_set n (store : CacheService.Store) key :
  key <> CacheService._prefixed settings ("next_index:" +:+ n) ->
  snd (DerivationService.get_next_index settings db t_get t_set n store) !! key
  = store !! key.
Proof.
  intros Hne. unfold DerivationService.get_next_index. cbv zeta.
  assert (Hget : snd (CacheService.get settings t_get ("next_index:" +:+ n) store) !! key
                 = store !! key).
  { unfold CacheService.get. cbv zeta.
    destruct (store !! _) as [[expiry v]|]; [|reflexivity].
    destruct (Qnonzero expiry && Qltb expiry t_get); [|reflexivity].
    cbn [snd]. apply lookup_delete_ne. congruence. }
  destruct (CacheService.get settings t_get _ store) as [v st]. cbn [snd] in Hget.
  destruct v; cbn [snd]; try exact Hget;
    try destruct (WalletRepository.get_next_derivation_index n db);
    cbn [snd]; try exact Hget;
    unfold CacheService.set; cbv zeta;
    (rewrite lookup_insert_ne; [exact Hget | congruence]).
Qed.

(** The counters of two network strings do not touch each other: an
    allocation for one leaves what the next allocation for the other
    returns as it was.  Two spellings of a network are two strings, so
    "ethereum" and "ETHEREUM" are counted apart. *)
Theorem allocators_are_independent (db db' : WalletRepository.Db)
    (t_get t_set t_get' t_set' : Q) (n n' : string) (store : CacheService.Store) :
  n <> n' ->
  fst (DerivationService.get_next_index settings db' t_get' t_set' n'
         (snd (DerivationService.get_next_index settings db t_get t_set n store)))
  = fst (DerivationService.get_next_index settings db' t_get' t_set' n' store).
Proof.
  intros Hne. apply get_next_index_local. apply get_next_index_frame.
  intros H. apply _prefixed_inj in H. apply String.app_inj in H. congruence.
Qed.

End AllocatorMore.

Lemma allocators_are_independent_witness :
  DerivationService.successive_calls default_settings "ETHEREUM"
    [(sample_wallet_db, 1300%Q, 1300%Q)]
    (snd (DerivationService.get_next_index default_settings
            WalletRepository.empty_db 1000%Q 1000%Q "ethereum" ∅))
  = [Ok 0].
Proof.
  cbn [DerivationService.successive_calls].
  pose proof (allocators_are_independent default_settings
                WalletRepository.empty_db sample_wallet_db
                1000%Q 1000%Q 1300%Q 1300%Q "ethereum" "ETHEREUM" ∅) as H.
  destruct (DerivationService.get_next_index default_settings sample_wallet_db
              1300%Q 1300%Q "ETHEREUM" _) as [r st].
  cbn [fst] in H. rewrite H by discriminate. vm_compute. reflexivity.
Defined.

(** ** The generators: what [generate] returns *)

Section GeneratorMore.
Import Generators.
Context {lib : CryptoLib}.

(** An address [generate] returns has passed the generator's own
    [validate_address].  For the Tron and the Bitcoin generator that
    check contains the prefix-and-length rule of the [Wallet]
    constructor, so the constructor accepts every address these two
    return. *)
Theorem generated_address_is_valid (g : WalletGenerator) (m u : string) (i : Z)
    (cache : PathCache) (a : string) :
  fst (generate g m u i cache) = Ok a ->
  validate_address g a = Ok true /\
  (g = TronWalletGenerator ->
     forall idx now, is_Ok (Wallet_new u TRON a idx now) = true) /\
  (g = BitcoinWalletGenerator ->
     forall idx now, is_Ok (Wallet_new u BITCOIN a idx now) = true).
Proof.
  intros H. rewrite generate_unfold in H. cbn [fst] in H.
  destruct (fst (get_derivation_path g i cache)) as [path|e]; [|discriminate].
  destruct (generate_address g (_derive_seed m u) path) as [a0|e]; [|discriminate].
  destruct (validate_address g a0) as [[|]|e] eqn:Ev; try discriminate.
  injection H as <-.
  split; [exact Ev|]. split.
  - intros -> idx now. cbn [validate_address TronWalletGenerator] in Ev.
    injection Ev as Ev. apply andb_true_iff in Ev as [Ev _].
    unfold Wallet_new, _validate_address, _validate_tron_address.
    rewrite Ev. reflexivity.
  - intros -> idx now. cbn [validate_address BitcoinWalletGenerator] in Ev.
    unfold Wallet_new, _validate_address, _validate_bitcoin_address.
    destruct (String.length a0 <? 26)%nat eqn:E1; [discriminate|].
    destruct (35 <? String.length a0)%nat eqn:E2; [discriminate|].
    apply Nat.ltb_ge in E1, E2.
    apply Nat.leb_le in E1, E2. rewrite E1, E2. reflexivity.
Qed.

Lemma path_of_inj (g : WalletGenerator) i j : path_of g i = path_of g j -> i = j.
Proof.
  unfold path_of. intros H.
  apply String.app_inj in H. apply String.app_inj in H.
  apply (inj pretty) in H. exact H.
Qed.

(** On a generator, whatever calls it has served, two different
    derivation indices get two different paths. *)
Theorem distinct_indices_distinct_paths (g : WalletGenerator)
    (before : list (string * string * Z)) (i j : Z) :
  i <> j ->
  let cache := after_calls g before ∅ in
  let first := get_derivation_path g i cache in
  let second := get_derivation_path g j (snd first) in
  fst first = Ok (base_derivation_path g +:+ "/" +:+ pretty i) /\
  fst second = Ok (base_derivation_path g +:+ "/" +:+ pretty j) /\
  fst first <> fst second.
Proof.
  intros Hne cache first second.
  assert (H0 : paths_ok g cache) by apply after_calls_ok, paths_ok_empty.
  destruct (get_derivation_path_ok g i cache H0) as [Hf Hc].
  destruct (get_derivation_path_ok g j (snd first) Hc) as [Hs _].
  fold first in Hf. fold second in Hs.
  split; [exact Hf|]. split; [exact Hs|].
  rewrite Hf, Hs. intros H. injection H as H. apply Hne. apply (path_of_inj g). exact H.
Qed.

End GeneratorMore.

Lemma generated_address_is_valid_witness :
  exists a : string,
    fst (Generators.generate (lib := sample_lib)
           (Generators.TronWalletGenerator (lib := sample_lib))
           "abandon about" "u1" 0 ∅) = Ok a /\
    is_Ok (Wallet_new "u1" TRON a 0 1000%Q) = true.
Proof.
  eexists. split; [vm_compute; reflexivity|].
  eapply (generated_address_is_valid (lib := sample_lib)
            (Generators.TronWalletGenerator (lib := sample_lib))
            "abandon about" "u1" 0 ∅).
  - vm_compute. reflexivity.
  - reflexivity.
Defined.

Lemma distinct_indices_distinct_paths_witness :
  fst (Generators.get_derivation_path
         (Generators.EthereumWalletGenerator (lib := sample_lib)) 0 ∅)
  <> fst (Generators.get_derivation_path
            (Generators.EthereumWalletGenerator (lib := sample_lib)) 1
            (snd (Generators.get_derivation_path
                    (Generators.EthereumWalletGenerator (lib := sample_lib)) 0 ∅))).
Proof.
  apply (distinct_indices_distinct_paths (lib := sample_lib)
           (Generators.EthereumWalletGenerator (lib := sample_lib)) [] 0 1).
  lia.
Defined.

(** ** The wallet service: repeated and failed calls *)

Section ServiceMore.
Import Generators WalletEvents WalletService.
Context (settings : Settings) {lib : CryptoLib} {rt : PySet.Runtime}.

(** The block under [try] in [create_wallet], step by step. *)
Lemma creation_block clk u n (w : World) :
  let key := "wallet:" +:+ u +:+ ":" +:+ n in
  (wallet <~ _generate_wallet settings clk u n ;;
   wallet <~ repository_create wallet ;;
   cache_set settings (at_store clk) key (PyWallet wallet) ;;;
   create_task wallet ;;;
   ret (PyWallet wallet)) w
  = match _generate_wallet settings clk u n w with
    | (Raise e, w1) => (Raise e, w1)
    | (Ok wl, w1) =>
        match WalletRepository.create wl (db w1) with
        | (Raise e, d) => (Raise e, with_db d w1)
        | (Ok wl', d) =>
            (Ok (PyWallet wl'),
             with_task wl'
               (with_store
                  (CacheService.set settings (at_store clk) key (PyWallet wl') None
                     (store (with_db d w1)))
                  (with_db d w1)))
        end
    end.
Proof.
  intros key. unfold bind at 1.
  destruct (_generate_wallet settings clk u n w) as [[wl|e] w1]; [|reflexivity].
  unfold bind at 1, repository_create at 1.
  destruct (WalletRepository.create wl (db w1)) as [[wl'|e] d]; reflexivity.
Qed.

(** [create_wallet] when the cache holds nothing for the wallet's key. *)
Lemma create_wallet_miss clk u n (w : World) :
  store w !! CacheService._prefixed settings ("wallet:" +:+ u +:+ ":" +:+ n) = None ->
  create_wallet settings clk u n w
  = match WalletRepository.get_by_user_and_network u n (db w) with
    | Raise e => (Raise e, w)
    | Ok (Some found) =>
        (Ok (PyWallet found),
         with_store
           (CacheService.set settings (at_store clk)
              ("wallet:" +:+ u +:+ ":" +:+ n) (PyWallet found) None (store w)) w)
    | Ok None =>
        try_except
          (wallet <~ _generate_wallet settings clk u n ;;
           wallet <~ repository_create wallet ;;
           cache_set settings (at_store clk) ("wallet:" +:+ u +:+ ":" +:+ n)
             (PyWallet wallet) ;;;
           create_task wallet ;;;
           ret (PyWallet wallet))
          (fun e =>
             raise (WalletGenerationException
                      ("Failed to generate wallet: " +:+ Exn_str e))) w
    end.
Proof.
  intros Hmiss. unfold create_wallet. cbv zeta.
  unfold bind at 1, cache_get at 1.
  rewrite (get_absent settings _ _ _ Hmiss). rewrite with_store_same.
  cbn [truthy].
  unfold bind at 1, repository_get_by_user_and_network at 1.
  destruct (WalletRepository.get_by_user_and_network u n (db w)) as [[found|]|e];
    reflexivity.
Qed.

(** [create_wallet] when the cache holds a live wallet under the key:
    the call returns it and changes nothing. *)
Lemma create_wallet_cached clk u n (w : World) expiry wl :
  store w !! CacheService._prefixed settings ("wallet:" +:+ u +:+ ":" +:+ n)
  = Some (expiry, PyWallet wl) ->
  ((expiry == 0)%Q \/ (at_lookup clk <= expiry)%Q) ->
  create_wallet settings clk u n w = (Ok (PyWallet wl), w).
Proof.
  intros Hl Hal. unfold create_wallet. cbv zeta.
  unfold bind at 1, cache_get at 1.
  rewrite (get_alive settings _ _ _ _ _ Hl Hal). rewrite with_store_same.
  reflexivity.
Qed.

(** After a call that missed the cache and returned, the cache holds
    the returned wallet under the key, with the expiry of the
    [cache.set] that ended the call. *)
Lemma create_wallet_fills_cache clk u n (w : World) v :
  store w !! CacheService._prefixed settings ("wallet:" +:+ u +:+ ":" +:+ n) = None ->
  fst (create_wallet settings clk u n w) = Ok v ->
  exists wl,
    v = PyWallet wl /\
    store (snd (create_wallet settings clk u n w))
      !! CacheService._prefixed settings ("wallet:" +:+ u +:+ ":" +:+ n)
    = Some (entry_expiry settings (at_store clk) None, PyWallet wl).
Proof.
  intros Hmiss. rewrite (create_wallet_miss clk u n w Hmiss).
  destruct (WalletRepository.get_by_user_and_network u n (db w)) as [[found|]|e].
  - cbn [fst snd]. intros H. injection H as <-. exists found.
    split; [reflexivity|]. cbn [store with_store]. apply set_lookup.
  - unfold try_except. rewrite creation_block.
    destruct (_generate_wallet settings clk u n w) as [[wl|e] w1]; [|discriminate].
    destruct (WalletRepository.create wl (db w1)) as [[wl'|e] d]; [|discriminate].
    cbn [fst snd]. intros H. injection H as <-. exists wl'.
    split; [reflexivity|]. cbn [store with_store with_task]. apply set_lookup.
  - discriminate.
Qed.

(** Calling [create_wallet] again.  When a call that found nothing in
    the cache has returned a wallet, a second call for the same user
    and network string, made while the cache entry is alive, returns
    the same wallet and changes nothing: no second row, no second
    publication, no index taken. *)
Theorem create_wallet_again_is_served_from_cache
    (clk clk' : Clock) (u n : string) (w : World) (v : PyVal) :
  store w !! CacheService._prefixed settings ("wallet:" +:+ u +:+ ":" +:+ n) = None ->
  fst (create_wallet settings clk u n w) = Ok v ->
  ((entry_expiry settings (at_store clk) None == 0)%Q \/
   (at_lookup clk' <= entry_expiry settings (at_store clk) None)%Q) ->
  create_wallet settings clk' u n (snd (create_wallet settings clk u n w))
  = (Ok v, snd (create_wallet settings clk u n w)).
Proof.
  intros Hmiss Hok Hal.
  destruct (create_wallet_fills_cache clk u n w v Hmiss Hok) as (wl & -> & Hl).
  apply (create_wallet_cached clk' u n _ _ wl Hl Hal).
Qed.





End ServiceMore.

Lemma create_wallet_again_is_served_from_cache_witness :
  exists v : PyVal,
    fst (WalletService.create_wallet (lib := sample_lib) default_settings
           (clock_at 1000%Q) "u1" "ethereum"
           (WalletService.initial_world WalletRepository.empty_db)) = Ok v /\
    WalletService.create_wallet (lib := sample_lib) default_settings
      (clock_at 1300%Q) "u1" "ethereum"
      (snd (WalletService.create_wallet (lib := sample_lib) default_settings
              (clock_at 1000%Q) "u1" "ethereum"
              (WalletService.initial_world WalletRepository.empty_db)))
    = (Ok v,
       snd (WalletService.create_wallet (lib := sample_lib) default_settings
              (clock_at 1000%Q) "u1" "ethereum"
              (WalletService.initial_world WalletRepository.empty_db))).
Proof.
  eexists. split; [vm_compute; reflexivity|].
  apply (create_wallet_again_is_served_from_cache default_settings
           (lib := sample_lib) (clock_at 1000%Q) (clock_at 1300%Q) "u1" "ethereum"
           (WalletService.initial_world WalletRepository.empty_db)).
  - reflexivity.
  - vm_compute. reflexivity.
  - right. vm_compute. intros H. discriminate H.
Defined.


(** ** The event handler: redelivery *)

Section HandlerMore.
Import Generators WalletEvents WalletService.
Context (settings : Settings) {lib : CryptoLib} {rt : PySet.Runtime}.
Context (validate_datetime : JSON -> Res datetime).


(** The same event delivered again.  Once the handler has returned
    for an event (its key new, the set not full), a further delivery of
    that event returns at once and changes nothing. *)
Theorem redelivery_is_skipped (clk clk' : Clock) (ev : UserVerifiedEvent)
    (w : World) :
  PySet.mem (event_key ev) (processed_events w) = false ->
  len (processed_events w ++ [event_key ev]) <= 10000 ->
  fst (handle_user_verified settings clk ev w) = Ok tt ->
  handle_user_verified settings clk' ev (snd (handle_user_verified settings clk ev w))
  = (Ok tt, snd (handle_user_verified settings clk ev w)).
Proof.
  intros Hnew Hlen Hok. apply handle_duplicate.
  rewrite (handle_processed_events settings clk ev w Hnew), Hok.
  rewrite remember_small; [|apply mem_false; exact Hnew|exact Hlen].
  apply mem_true. apply elem_of_app. right. left.
Qed.


(** A record value that is no object, or an object in which one of
    [event], [user_id], [network] is missing or is no string, is
    rejected by the model's validation: [_process_message] raises
    [TypeError] or [ValidationError] and the handler is not reached, so
    the dedup set, the cache and the table stay as they are. *)
Theorem malformed_value_is_rejected (clk : Clock) (value : JSON) (w : World) :
  (forall members, value = JObject members ->
     exists field, In field ["event"; "user_id"; "network"] /\
                   forall s, dict_get field members <> Some (JString s)) ->
  exists msg,
    (_process_message settings validate_datetime clk value w = (Raise (TypeError msg), w) \/
     _process_message settings validate_datetime clk value w
     = (Raise (ValidationError msg), w)).
Proof.
  intros Hbad. unfold _process_message, bind, lift.
  destruct value as [| | | | |members];
    try (eexists; left; reflexivity).
  destruct (Hbad members eq_refl) as (field & Hfield & Hno).
  unfold UserVerifiedEvent_new, str_field.
  destruct (dict_get "event" members) as [[| | |s1| |]|] eqn:E1;
    try (eexists; right; reflexivity).
  destruct (dict_get "user_id" members) as [[| | |s2| |]|] eqn:E2;
    try (eexists; right; reflexivity).
  destruct (dict_get "network" members) as [[| | |s3| |]|] eqn:E3;
    try (eexists; right; reflexivity).
  exfalso. cbn [In] in Hfield.
  destruct Hfield as [<-|[<-|[<-|[]]]].
  - apply (Hno s1 E1).
  - apply (Hno s2 E2).
  - apply (Hno s3 E3).
Qed.

End HandlerMore.

Lemma redelivery_is_skipped_witness :
  WalletService.handle_user_verified (lib := sample_lib) (rt := insertion_ordered)
    default_settings (clock_at 1300%Q) first_delivery after_first_delivery
  = (Ok tt, after_first_delivery).
Proof.
  apply (redelivery_is_skipped default_settings (lib := sample_lib)
           (rt := insertion_ordered) (clock_at 1000%Q) (clock_at 1300%Q)
           first_delivery (WalletService.initial_world WalletRepository.empty_db)).
  - reflexivity.
  - vm_compute. intros H. discriminate H.
  - vm_compute. reflexivity.
Defined.


Lemma malformed_value_is_rejected_witness :
  exists msg,
    WalletService._process_message (lib := sample_lib) (rt := insertion_ordered)
      default_settings sample_validate_datetime (clock_at 1000%Q)
      (WalletEvents.JObject [("event", WalletEvents.JString "user.verified");
                             ("network", WalletEvents.JString "ethereum")])
      (WalletService.initial_world WalletRepository.empty_db)
    = (Raise (ValidationError msg),
       WalletService.initial_world WalletRepository.empty_db).
Proof.
  destruct (malformed_value_is_rejected default_settings (lib := sample_lib)
              (rt := insertion_ordered) sample_validate_datetime (clock_at 1000%Q)
              (WalletEvents.JObject [("event", WalletEvents.JString "user.verified");
                                     ("network", WalletEvents.JString "ethereum")])
              (WalletService.initial_world WalletRepository.empty_db))
    as [msg [H|H]].
  - intros members Hm. injection Hm as <-. exists "user_id".
    split; [right; left; reflexivity|]. intros s. discriminate.
  - discriminate H.
  - exists msg. exact H.
Defined.

(** ** Reading a wallet: [WalletService.get_wallet] and [GET /wallet/{user_id}] *)

Section ApiMore.
Import Generators WalletRepository WalletService WalletApi.
Context (settings : Settings) {lib : CryptoLib}.

Lemma lower_value (nt : NetworkType) :
  lower (NetworkType_value nt) = NetworkType_value nt.
Proof. destruct nt; reflexivity. Qed.

Lemma without_access_touch i now (l : list WalletRow) :
  map without_access (map (touch i now) l) = map without_access l.
Proof.
  rewrite List.map_map. apply List.map_ext. intros r. unfold touch.
  destruct (match i with Some k => (row_id r =? k)%nat | None => false end);
    reflexivity.
Qed.

Lemma lookup_none_filter u n (d : Db) :
  get_by_user_and_network u n d = Ok None ->
  List.filter (matches u n) (rows d) = [].
Proof.
  unfold get_by_user_and_network.
  destruct (rolled_back d); [discriminate|].
  destruct (List.filter (matches u n) (rows d)) as [|r [|r' l]]; [reflexivity| |discriminate].
  destruct (_to_domain r); discriminate.
Qed.

(** What [_generate_wallet] returns: a wallet of the user, on the
    network its lowercased argument names, whose address the
    constructor has accepted. *)
Lemma _generate_wallet_result clk u n (w w1 : World) (wl : Wallet) :
  _generate_wallet settings clk u n w = (Ok wl, w1) ->
  user_id wl = u /\ NetworkType_of (lower n) = Ok (network wl) /\
  _validate_address (network wl) (wallet_address wl) = true /\
  created_at wl = at_created clk.
Proof.
  unfold _generate_wallet. unfold bind at 1, lift at 1.
  destruct (NetworkType_of (lower n)) as [nt|e]; [|discriminate].
  unfold bind at 1.
  destruct (get_next_index settings clk n w) as [[i|e] w2]; [|discriminate].
  unfold bind at 1, lift at 1.
  destruct (decrypted_mnemonic settings) as [m|e]; [|discriminate].
  unfold bind at 1.
  destruct (on_generator nt _ w2) as [[a|e] w3]; [|discriminate].
  unfold lift, Wallet_new.
  destruct (_validate_address nt a) eqn:Ev; [|discriminate].
  intros H. injection H as <- _. cbn. auto.
Qed.

(** The row of a wallet [create_wallet] has returned: under the
    lowercase network value the repository finds one wallet, with the
    data of the returned one. *)
Lemma create_wallet_row clk u (nt : NetworkType) (w : World) (wl : Wallet) :
  store w !! CacheService._prefixed settings
               ("wallet:" +:+ u +:+ ":" +:+ NetworkType_value nt) = None ->
  fst (create_wallet settings clk u (NetworkType_value nt) w) = Ok (PyWallet wl) ->
  exists found,
    get_by_user_and_network u (NetworkType_value nt)
      (db (snd (create_wallet settings clk u (NetworkType_value nt) w)))
    = Ok (Some found) /\
    user_id found = user_id wl /\ network found = network wl /\
    wallet_address found = wallet_address wl /\ created_at found = created_at wl.
Proof.
  intros Hmiss. rewrite (create_wallet_miss settings clk u _ w Hmiss).
  destruct (get_by_user_and_network u (NetworkType_value nt) (db w))
    as [[found|]|e] eqn:Elook.
  - cbn [fst snd db with_store]. intros H. injection H as <-.
    exists found. rewrite Elook. auto.
  - unfold try_except. rewrite creation_block.
    pose proof (keeps_table__generate_wallet settings clk u (NetworkType_value nt) w)
      as Hkeep.
    destruct (_generate_wallet settings clk u (NetworkType_value nt) w)
      as [[wl0|e] w1] eqn:Egen; [|discriminate].
    cbn [snd] in Hkeep. destruct Hkeep as [Hdb _].
    destruct (_generate_wallet_result clk u _ w w1 wl0 Egen)
      as (Hu & Hn & Hv & _).
    rewrite lower_value, NetworkType_of_value in Hn. injection Hn as Hn.
    pose proof (lookup_Ok_usable _ _ _ _ Elook) as Husable.
    unfold create. rewrite Hdb, Husable.
    destruct (negb (int32 (derivation_index wl0))); [discriminate|].
    destruct (existsb _ (rows (db w))); [discriminate|].
    cbn [fst snd db with_db with_store with_task]. intros H. injection H as <-.
    cbn [user_id network wallet_address created_at].
    unfold get_by_user_and_network. cbn [rows rolled_back].
    rewrite List.filter_app, (lookup_none_filter _ _ _ Elook).
    cbn [List.filter app]. unfold matches at 1. cbn [row_user_id row_network].
    rewrite Hu, <- Hn, !String.eqb_refl. cbn [andb].
    unfold _to_domain. cbn [row_network row_user_id row_wallet_address
      row_derivation_index row_created_at row_id row_last_accessed_at].
    rewrite NetworkType_of_value. unfold Wallet_new. rewrite Hn, Hv.
    eexists. split; [reflexivity|]. cbn. auto.
  - discriminate.
Qed.

(** Create, then read.  Take a call of [create_wallet] for a user and
    a lowercase network value that found nothing in the cache under
    the wallet's key and returned a wallet.  That wallet is what
    [GET /wallet/{user_id}] answers for the user when it is asked
    next, under any capitalisation of the network and whatever the
    clock reads: from the cache while the entry is alive, from the
    table after it has expired. *)
Theorem created_wallet_is_served (clk : Clock) (t_lookup t_store t_access : Q)
    (u n' : string) (nt : NetworkType) (w : World) (wl : Wallet)
    (pending : list (option nat)) :
  store w !! CacheService._prefixed settings
               ("wallet:" +:+ u +:+ ":" +:+ NetworkType_value nt) = None ->
  lower n' = NetworkType_value nt ->
  fst (create_wallet settings clk u (NetworkType_value nt) w) = Ok (PyWallet wl) ->
  fst (get_wallet_route settings t_lookup t_store t_access u n'
         {| world := snd (create_wallet settings clk u (NetworkType_value nt) w);
            access_tasks := pending |})
  = WalletResponse (user_id wl) (NetworkType_value (network wl))
      (wallet_address wl) (created_at wl).
Proof.
  intros Hmiss Hlow Hok. unfold get_wallet_route. rewrite Hlow.
  assert (Hin : existsb (String.eqb (NetworkType_value nt))
                  ["ethereum"; "tron"; "bitcoin"] = true)
    by (destruct nt; reflexivity).
  rewrite Hin. cbn [negb].
  destruct (create_wallet_fills_cache settings clk u _ w _ Hmiss Hok)
    as (wl0 & Heq & Hl). injection Heq as <-.
  destruct (create_wallet_row clk u nt w wl Hmiss Hok)
    as (found & Hfound & Hu & Hn & Ha & Hc).
  unfold get_wallet. cbn [world access_tasks].
  unfold CacheService.get. cbv zeta. rewrite Hl.
  destruct (Qnonzero _ && Qltb _ _).
  - cbn [truthy db with_store]. rewrite Hfound.
    unfold update_last_accessed. cbn [db with_store].
    rewrite (lookup_Ok_usable _ _ _ _ Hfound). cbn [fst truthy negb].
    rewrite Hu, Hn, Ha, Hc. reflexivity.
  - reflexivity.
Qed.

(** A read changes no wallet.  Whatever [GET /wallet/{user_id}]
    answers, the table afterwards holds the same rows in the same
    order, equal up to [last_accessed_at]; no id is taken, no
    publication is scheduled and the set of processed events is as
    before. *)
Theorem reading_changes_no_wallet (t_lookup t_store t_access : Q)
    (u n : string) (p : Process) :
  map without_access
    (rows (db (world (snd (get_wallet_route settings t_lookup t_store t_access u n p)))))
  = map without_access (rows (db (world p))) /\
  next_uuid (db (world (snd (get_wallet_route settings t_lookup t_store t_access u n p))))
  = next_uuid (db (world p)) /\
  tasks (world (snd (get_wallet_route settings t_lookup t_store t_access u n p)))
  = tasks (world p) /\
  processed_events
    (world (snd (get_wallet_route settings t_lookup t_store t_access u n p)))
  = processed_events (world p).
Proof.
  unfold get_wallet_route.
  destruct (negb (existsb _ _)); [cbn [snd]; auto|].
  assert (Hget :
    let p' := snd (get_wallet settings t_lookup t_store t_access u (lower n) p) in
    map without_access (rows (db (world p'))) = map without_access (rows (db (world p))) /\
    next_uuid (db (world p')) = next_uuid (db (world p)) /\
    tasks (world p') = tasks (world p) /\
    processed_events (world p') = processed_events (world p)).
  { unfold get_wallet. cbv zeta.
    destruct (CacheService.get settings t_lookup _ (store (world p))) as [cached st].
    destruct (truthy cached).
    - destruct cached; cbn; auto.
    - cbn [db with_store].
      destruct (get_by_user_and_network u (lower n) (db (world p))) as [[wl|]|e];
        cbn [snd same_tasks world db with_store with_db tasks processed_events
             rows next_uuid]; auto.
      unfold update_last_accessed. cbn [db with_store].
      destruct (rolled_back (db (world p)));
        cbn [snd same_tasks world db with_store with_db tasks processed_events
             rows next_uuid]; auto.
      rewrite without_access_touch. auto. }
  cbv zeta in Hget.
  destruct (get_wallet settings t_lookup t_store t_access u (lower n) p) as [[v|e] p'];
    cbn [snd] in Hget.
  - destruct (negb (truthy v)); [exact Hget|]. destruct v; exact Hget.
  - exact Hget.
Qed.

(** What the route answers when there is nothing to find.  A network
    that is none of the three names, in any capitalisation, is answered
    400 before the service is called; a supported network for which the
    cache holds nothing and the table has no row is answered 404, on a
    session that can be used; in both cases the process is left as it
    was. *)
Theorem route_rejects_without_change (t_lookup t_store t_access : Q)
    (u n : string) (p : Process) :
  (forall e, NetworkType_of (lower n) = Raise e ->
     get_wallet_route settings t_lookup t_store t_access u n p
     = (HTTPException 400 ("Invalid network: " +:+ n), p)) /\
  (forall nt, NetworkType_of (lower n) = Ok nt ->
     store (world p) !! CacheService._prefixed settings
                          ("wallet:" +:+ u +:+ ":" +:+ lower n) = None ->
     rolled_back (db (world p)) = false ->
     Forall (fun r => matches u (lower n) r = false) (rows (db (world p))) ->
     get_wallet_route settings t_lookup t_store t_access u n p
     = (HTTPException 404 "Wallet not found", p)).
Proof.
  split.
  - intros e He. unfold get_wallet_route.
    assert (Hout : existsb (String.eqb (lower n)) ["ethereum"; "tron"; "bitcoin"] = false).
    { unfold NetworkType_of in He. cbn [existsb].
      destruct (String.eqb (lower n) "ethereum"); [discriminate|].
      destruct (String.eqb (lower n) "tron"); [discriminate|].
      destruct (String.eqb (lower n) "bitcoin"); [discriminate|]. reflexivity. }
    rewrite Hout. reflexivity.
  - intros nt Hnt Hmiss Husable Hnone. unfold get_wallet_route.
    apply NetworkType_of_Ok in Hnt.
    assert (Hin : existsb (String.eqb (lower n)) ["ethereum"; "tron"; "bitcoin"] = true).
    { rewrite Hnt. destruct nt; reflexivity. }
    rewrite Hin. cbn [negb].
    unfold get_wallet. cbv zeta.
    rewrite (get_absent settings _ _ _ Hmiss). cbn [truthy].
    rewrite with_store_same.
    unfold get_by_user_and_network. rewrite Husable, (filter_none _ _ Hnone).
    cbn [truthy negb]. destruct p; reflexivity.
Qed.

Lemma _to_domain_raises (r : WalletRow) e :
  _to_domain r = Raise e -> exists msg, e = ValueError msg.
Proof.
  unfold _to_domain.
  destruct (NetworkType_of (row_network r)) as [nt|e1] eqn:En.
  - destruct (Wallet_new _ nt _ _ _) as [wl|e2] eqn:Ew; [discriminate|].
    intros H. injection H as <-. apply (Wallet_new_raises _ _ _ _ _ _ Ew).
  - intros H. injection H as <-. apply (NetworkType_of_raises _ _ En).
Qed.

(** [exists] and the lookup read the same rows and agree: no row is
    [False] and [None], two rows or more is [MultipleResultsFound] in
    both, and a wallet the lookup returns is one [exists] reports. *)
Theorem exists_agrees_with_the_lookup (u n : string) (d : Db) :
  (exists_ u n d = Ok false <-> get_by_user_and_network u n d = Ok None) /\
  (exists_ u n d = Raise MultipleResultsFound <->
   get_by_user_and_network u n d = Raise MultipleResultsFound) /\
  (forall wl, get_by_user_and_network u n d = Ok (Some wl) -> exists_ u n d = Ok true).
Proof.
  unfold exists_, get_by_user_and_network.
  destruct (rolled_back d).
  { split; [split; discriminate|]. split; [split; discriminate|discriminate]. }
  destruct (List.filter (matches u n) (rows d)) as [|r [|r' rest]].
  - split; [tauto|]. split; [split; discriminate|discriminate].
  - destruct (_to_domain r) as [wl|e] eqn:Er.
    + split; [split; discriminate|]. split; [split; discriminate|reflexivity].
    + split; [split; discriminate|]. split; [|discriminate].
      split; [discriminate|]. intros H. injection H as ->.
      destruct (_to_domain_raises r _ Er) as [msg Hmsg]. discriminate Hmsg.
  - split; [split; discriminate|]. split; [tauto|discriminate].
Qed.

End ApiMore.

Lemma created_wallet_is_served_witness :
  exists wl : Wallet,
    fst (WalletService.create_wallet (lib := sample_lib) default_settings
           (clock_at 1000%Q) "u1" "ethereum"
           (WalletService.initial_world WalletRepository.empty_db))
    = Ok (PyWallet wl) /\
    fst (WalletApi.get_wallet_route default_settings 9000%Q 9000%Q 9000%Q "u1" "Ethereum"
           {| WalletApi.world :=
                snd (WalletService.create_wallet (lib := sample_lib) default_settings
                       (clock_at 1000%Q) "u1" "ethereum"
                       (WalletService.initial_world WalletRepository.empty_db));
              WalletApi.access_tasks := [] |})
    = WalletApi.WalletResponse (user_id wl) (NetworkType_value (network wl))
        (wallet_address wl) (created_at wl).
Proof.
  eexists. split; [vm_compute; reflexivity|].
  apply (created_wallet_is_served default_settings (lib := sample_lib)
           (clock_at 1000%Q) 9000%Q 9000%Q 9000%Q "u1" "Ethereum" ETHEREUM
           (WalletService.initial_world WalletRepository.empty_db)).
  - reflexivity.
  - reflexivity.
  - vm_compute. reflexivity.
Defined.

(** ** Retries around Kafka *)

Section KafkaMore.
Import Kafka.

(** Publishing gives up silently.  Whatever the publisher does,
    [_publish_wallet_created] and [_publish_event] return normally;
    they call the publisher at least once and at most three times,
    stop at the first call that succeeds, sleep 1 s after a first and
    2 s after a second failure (3 s at most), and log an error, once,
    exactly when all three calls have failed: the event is then
    lost. *)
Theorem publishing_gives_up_silently (publish : Z -> Res unit) :
  _publish_event publish = _publish_wallet_created publish /\
  snd (_publish_wallet_created publish) = Ok tt /\
  1 <= calls (fst (_publish_wallet_created publish)) <= 3 /\
  seconds_slept (fst (_publish_wallet_created publish))
  = 2 ^ (calls (fst (_publish_wallet_created publish)) - 1) - 1 /\
  (forall k, 0 <= k < calls (fst (_publish_wallet_created publish)) - 1 ->
     is_Ok (publish k) = false) /\
  (calls (fst (_publish_wallet_created publish)) < 3 ->
     is_Ok (publish (calls (fst (_publish_wallet_created publish)) - 1)) = true) /\
  (errors_logged (fst (_publish_wallet_created publish)) = 1 <->
     is_Ok (publish 0) = false /\ is_Ok (publish 1) = false /\
     is_Ok (publish 2) = false) /\
  errors_logged (fst (_publish_wallet_created publish)) <= 1.
Proof.
  split; [reflexivity|].
  unfold _publish_wallet_created, range3. cbn [publish_attempts].
  destruct (publish 0) as [[]|e0] eqn:E0.
  { unfold calls, seconds_slept, errors_logged. cbn. split; [reflexivity|]. split; [lia|]. split; [reflexivity|].
    split; [intros k Hk; lia|]. split; [intros _; change (publish (Z.of_nat 1 - 1)) with (publish 0);
            rewrite E0; reflexivity|].
    split; [|lia]. split; [discriminate|]. intros (H & _). discriminate H. }
  destruct (publish 1) as [[]|e1] eqn:E1.
  { unfold calls, seconds_slept, errors_logged. cbn. split; [reflexivity|]. split; [lia|]. split; [reflexivity|].
    split; [intros k Hk; assert (k = 0) as -> by lia; rewrite E0; reflexivity|].
    split; [intros _; change (publish (Z.of_nat 2 - 1)) with (publish 1);
            rewrite E1; reflexivity|].
    split; [|lia]. split; [discriminate|]. intros (_ & H & _). discriminate H. }
  destruct (publish 2) as [[]|e2] eqn:E2.
  { unfold calls, seconds_slept, errors_logged. cbn. split; [reflexivity|]. split; [lia|]. split; [reflexivity|].
    split; [intros k Hk; assert (k = 0 \/ k = 1) as [-> | ->] by lia;
            [rewrite E0|rewrite E1]; reflexivity|].
    split; [intros H; lia|].
    split; [|lia]. split; [discriminate|]. intros (_ & _ & H). discriminate H. }
  unfold calls, seconds_slept, errors_logged. cbn. split; [reflexivity|]. split; [lia|]. split; [reflexivity|].
  split; [intros k Hk; assert (k = 0 \/ k = 1) as [-> | ->] by lia;
          [rewrite E0|rewrite E1]; reflexivity|].
  split; [intros H; lia|].
  split; [|lia]. split; auto.
Qed.

(** Committing retries commit failures only.  [_commit_offsets]
    returns normally exactly when one of its three calls succeeds
    after calls that raised [CommitFailedError]; it sleeps 1 s and 2 s
    between them.  Any other exception leaves at once, with no sleep
    after it, and a third [CommitFailedError] is logged and raised. *)
Theorem commit_retries_commit_failures_only (commit : Z -> option CommitExn) :
  (snd (_commit_offsets commit) = None <->
   exists k, 0 <= k < 3 /\ commit k = None /\
     forall j, 0 <= j < k -> exists m, commit j = Some (CommitFailedError m)) /\
  (forall k e, 0 <= k < 3 -> commit k = Some (OtherError e) ->
     (forall j, 0 <= j < k -> exists m, commit j = Some (CommitFailedError m)) ->
     snd (_commit_offsets commit) = Some (OtherError e) /\
     calls (fst (_commit_offsets commit)) = k + 1 /\
     seconds_slept (fst (_commit_offsets commit)) = 2 ^ k - 1 /\
     errors_logged (fst (_commit_offsets commit)) = 0) /\
  (forall m0 m1 m2,
     commit 0 = Some (CommitFailedError m0) ->
     commit 1 = Some (CommitFailedError m1) ->
     commit 2 = Some (CommitFailedError m2) ->
     _commit_offsets commit
     = ([Call 0; Sleep 1; Call 1; Sleep 2; Call 2;
         LogError ("Failed to commit offsets: " +:+ m2)],
        Some (CommitFailedError m2))).
Proof.
  unfold _commit_offsets, range3. cbn [commit_attempts Z.ltb Z.compare].
  split; [|split].
  - split.
    + destruct (commit 0) as [[m0|e0]|] eqn:E0; cbn [snd]; try discriminate.
      2:{ intros _. exists 0. split; [lia|]. split; [exact E0|]. intros j Hj. lia. }
      destruct (commit 1) as [[m1|e1]|] eqn:E1; cbn [snd]; try discriminate.
      2:{ intros _. exists 1. split; [lia|]. split; [exact E1|].
          intros j Hj. assert (j = 0) as -> by lia. eauto. }
      destruct (commit 2) as [[m2|e2]|] eqn:E2; cbn [snd]; try discriminate.
      intros _. exists 2. split; [lia|]. split; [exact E2|].
      intros j Hj. assert (j = 0 \/ j = 1) as [-> | ->] by lia; eauto.
    + intros (k & Hk & Hnone & Hbefore).
      assert (k = 0 \/ k = 1 \/ k = 2) as [-> | [-> | ->]] by lia.
      * rewrite Hnone. reflexivity.
      * destruct (Hbefore 0 ltac:(lia)) as [m0 ->]. rewrite Hnone. reflexivity.
      * destruct (Hbefore 0 ltac:(lia)) as [m0 ->].
        destruct (Hbefore 1 ltac:(lia)) as [m1 ->]. rewrite Hnone. reflexivity.
  - intros k e Hk Hother Hbefore.
    assert (k = 0 \/ k = 1 \/ k = 2) as [-> | [-> | ->]] by lia.
    + rewrite Hother. unfold calls, seconds_slept, errors_logged. cbn. auto.
    + destruct (Hbefore 0 ltac:(lia)) as [m0 ->]. rewrite Hother. unfold calls, seconds_slept, errors_logged. cbn. auto.
    + destruct (Hbefore 0 ltac:(lia)) as [m0 ->].
      destruct (Hbefore 1 ltac:(lia)) as [m1 ->]. rewrite Hother. unfold calls, seconds_slept, errors_logged. cbn. auto.
  - intros m0 m1 m2 -> -> ->. reflexivity.
Qed.

Lemma commit_calls_positive (commit : Z -> option CommitExn) :
  1 <= calls (fst (_commit_offsets commit)).
Proof.
  unfold _commit_offsets, range3. cbn [commit_attempts Z.ltb Z.compare].
  destruct (commit 0) as [[m0|e0]|]; [|unfold calls; cbn; lia..].
  destruct (commit 1) as [[m1|e1]|]; [|unfold calls; cbn; lia..].
  destruct (commit 2) as [[m2|e2]|]; unfold calls; cbn; lia.
Qed.

Lemma filter_is_Raise_nil (results : list (Res unit)) :
  List.filter is_Raise results = [] <-> forallb is_Ok results = true.
Proof.
  induction results as [|r l IH]; [cbn; tauto|].
  cbn [List.filter forallb]. unfold is_Raise at 1.
  destruct (is_Ok r); cbn [negb andb].
  - exact IH.
  - split; discriminate.
Qed.

(** A batch with a failure is not committed.  In one turn of the
    consumer loop no commit is attempted when the processing of any
    message of the batch has raised, and the loop goes on; when all
    have returned, the offsets are committed, and the loop stops
    exactly when [_commit_offsets] raises. *)
Theorem failed_batch_is_not_committed (commit : Z -> option CommitExn)
    (records : list (list (Res unit))) :
  (forallb is_Ok (concat records) = false ->
     calls (fst (_consume_iteration commit records)) = 0 /\
     snd (_consume_iteration commit records) = Running) /\
  (records <> [] -> forallb is_Ok (concat records) = true ->
     1 <= calls (fst (_consume_iteration commit records)) /\
     (snd (_consume_iteration commit records) = Stopped <->
      snd (_commit_offsets commit) <> None)).
Proof.
  split.
  - intros Hfail. unfold _consume_iteration.
    destruct records as [|p ps]; [discriminate|].
    destruct (List.filter is_Raise (concat (p :: ps))) as [|f fs] eqn:Ef.
    + apply filter_is_Raise_nil in Ef. congruence.
    + unfold calls. cbn. auto.
  - intros Hne Hall. unfold _consume_iteration.
    destruct records as [|p ps]; [contradiction|].
    rewrite (proj2 (filter_is_Raise_nil _) Hall).
    pose proof (commit_calls_positive commit) as Hpos.
    destruct (_commit_offsets commit) as [trace [e|]]; cbn [fst snd] in *.
    + split.
      * unfold calls in *. rewrite List.filter_app, length_app. lia.
      * split; [discriminate|reflexivity].
    + split; [exact Hpos|]. split; [discriminate|]. intros H. contradiction.
Qed.

End KafkaMore.

(** ** The verification service: repeated requests, the route, the event *)

Section VerificationMore.
Import Verification VerificationApi.
Context (settings : Settings) {std : StdLib}.

Lemma Verification_NetworkType_of_value (nt : NetworkType) :
  NetworkType_of (NetworkType_value nt) = Ok nt.
Proof. destruct nt; reflexivity. Qed.

Lemma Verification_NetworkType_of_Ok (s : string) (nt : NetworkType) :
  NetworkType_of s = Ok nt -> s = NetworkType_value nt.
Proof.
  unfold NetworkType_of. intros H.
  destruct (String.eqb s "ethereum") eqn:E1.
  { injection H as <-. apply String.eqb_eq in E1. exact E1. }
  destruct (String.eqb s "tron") eqn:E2.
  { injection H as <-. apply String.eqb_eq in E2. exact E2. }
  destruct (String.eqb s "bitcoin") eqn:E3; [|discriminate].
  injection H as <-. apply String.eqb_eq in E3. exact E3.
Qed.

Lemma matches_set_status u n i s (r : VerificationRow) :
  matches u n (set_status i s r) = matches u n r.
Proof.
  unfold set_status.
  destruct (match i with Some k => (row_id r =? k)%nat | None => false end);
    reflexivity.
Qed.

Lemma filter_set_status u n i s (l : list VerificationRow) :
  List.filter (matches u n) (map (set_status i s) l)
  = map (set_status i s) (List.filter (matches u n) l).
Proof.
  induction l as [|r l IH]; [reflexivity|].
  cbn [map List.filter]. rewrite matches_set_status.
  destruct (matches u n r); cbn [map]; rewrite IH; reflexivity.
Qed.

(** The rows of the user and network after [process_new] has run. *)
Lemma process_new_rows t_created t_verified u data (nt : NetworkType) (w : World) :
  List.filter (matches u (NetworkType_value nt))
    (rows (snd (process_new t_created t_verified u (NetworkType_value nt) data w)))
  = map (set_status (Some (next_uuid w)) VERIFIED)
      (List.filter (matches u (NetworkType_value nt)) (rows w))
    ++ [{| row_id := next_uuid w; row_user_id := u;
           row_network := NetworkType_value nt;
           row_document_hash := sha256_hexdigest data;
           row_status := "verified"; row_verified_at := None;
           row_created_at := t_created; row_version := 1 |}].
Proof.
  rewrite (process_new_supported _ _ _ _ _ nt w (Verification_NetworkType_of_value nt)).
  cbn [snd rows]. rewrite filter_set_status, List.filter_app, List.map_app.
  f_equal. cbn [List.filter]. unfold matches at 1. cbn [row_user_id row_network].
  rewrite !String.eqb_refl. cbn [andb map]. unfold set_status. cbn [row_id].
  rewrite Nat.eqb_refl. reflexivity.
Qed.

(** Asking twice.  For a user and network without a row, a first
    [verify_user] stores a row and returns the verification, verified
    at the clock reading of [verify]; a second one, with any document
    within the limit, returns the stored verification: the same id,
    the hash of the first document, status verified, but no
    [verified_at], which the table never receives.  The second call
    writes nothing and schedules no publication. *)
Theorem second_verification_returns_the_stored_one
    (t1 t2 t3 t4 : Q) (u n doc doc' : string) (data data' : Generators.bytes)
    (nt : NetworkType) (w : World) :
  b64decode doc = Ok data -> Z.of_nat (String.length data) <= size_limit settings ->
  b64decode doc' = Ok data' -> Z.of_nat (String.length data') <= size_limit settings ->
  NetworkType_of n = Ok nt ->
  List.filter (matches u n) (rows w) = [] ->
  let first := verify_user settings t1 t2 u n doc w in
  let second := verify_user settings t3 t4 u n doc' (snd first) in
  fst first
  = Ok {| user_id := u; network := nt; document_hash := sha256_hexdigest data;
          id := Some (next_uuid w); status := VERIFIED; verified_at := Some t2;
          created_at := t1 |} /\
  fst second
  = Ok {| user_id := u; network := nt; document_hash := sha256_hexdigest data;
          id := Some (next_uuid w); status := VERIFIED; verified_at := None;
          created_at := t1 |} /\
  rows (snd second) = rows (snd first) /\
  next_uuid (snd second) = next_uuid (snd first) /\
  tasks (snd second) = tasks (snd first).
Proof.
  intros Hd Hle Hd' Hle' Hn Hnone first second. subst first second.
  apply Verification_NetworkType_of_Ok in Hn. subst n.
  assert (Hlook : lookup u (NetworkType_value nt) (rows w) = Ok None)
    by (unfold lookup; rewrite Hnone; reflexivity).
  rewrite (verify_user_within settings t1 t2 _ _ _ _ w Hd Hle), Hlook.
  set (w0 := called (CallGet u (NetworkType_value nt)) w).
  assert (Hrows : List.filter (matches u (NetworkType_value nt))
                    (rows (snd (process_new t1 t2 u (NetworkType_value nt) data w0)))
                  = [{| row_id := next_uuid w; row_user_id := u;
                        row_network := NetworkType_value nt;
                        row_document_hash := sha256_hexdigest data;
                        row_status := "verified"; row_verified_at := None;
                        row_created_at := t1; row_version := 1 |}]).
  { rewrite process_new_rows. subst w0. cbn [rows called next_uuid].
    rewrite Hnone. reflexivity. }
  rewrite (verify_user_within settings t3 t4 _ _ _ _ _ Hd' Hle').
  unfold lookup. rewrite Hrows. unfold _to_domain.
  cbn [row_network row_status row_user_id row_document_hash row_id
       row_verified_at row_created_at].
  rewrite Verification_NetworkType_of_value.
  change (VerificationStatus_of "verified") with (Ok VERIFIED).
  cbn [status is_VERIFIED fst snd rows next_uuid tasks called].
  rewrite (process_new_supported _ _ _ _ _ nt w0 (Verification_NetworkType_of_value nt)).
  cbn [fst snd]. subst w0. cbn [next_uuid called]. auto.
Qed.

Lemma set_status_fresh (k : nat) s (l : list VerificationRow) :
  Forall (fun r => (row_id r < k)%nat) l ->
  map (set_status (Some k) s) l = l.
Proof.
  induction 1 as [|r l Hr _ IH]; [reflexivity|].
  cbn [map]. rewrite IH. unfold set_status.
  destruct (Nat.eqb_spec (row_id r) k) as [Heq|Hneq]; [lia|reflexivity].
Qed.

(** A row left pending is never completed.  When the table holds one
    row for the user and network and its status is not verified (a
    request interrupted between [save] and [update_status]),
    [verify_user] does not take that row up: it leaves it as it is and
    stores a second row, which it verifies.  From then on the lookup
    for the user and network raises [MultipleResultsFound], and so
    does every later [verify_user] within the size limit, without
    writing anything. *)
Theorem pending_row_is_never_completed
    (t1 t2 t3 t4 : Q) (u n doc doc' : string) (data data' : Generators.bytes)
    (w : World) (found : UserVerification) :
  b64decode doc = Ok data -> Z.of_nat (String.length data) <= size_limit settings ->
  b64decode doc' = Ok data' -> Z.of_nat (String.length data') <= size_limit settings ->
  Forall (fun r => (row_id r < next_uuid w)%nat) (rows w) ->
  lookup u n (rows w) = Ok (Some found) ->
  status found <> VERIFIED ->
  let first := verify_user settings t1 t2 u n doc w in
  let second := verify_user settings t3 t4 u n doc' (snd first) in
  fst first
  = Ok {| user_id := u; network := network found;
          document_hash := sha256_hexdigest data; id := Some (next_uuid w);
          status := VERIFIED; verified_at := Some t2; created_at := t1 |} /\
  rows (snd first)
  = rows w ++ [{| row_id := next_uuid w; row_user_id := u; row_network := n;
                  row_document_hash := sha256_hexdigest data;
                  row_status := "verified"; row_verified_at := None;
                  row_created_at := t1; row_version := 1 |}] /\
  fst second = Raise MultipleResultsFound /\
  rows (snd second) = rows (snd first) /\
  tasks (snd second) = tasks (snd first).
Proof.
  intros Hd Hle Hd' Hle' Hfresh Hfound Hst first second. subst first second.
  pose proof (lookup_network _ _ _ _ Hfound) as Hn.
  apply Verification_NetworkType_of_Ok in Hn. subst n.
  rewrite (verify_user_within settings t1 t2 _ _ _ _ w Hd Hle), Hfound.
  assert (Hv : is_VERIFIED (status found) = false)
    by (destruct (status found); [reflexivity|contradiction|reflexivity]).
  rewrite Hv.
  set (nt := network found) in *.
  set (w0 := called (CallGet u (NetworkType_value nt)) w).
  pose proof (process_new_rows t1 t2 u data nt w0) as Hrows.
  unfold lookup in Hfound.
  destruct (List.filter (matches u (NetworkType_value nt)) (rows w))
    as [|r [|r' rest]] eqn:Ef; try discriminate.
  subst w0. cbn [rows called next_uuid] in Hrows. rewrite Ef in Hrows.
  cbn [map app] in Hrows.
  rewrite (verify_user_within settings t3 t4 _ _ _ _ _ Hd' Hle').
  unfold lookup. rewrite Hrows.
  rewrite (process_new_supported _ _ _ _ _ nt _ (Verification_NetworkType_of_value nt)).
  cbn [fst snd rows next_uuid tasks called].
  split; [reflexivity|]. split; [|auto].
  rewrite List.map_app, (set_status_fresh _ _ _ Hfresh). cbn [map].
  unfold set_status. cbn [row_id]. rewrite Nat.eqb_refl. reflexivity.
Qed.

End VerificationMore.

Section VerificationRoute.
Import Verification VerificationApi.
Context (settings : Settings) {std : StdLib}.

Lemma supported_NetworkType (s : string) :
  existsb (String.eqb s) supported_networks = true ->
  exists nt, NetworkType_of s = Ok nt.
Proof.
  unfold supported_networks, NetworkType_of. cbn [existsb].
  destruct (String.eqb s "ethereum"); [eauto|].
  destruct (String.eqb s "tron"); [eauto|].
  destruct (String.eqb s "bitcoin"); [eauto|]. discriminate.
Qed.

(** What the validators let through. *)
Lemma VerificationRequest_new_Ok (u n d : string) (r : VerificationRequest) :
  VerificationRequest_new u n d = Ok r ->
  r = {| req_user_id := u; req_network := lower n; req_document := d |} /\
  (1 <= String.length u <= 255)%nat /\
  (exists nt, NetworkType_of (lower n) = Ok nt) /\
  (exists data, b64decode d = Ok data).
Proof.
  unfold VerificationRequest_new.
  destruct ((1 <=? String.length u)%nat && (String.length u <=? 255)%nat) eqn:Eu;
    [|discriminate]. cbn [negb].
  destruct (1 <=? String.length n)%nat; [|discriminate]. cbn [negb].
  unfold validate_network.
  destruct (existsb (String.eqb (lower n)) supported_networks) eqn:En; [|discriminate].
  unfold validate_document_base64.
  destruct (b64decode d) as [data|e] eqn:Ed; [|discriminate].
  intros H. injection H as <-.
  apply andb_true_iff in Eu as [H1 H2].
  apply Nat.leb_le in H1. apply Nat.leb_le in H2.
  split; [reflexivity|]. split; [lia|].
  split; [apply supported_NetworkType; exact En|]. eauto.
Qed.

(** What [verify_user] returns is verified. *)
Lemma verify_user_status t_created t_verified u n doc (w : World) v :
  fst (verify_user settings t_created t_verified u n doc w) = Ok v ->
  status v = VERIFIED.
Proof.
  unfold verify_user, bind, lift, raise.
  destruct (b64decode doc) as [data|e]; [|discriminate].
  destruct (size_limit settings <? Z.of_nat (String.length data)); [discriminate|].
  unfold get_by_user_and_network.
  assert (Hnew : forall w0,
            fst (process_new t_created t_verified u n data w0) = Ok v ->
            status v = VERIFIED).
  { intros w0. destruct (NetworkType_of n) as [nt|e] eqn:En.
    - rewrite (process_new_supported _ _ _ _ _ nt w0 En). cbn [fst].
      intros H. injection H as <-. reflexivity.
    - rewrite (process_new_unsupported _ _ _ _ _ e w0 En). discriminate. }
  destruct (lookup u n (rows w)) as [[found|]|e]; [| |discriminate].
  - destruct (is_VERIFIED (status found)) eqn:Ev.
    + cbn [fst ret]. intros H. injection H as <-.
      destruct (status found); [discriminate|reflexivity|discriminate].
    + apply Hnew.
  - apply Hnew.
Qed.

(** A request the validators accept, for a user and network without
    a row, has two outcomes only: its document is over the size limit
    and [verify_user] raises [ValueError] with nothing written, or the
    user is verified on the network named, in lowercase, and the
    publication of [user.verified] is scheduled. *)
Theorem accepted_request_is_verified_or_too_large (t_created t_verified : Q)
    (u n d : string) (w : World) :
  is_Ok (VerificationRequest_new u n d) = true ->
  List.filter (matches u (lower n)) (rows w) = [] ->
  post_verify settings t_created t_verified u n d w
  = (Raise (ValueError "Document too large"), w) \/
  exists v,
    fst (post_verify settings t_created t_verified u n d w) = Ok v /\
    user_id v = u /\ NetworkType_value (network v) = lower n /\
    status v = VERIFIED /\ id v = Some (next_uuid w) /\
    tasks (snd (post_verify settings t_created t_verified u n d w)) = tasks w ++ [v].
Proof.
  intros Hok Hnone. unfold post_verify, bind, lift.
  destruct (VerificationRequest_new u n d) as [r|e] eqn:Er; [|discriminate].
  destruct (VerificationRequest_new_Ok u n d r Er) as (-> & _ & (nt & Hnt) & (data & Hd)).
  cbn [req_user_id req_network req_document].
  destruct (Z_lt_le_dec (size_limit settings) (Z.of_nat (String.length data)))
    as [Hlarge|Hle].
  - left. apply (verify_user_too_large settings _ _ _ _ _ data w Hd Hlarge).
  - right. rewrite (verify_user_within settings _ _ _ _ _ data w Hd Hle).
    unfold lookup. rewrite Hnone.
    rewrite (process_new_supported _ _ _ _ _ nt _ Hnt). cbn [fst snd tasks called].
    eexists. split; [reflexivity|]. cbn [user_id network status id next_uuid called].
    apply Verification_NetworkType_of_Ok in Hnt. auto.
Qed.

(** What [POST /verify] answers.  Every exception of [verify_user] is
    answered 500 "Internal server error"; in particular a document
    over the size limit is, with nothing read or written (the 413 of
    [DocumentTooLargeException] is never sent).  Every other answer
    carries the message "Verification in progress" together with the
    status "verified". *)
Theorem verification_route_answers (t_created t_verified : Q)
    (request : VerificationRequest) (w : World) :
  (forall e,
     fst (verify_user settings t_created t_verified (req_user_id request)
            (req_network request) (req_document request) w) = Raise e ->
     fst (verify_user_route settings t_created t_verified request w)
     = HTTPException 500 "Internal server error") /\
  (forall data,
     b64decode (req_document request) = Ok data ->
     size_limit settings < Z.of_nat (String.length data) ->
     verify_user_route settings t_created t_verified request w
     = (HTTPException 500 "Internal server error", w)) /\
  (forall v,
     fst (verify_user settings t_created t_verified (req_user_id request)
            (req_network request) (req_document request) w) = Ok v ->
     fst (verify_user_route settings t_created t_verified request w)
     = VerificationResponse "Verification in progress" (id v) "verified").
Proof.
  split; [|split].
  - intros e He. unfold verify_user_route.
    destruct (verify_user settings _ _ _ _ _ w) as [[v|e'] w']; [discriminate|].
    destruct e'; reflexivity.
  - intros data Hd Hlarge. unfold verify_user_route.
    rewrite (verify_user_too_large settings _ _ _ _ _ data w Hd Hlarge). reflexivity.
  - intros v Hv. pose proof (verify_user_status _ _ _ _ _ w v Hv) as Hst.
    unfold verify_user_route.
    destruct (verify_user settings _ _ _ _ _ w) as [[v'|e'] w']; [|discriminate].
    cbn [fst] in Hv. injection Hv as ->. cbn [fst]. rewrite Hst. reflexivity.
Qed.

End VerificationRoute.

(** ** From one service to the other *)

Section Pipeline.
Import Generators WalletEvents WalletService.
Context (settings : Settings) {lib : CryptoLib} {rt : PySet.Runtime}.
Context (validate_datetime : JSON -> Res datetime) (isoformat : Q -> string).

(** The event the verification service publishes for a verification
    is one the wallet service takes: whenever pydantic reads the
    timestamp written back as a [datetime], the consumer builds the
    event and hands it to the handler, with the user of the
    verification and with a network name that [NetworkType] of the
    wallet service knows under the same value. *)
Theorem published_event_is_accepted (v : Verification.UserVerification)
    (now : Q) (d : datetime) (clk : Clock) (w : World) :
  validate_datetime (JString (isoformat now)) = Ok d ->
  _process_message settings validate_datetime clk
    (VerificationApi.UserVerifiedEvent_value isoformat v now) w
  = handle_user_verified settings clk
      {| event := "user.verified"; ev_user_id := Verification.user_id v;
         ev_network := Verification.NetworkType_value (Verification.network v);
         timestamp := Some d |} w /\
  exists nt,
    NetworkType_of (lower (Verification.NetworkType_value (Verification.network v)))
    = Ok nt /\
    NetworkType_value nt = Verification.NetworkType_value (Verification.network v).
Proof.
  intros Hd. split.
  - unfold _process_message, bind, lift, VerificationApi.UserVerifiedEvent_value,
      UserVerifiedEvent_new, str_field.
    cbn [dict_get String.eqb Ascii.eqb Bool.eqb]. rewrite Hd. reflexivity.
  - destruct (Verification.network v).
    + exists ETHEREUM. split; reflexivity.
    + exists TRON. split; reflexivity.
    + exists BITCOIN. split; reflexivity.
Qed.

End Pipeline.

(** ** Further sample inputs *)

Lemma route_rejects_without_change_witness :
  WalletApi.get_wallet_route default_settings 1000%Q 1000%Q 1000%Q "u1" "Solana"
    {| WalletApi.world := after_first_delivery; WalletApi.access_tasks := [] |}
  = (WalletApi.HTTPException 400 "Invalid network: Solana",
     {| WalletApi.world := after_first_delivery; WalletApi.access_tasks := [] |}) /\
  WalletApi.get_wallet_route default_settings 1000%Q 1000%Q 1000%Q "u2" "Tron"
    {| WalletApi.world := WalletService.initial_world WalletRepository.empty_db;
       WalletApi.access_tasks := [] |}
  = (WalletApi.HTTPException 404 "Wallet not found",
     {| WalletApi.world := WalletService.initial_world WalletRepository.empty_db;
        WalletApi.access_tasks := [] |}).
Proof.
  split.
  - eapply (proj1 (route_rejects_without_change default_settings
                     1000%Q 1000%Q 1000%Q "u1" "Solana" _)).
    vm_compute. reflexivity.
  - apply (proj2 (route_rejects_without_change default_settings
                    1000%Q 1000%Q 1000%Q "u2" "Tron" _) TRON).
    + reflexivity.
    + vm_compute. reflexivity.
    + reflexivity.
    + constructor.
Defined.

Lemma commit_retries_commit_failures_only_witness :
  snd (Kafka._commit_offsets
         (fun k => if k =? 2 then None else Some (Kafka.CommitFailedError "rebalance")))
  = None.
Proof.
  apply (proj2 (proj1 (commit_retries_commit_failures_only
                         (fun k => if k =? 2 then None
                                   else Some (Kafka.CommitFailedError "rebalance"))))).
  exists 2. split; [lia|]. split; [reflexivity|].
  intros j Hj. exists "rebalance".
  assert (j = 0 \/ j = 1) as [-> | ->] by lia; reflexivity.
Defined.

Lemma failed_batch_is_not_committed_witness :
  Kafka.calls
    (fst (Kafka._consume_iteration (fun _ => None)
            [[Ok tt; Raise (WalletGenerationException "Failed to generate wallet")];
             [Ok tt]])) = 0 /\
  snd (Kafka._consume_iteration (fun _ => None)
         [[Ok tt; Raise (WalletGenerationException "Failed to generate wallet")];
          [Ok tt]]) = Kafka.Running.
Proof.
  apply (proj1 (failed_batch_is_not_committed (fun _ => None)
                  [[Ok tt; Raise (WalletGenerationException "Failed to generate wallet")];
                   [Ok tt]])).
  reflexivity.
Defined.

Lemma second_verification_returns_the_stored_one_witness :
  let first :=
    Verification.verify_user (std := sample_std) Verification.default_settings
      1000%Q 1003%Q "u1" "ethereum" "aGVsbG8=" (verification_world []) in
  let second :=
    Verification.verify_user (std := sample_std) Verification.default_settings
      2000%Q 2003%Q "u1" "ethereum" "aGVsbG8=" (snd first) in
  fst first
  = Ok {| Verification.user_id := "u1"; Verification.network := Verification.ETHEREUM;
          Verification.document_hash := "sha256:hello";
          Verification.id := Some 0%nat; Verification.status := Verification.VERIFIED;
          Verification.verified_at := Some 1003%Q;
          Verification.created_at := 1000%Q |} /\
  fst second
  = Ok {| Verification.user_id := "u1"; Verification.network := Verification.ETHEREUM;
          Verification.document_hash := "sha256:hello";
          Verification.id := Some 0%nat; Verification.status := Verification.VERIFIED;
          Verification.verified_at := None;
          Verification.created_at := 1000%Q |} /\
  Verification.rows (snd second) = Verification.rows (snd first) /\
  Verification.next_uuid (snd second) = Verification.next_uuid (snd first) /\
  Verification.tasks (snd second) = Verification.tasks (snd first).
Proof.
  apply (second_verification_returns_the_stored_one Verification.default_settings
           (std := sample_std) 1000%Q 1003%Q 2000%Q 2003%Q "u1" "ethereum"
           "aGVsbG8=" "aGVsbG8=" "hello" "hello" Verification.ETHEREUM
           (verification_world []) sample_document_decoded).
  - unfold Verification.size_limit. cbn. lia.
  - exact sample_document_decoded.
  - unfold Verification.size_limit. cbn. lia.
  - reflexivity.
  - reflexivity.
Defined.

Lemma pending_row_is_never_completed_witness :
  let first :=
    Verification.verify_user (std := sample_std) Verification.default_settings
      1000%Q 1003%Q "u1" "ethereum" "aGVsbG8=" (verification_world [pending_row]) in
  let second :=
    Verification.verify_user (std := sample_std) Verification.default_settings
      2000%Q 2003%Q "u1" "ethereum" "aGVsbG8=" (snd first) in
  fst first
  = Ok {| Verification.user_id := "u1"; Verification.network := Verification.ETHEREUM;
          Verification.document_hash := "sha256:hello";
          Verification.id := Some 1%nat; Verification.status := Verification.VERIFIED;
          Verification.verified_at := Some 1003%Q;
          Verification.created_at := 1000%Q |} /\
  Verification.rows (snd first)
  = [pending_row] ++
    [{| Verification.row_id := 1; Verification.row_user_id := "u1";
        Verification.row_network := "ethereum";
        Verification.row_document_hash := "sha256:hello";
        Verification.row_status := "verified";
        Verification.row_verified_at := None;
        Verification.row_created_at := 1000%Q; Verification.row_version := 1 |}] /\
  fst second = Raise MultipleResultsFound /\
  Verification.rows (snd second) = Verification.rows (snd first) /\
  Verification.tasks (snd second) = Verification.tasks (snd first).
Proof.
  apply (pending_row_is_never_completed Verification.default_settings
           (std := sample_std) 1000%Q 1003%Q 2000%Q 2003%Q "u1" "ethereum"
           "aGVsbG8=" "aGVsbG8=" "hello" "hello" (verification_world [pending_row])
           {| Verification.user_id := "u1"; Verification.network := Verification.ETHEREUM;
              Verification.document_hash := "sha256:old";
              Verification.id := Some 0%nat;
              Verification.status := Verification.PENDING;
              Verification.verified_at := None;
              Verification.created_at := 900%Q |}
           sample_document_decoded).
  - unfold Verification.size_limit. cbn. lia.
  - exact sample_document_decoded.
  - unfold Verification.size_limit. cbn. lia.
  - constructor; [cbn; lia|constructor].
  - reflexivity.
  - discriminate.
Defined.

Lemma accepted_request_is_verified_or_too_large_witness :
  Verification.post_verify (std := sample_std) Verification.default_settings
    1000%Q 1003%Q "u1" "Ethereum" "aGVsbG8=" (verification_world [])
  = (Raise (ValueError "Document too large"), verification_world []) \/
  exists v,
    fst (Verification.post_verify (std := sample_std) Verification.default_settings
           1000%Q 1003%Q "u1" "Ethereum" "aGVsbG8=" (verification_world [])) = Ok v /\
    Verification.user_id v = "u1" /\
    Verification.NetworkType_value (Verification.network v) = lower "Ethereum" /\
    Verification.status v = Verification.VERIFIED /\
    Verification.id v = Some (Verification.next_uuid (verification_world [])) /\
    Verification.tasks
      (snd (Verification.post_verify (std := sample_std) Verification.default_settings
              1000%Q 1003%Q "u1" "Ethereum" "aGVsbG8=" (verification_world [])))
    = Verification.tasks (verification_world []) ++ [v].
Proof.
  apply (accepted_request_is_verified_or_too_large Verification.default_settings
           (std := sample_std) 1000%Q 1003%Q "u1" "Ethereum" "aGVsbG8="
           (verification_world [])).
  - reflexivity.
  - reflexivity.
Defined.

Lemma verification_route_answers_witness :
  VerificationApi.verify_user_route (std := sample_std) one_mebibyte_settings
    1000%Q 1003%Q
    {| Verification.req_user_id := "u1"; Verification.req_network := "ethereum";
       Verification.req_document := one_byte_more_document |}
    (verification_world [])
  = (VerificationApi.HTTPException 500 "Internal server error", verification_world []).
Proof.
  apply (proj1 (proj2 (verification_route_answers one_mebibyte_settings
                         (std := sample_std) 1000%Q 1003%Q
                         {| Verification.req_user_id := "u1";
                            Verification.req_network := "ethereum";
                            Verification.req_document := one_byte_more_document |}
                         (verification_world [])))
           _ one_byte_more_decoded).
  rewrite append_length, zero_bytes_length. cbn [String.length].
  unfold Verification.size_limit. cbn. lia.
Defined.

Lemma published_event_is_accepted_witness :
  WalletService._process_message (lib := sample_lib) (rt := insertion_ordered)
    default_settings sample_validate_datetime (clock_at 1000%Q)
    (VerificationApi.UserVerifiedEvent_value (fun _ => "2025-01-01T10:00:03")
       {| Verification.user_id := "u1"; Verification.network := Verification.TRON;
          Verification.document_hash := "sha256:hello";
          Verification.id := Some 0%nat; Verification.status := Verification.VERIFIED;
          Verification.verified_at := Some 1003%Q;
          Verification.created_at := 1000%Q |} 1003%Q)
    (WalletService.initial_world WalletRepository.empty_db)
  = WalletService.handle_user_verified (lib := sample_lib) (rt := insertion_ordered)
      default_settings (clock_at 1000%Q)
      {| WalletEvents.event := "user.verified"; WalletEvents.ev_user_id := "u1";
         WalletEvents.ev_network := "tron";
         WalletEvents.timestamp :=
           Some {| WalletEvents.datetime_str := "2025-01-01T10:00:03" |} |}
      (WalletService.initial_world WalletRepository.empty_db).
Proof.
  apply (proj1 (published_event_is_accepted default_settings (lib := sample_lib)
                  (rt := insertion_ordered) sample_validate_datetime
                  (fun _ => "2025-01-01T10:00:03")
                  {| Verification.user_id := "u1";
                     Verification.network := Verification.TRON;
                     Verification.document_hash := "sha256:hello";
                     Verification.id := Some 0%nat;
                     Verification.status := Verification.VERIFIED;
                     Verification.verified_at := Some 1003%Q;
                     Verification.created_at := 1000%Q |}
                  1003%Q {| WalletEvents.datetime_str := "2025-01-01T10:00:03" |}
                  (clock_at 1000%Q)
                  (WalletService.initial_world WalletRepository.empty_db) eq_refl)).
Defined.
